(** * ChangerAI: a shallow embedding of the UI state logic

    The program is a single React component tree.  Its state lives in
    [useState] cells; event handlers and asynchronous operations call the
    cells' setters.  The embedding keeps one record per component, one
    function per setter and one function per handler, applied in the order
    the source calls them.

    An event handler runs in the render that follows the previous event,
    so what it reads from its closure is the current state; its setters
    are absolute ([setX(v)]) or functional ([setX(prev => ...)]), so
    applying them one after the other yields the state rendered next.

    Asynchronous operations ([async] functions around one
    [ai.models.generateContent] call) are split at the [await]: a [_begin]
    part (the guard, the entry setters, the request and the values the
    closure captures) and a [_settle] part (what runs once the call has
    returned or thrown, on whatever the state is by then), so that other
    events may happen in between.  The function named after the source
    function runs both parts back to back.

    Conventions:
    - a JS string is the [string] of its UTF-8 bytes: [split],
      [includes] and [startsWith] on such strings agree with the source's
      for the ASCII separators and markers it uses; [trim] strips the
      white space and line terminators of ECMAScript, whatever their
      length in bytes; [toLowerCase] acts on the ASCII letters;
    - [null]/[undefined] are [None]; truthiness of a string is written out
      ([truthy]);
    - integer-valued JS numbers (ids, counters, the blending level) are
      [Z]; the zoom scale, which is fractional, is a rational [Q];
    - the external model, the file reader, the clock and the locale time
      string are inputs of the functions that use them. *)

From Stdlib Require Import Bool List ZArith QArith Qminmax Lia Lqa.
From Stdlib Require Import Ascii String Sorted.
Import ListNotations.

Local Open Scope string_scope.
Local Open Scope list_scope.

(** Left-to-right application, to write handlers in source order. *)
Notation "s |> f" := (f s) (at level 45, left associativity, only parsing).

(* ================================================================= *)
(** ** JavaScript strings *)

Module Js.

Definition dquote : string := String "034"%char EmptyString.
Definition nl : string := String "010"%char EmptyString.

(** A template literal written line by line. *)
Definition lines (ls : list string) : string := String.concat nl ls.

(** [if (s)] on a string: the empty string is falsy. *)
Definition truthy (s : string) : bool :=
  match s with EmptyString => false | String _ _ => true end.

(** [if (x)] on [string | null | undefined]. *)
Definition truthy_opt (x : option string) : bool :=
  match x with None => false | Some s => truthy s end.

(** [s.startsWith(p)] *)
Definition startsWith (p s : string) : bool := String.prefix p s.

(** [s.includes(p)] *)
Fixpoint includes (p s : string) : bool :=
  String.prefix p s ||
  match s with
  | EmptyString => false
  | String _ s' => includes p s'
  end.

Definition lower_ascii (c : ascii) : ascii :=
  let n := nat_of_ascii c in
  if (65 <=? n)%nat && (n <=? 90)%nat then ascii_of_nat (n + 32) else c.

(** [s.toLowerCase()] *)
Fixpoint toLowerCase (s : string) : string :=
  match s with
  | EmptyString => EmptyString
  | String c s' => String (lower_ascii c) (toLowerCase s')
  end.

(** What [trim] strips: the code points of ECMAScript's WhiteSpace and
    LineTerminator productions, in UTF-8.  One byte: U+0009 to U+000D and
    U+0020. *)
Definition isWhitespace (c : ascii) : bool :=
  let n := nat_of_ascii c in
  ((9 <=? n)%nat && (n <=? 13)%nat) || (n =? 32)%nat.

(** Two bytes: U+00A0, the no-break space. *)
Definition isWhitespace2 (c1 c2 : ascii) : bool :=
  (nat_of_ascii c1 =? 194)%nat && (nat_of_ascii c2 =? 160)%nat.

(** Three bytes: U+1680, U+2000 to U+200A, U+2028, U+2029, U+202F, U+205F,
    U+3000 and U+FEFF. *)
Definition isWhitespace3 (c1 c2 c3 : ascii) : bool :=
  let a := nat_of_ascii c1 in
  let b := nat_of_ascii c2 in
  let c := nat_of_ascii c3 in
  ((a =? 225)%nat && (b =? 154)%nat && (c =? 128)%nat)
  || ((a =? 226)%nat && (b =? 128)%nat
      && (((128 <=? c)%nat && (c <=? 138)%nat)
          || (c =? 168)%nat || (c =? 169)%nat || (c =? 175)%nat))
  || ((a =? 226)%nat && (b =? 129)%nat && (c =? 159)%nat)
  || ((a =? 227)%nat && (b =? 128)%nat && (c =? 128)%nat)
  || ((a =? 239)%nat && (b =? 187)%nat && (c =? 191)%nat).

Fixpoint trimStart (s : string) : string :=
  match s with
  | EmptyString => EmptyString
  | String c1 s1 =>
      if isWhitespace c1 then trimStart s1
      else
        match s1 with
        | EmptyString => s
        | String c2 s2 =>
            if isWhitespace2 c1 c2 then trimStart s2
            else
              match s2 with
              | EmptyString => s
              | String c3 s3 => if isWhitespace3 c1 c2 c3 then trimStart s3 else s
              end
        end
  end.

(** Nothing but white space. *)
Definition isBlank (s : string) : bool := negb (truthy (trimStart s)).

(** Drops trailing white space: the string ends where nothing but white
    space follows. *)
Fixpoint trimEnd (s : string) : string :=
  match s with
  | EmptyString => EmptyString
  | String c s' => if isBlank s then EmptyString else String c (trimEnd s')
  end.

(** [s.trim()] *)
Definition trim (s : string) : string := trimEnd (trimStart s).

(** U+00A0 and U+3000 as the strings that hold them. *)
Definition noBreakSpace : string :=
  String "194"%char (String "160"%char EmptyString).

Definition ideographicSpace : string :=
  String "227"%char (String "128"%char (String "128"%char EmptyString)).

(** [s.split(sep)] for a one-character separator: never empty. *)
Fixpoint split (sep : ascii) (s : string) : list string :=
  match s with
  | EmptyString => [EmptyString]
  | String c s' =>
      if Ascii.eqb c sep then EmptyString :: split sep s'
      else match split sep s' with
           | [] => [String c EmptyString]
           | seg :: rest => String c seg :: rest
           end
  end.

(** [a[i]] on an array of strings: [undefined] out of range. *)
Definition at_index (a : list string) (i : nat) : option string := nth_error a i.

(** [`${n}`] for an integer-valued number. *)
Fixpoint digits_of (fuel : nat) (n : N) (acc : string) : string :=
  match fuel with
  | O => acc
  | S fuel' =>
      let d := ascii_of_N (48 + N.modulo n 10) in
      let acc' := String d acc in
      if (n <? 10)%N then acc' else digits_of fuel' (N.div n 10) acc'
  end.

Definition numberToString (z : Z) : string :=
  let mag := Z.to_N (Z.abs z) in
  let body := digits_of (S (N.to_nat (N.log2 mag))) mag EmptyString in
  if (z <? 0)%Z then String "-"%char body else body.

(** [a.join(sep)] *)
Definition join (sep : string) (a : list string) : string := String.concat sep a.

Fixpoint occurs (c : ascii) (s : string) : bool :=
  match s with
  | EmptyString => false
  | String d s' => Ascii.eqb d c || occurs c s'
  end.

End Js.

(* ================================================================= *)
(** ** The external model's interface (the parts of [@google/genai] used) *)

Module Api.

(** [{ mimeType, data }]: both fields are optional in the SDK's type. *)
Record InlineData := mkInlineData {
  mimeType : option string;
  data : option string
}.

Record Part := mkPart {
  text : option string;
  inlineData : option InlineData
}.

Definition textPart (t : string) : Part := mkPart (Some t) None.
Definition inlinePart (m d : option string) : Part :=
  mkPart None (Some (mkInlineData m d)).

Record Content := mkContent { parts : option (list Part) }.

Record Candidate := mkCandidate { content : option Content }.

(** [response.text] is a getter of the SDK; its value comes with the
    response. *)
Record Response := mkResponse {
  candidates : option (list Candidate);
  responseText : option string
}.

Inductive Contents :=
| ContentsString (s : string)
| ContentsParts (ps : list Part).

Record Config := mkConfig {
  systemInstruction : option string;
  responseMimeType : option string
}.

Record Request := mkRequest {
  model : string;
  contents : Contents;
  config : option Config
}.

(** A thrown value, as far as [isAuthError] looks at it: [err.toString()],
    [typeof err === 'object'] and [JSON.stringify(err)]. *)
Record JsError := mkJsError {
  errToString : string;
  errIsObject : bool;
  errJson : string
}.

(** [new Error(msg)]: no enumerable property, so [JSON.stringify] gives
    an empty object. *)
Definition newError (msg : string) : JsError :=
  mkJsError ("Error: " ++ msg) true "{}".

(** How [await ai.models.generateContent(...)] ends. *)
Inductive Outcome :=
| Returns (r : Response)
| Throws (e : JsError).

(** [response.candidates?.[0]?.content?.parts] *)
Definition firstCandidateParts (r : Response) : option (list Part) :=
  match candidates r with
  | Some (c :: _) =>
      match content c with
      | Some ct => parts ct
      | None => None
      end
  | _ => None
  end.

(** The loop [for (const part of parts) if (part.inlineData) { generatedBase64
    = part.inlineData.data; break; }], started with [generatedBase64 = null]. *)
Fixpoint scanParts (ps : list Part) : option string :=
  match ps with
  | [] => None
  | p :: ps' =>
      match inlineData p with
      | Some d => data d
      | None => scanParts ps'
      end
  end.

Definition generatedBase64 (r : Response) : option string :=
  match firstCandidateParts r with
  | Some ps => scanParts ps
  | None => None
  end.

(** The body of the [try] block of the three generation operations, from
    the [await] on: the base64 payload, or the value that reaches [catch]. *)
Definition tryGenerate (res : Outcome) : string + JsError :=
  match res with
  | Throws e => inr e
  | Returns r =>
      match generatedBase64 r with
      | Some b => if Js.truthy b then inl b else inr (newError "No image generated.")
      | None => inr (newError "No image generated.")
      end
  end.

End Api.

(* ================================================================= *)
(** ** Helpers and constants *)

Definition errString (err : Api.JsError) : string :=
  Js.toLowerCase
    (Api.errToString err ++ (if Api.errIsObject err then Api.errJson err else "")).

Definition isAuthError (err : Api.JsError) : bool :=
  let str := errString err in
  Js.includes "403" str || Js.includes "permission_denied" str
  || Js.includes "permission denied" str || Js.includes "not found" str.

Record ModelConfig := mkModelConfig {
  modelId : string;
  apiModel : string;
  modelName : string;
  modelLabel : string;
  modelDescription : string;
  modelDisabled : bool
}.

Definition MODELS : list ModelConfig :=
  [ mkModelConfig "nano-banana-1" "gemini-2.5-flash-image" "Nano Banana 1"
      "Standard" "Fast, efficient, creative drafts." false;
    mkModelConfig "nano-banana-2" "gemini-3-pro-image-preview" "Nano Banana 2"
      "Pro" "Ultra-realistic details & reasoning." true ].

Definition MODELS_0 : ModelConfig :=
  mkModelConfig "nano-banana-1" "gemini-2.5-flash-image" "Nano Banana 1"
    "Standard" "Fast, efficient, creative drafts." false.

(** [(MODELS.find(m => m.id === id) || MODELS[0]).apiModel] *)
Definition apiModelFor (id : string) : string :=
  match find (fun m => String.eqb (modelId m) id) MODELS with
  | Some m => apiModel m
  | None => apiModel MODELS_0
  end.

(** [img.split(',')[1]] *)
Definition base64Of (img : string) : option string :=
  Js.at_index (Js.split "," img) 1.

(** [img.split(';')[0].split(':')[1]] *)
Definition mimeOf (img : string) : option string :=
  match Js.split ";" img with
  | [] => None
  | first :: _ => Js.at_index (Js.split ":" first) 1
  end.

(** What the code builds for a generated image, and the shape of what
    [FileReader.readAsDataURL] delivers. *)
Definition dataURL (mime payload : string) : string :=
  "data:" ++ mime ++ ";base64," ++ payload.

Definition pngDataURL (payload : string) : string :=
  "data:image/png;base64," ++ payload.

(** A file handed to an upload handler: its [type], and what the
    [FileReader] hands to [onload] as [e.target.result] ([None] when the
    read fails and [onload] is never called). *)
Record File := mkFile {
  fileType : string;
  fileResult : option string
}.

(* ================================================================= *)
(** ** The main component: state *)

Inductive View := editor | advanced | gallery | brush | inspector | filters.

Inductive Feedback := liked | disliked.

#[projections(primitive)]
Record HistoryItem := mkHistoryItem {
  itemId : Z;
  itemOriginal : string;
  itemGenerated : string;
  itemPrompt : string;
  itemTimestamp : string;
  itemModel : string
}.

#[projections(primitive)]
Record LearningProfile := mkLearningProfile {
  lightingEmphasis : Z;
  blendingStrictness : Z;
  corrections : list string
}.

#[projections(primitive)]
Record AppState := mkAppState {
  hasApiKey : bool;
  isInitialLoad : bool;
  originalImage : option string;
  generatedImage : option string;
  prompt : string;
  loading : bool;
  enhancing : bool;
  error : string;
  blending : Z;
  isCompareMode : bool;
  sceneRefImage : option string;
  analyzingSceneRef : bool;
  selectedModel : string;
  activeView : View;
  history : list HistoryItem;
  feedback : option Feedback;
  showFeedbackOptions : bool;
  learningProfile : LearningProfile
}.

(** The values [useState] is given in [App]. *)
Definition initialState : AppState :=
  mkAppState false true None None "" false false "" 50 false None false
    "nano-banana-1" editor [] None false (mkLearningProfile 0 0 []).

Definition setHasApiKey (v : bool) (s : AppState) : AppState :=
  mkAppState v (isInitialLoad s) (originalImage s) (generatedImage s) (prompt s) (loading s) (enhancing s) (error s) (blending s) (isCompareMode s) (sceneRefImage s) (analyzingSceneRef s) (selectedModel s) (activeView s) (history s) (feedback s) (showFeedbackOptions s) (learningProfile s).

Definition setIsInitialLoad (v : bool) (s : AppState) : AppState :=
  mkAppState (hasApiKey s) v (originalImage s) (generatedImage s) (prompt s) (loading s) (enhancing s) (error s) (blending s) (isCompareMode s) (sceneRefImage s) (analyzingSceneRef s) (selectedModel s) (activeView s) (history s) (feedback s) (showFeedbackOptions s) (learningProfile s).

Definition setOriginalImage (v : option string) (s : AppState) : AppState :=
  mkAppState (hasApiKey s) (isInitialLoad s) v (generatedImage s) (prompt s) (loading s) (enhancing s) (error s) (blending s) (isCompareMode s) (sceneRefImage s) (analyzingSceneRef s) (selectedModel s) (activeView s) (history s) (feedback s) (showFeedbackOptions s) (learningProfile s).

Definition setGeneratedImage (v : option string) (s : AppState) : AppState :=
  mkAppState (hasApiKey s) (isInitialLoad s) (originalImage s) v (prompt s) (loading s) (enhancing s) (error s) (blending s) (isCompareMode s) (sceneRefImage s) (analyzingSceneRef s) (selectedModel s) (activeView s) (history s) (feedback s) (showFeedbackOptions s) (learningProfile s).

Definition setPrompt (v : string) (s : AppState) : AppState :=
  mkAppState (hasApiKey s) (isInitialLoad s) (originalImage s) (generatedImage s) v (loading s) (enhancing s) (error s) (blending s) (isCompareMode s) (sceneRefImage s) (analyzingSceneRef s) (selectedModel s) (activeView s) (history s) (feedback s) (showFeedbackOptions s) (learningProfile s).

Definition setLoading (v : bool) (s : AppState) : AppState :=
  mkAppState (hasApiKey s) (isInitialLoad s) (originalImage s) (generatedImage s) (prompt s) v (enhancing s) (error s) (blending s) (isCompareMode s) (sceneRefImage s) (analyzingSceneRef s) (selectedModel s) (activeView s) (history s) (feedback s) (showFeedbackOptions s) (learningProfile s).

Definition setEnhancing (v : bool) (s : AppState) : AppState :=
  mkAppState (hasApiKey s) (isInitialLoad s) (originalImage s) (generatedImage s) (prompt s) (loading s) v (error s) (blending s) (isCompareMode s) (sceneRefImage s) (analyzingSceneRef s) (selectedModel s) (activeView s) (history s) (feedback s) (showFeedbackOptions s) (learningProfile s).

Definition setError (v : string) (s : AppState) : AppState :=
  mkAppState (hasApiKey s) (isInitialLoad s) (originalImage s) (generatedImage s) (prompt s) (loading s) (enhancing s) v (blending s) (isCompareMode s) (sceneRefImage s) (analyzingSceneRef s) (selectedModel s) (activeView s) (history s) (feedback s) (showFeedbackOptions s) (learningProfile s).

Definition setBlending (v : Z) (s : AppState) : AppState :=
  mkAppState (hasApiKey s) (isInitialLoad s) (originalImage s) (generatedImage s) (prompt s) (loading s) (enhancing s) (error s) v (isCompareMode s) (sceneRefImage s) (analyzingSceneRef s) (selectedModel s) (activeView s) (history s) (feedback s) (showFeedbackOptions s) (learningProfile s).

Definition setIsCompareMode (v : bool) (s : AppState) : AppState :=
  mkAppState (hasApiKey s) (isInitialLoad s) (originalImage s) (generatedImage s) (prompt s) (loading s) (enhancing s) (error s) (blending s) v (sceneRefImage s) (analyzingSceneRef s) (selectedModel s) (activeView s) (history s) (feedback s) (showFeedbackOptions s) (learningProfile s).

Definition setSceneRefImage (v : option string) (s : AppState) : AppState :=
  mkAppState (hasApiKey s) (isInitialLoad s) (originalImage s) (generatedImage s) (prompt s) (loading s) (enhancing s) (error s) (blending s) (isCompareMode s) v (analyzingSceneRef s) (selectedModel s) (activeView s) (history s) (feedback s) (showFeedbackOptions s) (learningProfile s).

Definition setAnalyzingSceneRef (v : bool) (s : AppState) : AppState :=
  mkAppState (hasApiKey s) (isInitialLoad s) (originalImage s) (generatedImage s) (prompt s) (loading s) (enhancing s) (error s) (blending s) (isCompareMode s) (sceneRefImage s) v (selectedModel s) (activeView s) (history s) (feedback s) (showFeedbackOptions s) (learningProfile s).

Definition setSelectedModel (v : string) (s : AppState) : AppState :=
  mkAppState (hasApiKey s) (isInitialLoad s) (originalImage s) (generatedImage s) (prompt s) (loading s) (enhancing s) (error s) (blending s) (isCompareMode s) (sceneRefImage s) (analyzingSceneRef s) v (activeView s) (history s) (feedback s) (showFeedbackOptions s) (learningProfile s).

Definition setActiveView (v : View) (s : AppState) : AppState :=
  mkAppState (hasApiKey s) (isInitialLoad s) (originalImage s) (generatedImage s) (prompt s) (loading s) (enhancing s) (error s) (blending s) (isCompareMode s) (sceneRefImage s) (analyzingSceneRef s) (selectedModel s) v (history s) (feedback s) (showFeedbackOptions s) (learningProfile s).

(** [setHistory(prev => f(prev))] *)
Definition setHistory (f : list HistoryItem -> list HistoryItem) (s : AppState) : AppState :=
  mkAppState (hasApiKey s) (isInitialLoad s) (originalImage s) (generatedImage s) (prompt s) (loading s) (enhancing s) (error s) (blending s) (isCompareMode s) (sceneRefImage s) (analyzingSceneRef s) (selectedModel s) (activeView s) (f (history s)) (feedback s) (showFeedbackOptions s) (learningProfile s).

Definition setFeedback (v : option Feedback) (s : AppState) : AppState :=
  mkAppState (hasApiKey s) (isInitialLoad s) (originalImage s) (generatedImage s) (prompt s) (loading s) (enhancing s) (error s) (blending s) (isCompareMode s) (sceneRefImage s) (analyzingSceneRef s) (selectedModel s) (activeView s) (history s) v (showFeedbackOptions s) (learningProfile s).

Definition setShowFeedbackOptions (v : bool) (s : AppState) : AppState :=
  mkAppState (hasApiKey s) (isInitialLoad s) (originalImage s) (generatedImage s) (prompt s) (loading s) (enhancing s) (error s) (blending s) (isCompareMode s) (sceneRefImage s) (analyzingSceneRef s) (selectedModel s) (activeView s) (history s) (feedback s) v (learningProfile s).

Definition setLearningProfile (v : LearningProfile) (s : AppState) : AppState :=
  mkAppState (hasApiKey s) (isInitialLoad s) (originalImage s) (generatedImage s) (prompt s) (loading s) (enhancing s) (error s) (blending s) (isCompareMode s) (sceneRefImage s) (analyzingSceneRef s) (selectedModel s) (activeView s) (history s) (feedback s) (showFeedbackOptions s) v.

(* ================================================================= *)
(** ** The main component: handlers *)

(** [handleConnect]; [aistudio] says whether [window.aistudio] exists. *)
Definition handleConnect (aistudio : bool) (s : AppState) : AppState :=
  if aistudio then s |> setHasApiKey true else s.

(** The mount effect [check]; [aistudio] is the answer of
    [window.aistudio.hasSelectedApiKey()] when the object exists. *)
Definition check (aistudio : option bool) (s : AppState) : AppState :=
  (match aistudio with
   | Some has => s |> setHasApiKey has
   | None => s
   end) |> setIsInitialLoad false.

(** [reader.onload] of [handleFile]. *)
Definition handleFile_onload (result : option string) (s : AppState) : AppState :=
  if Js.truthy_opt result then
    s |> setOriginalImage result
      |> setGeneratedImage None
      |> setFeedback None
      |> setShowFeedbackOptions false
      |> setError ""
      |> setActiveView editor
  else s.

Definition handleFile (file : File) (s : AppState) : AppState :=
  if negb (Js.startsWith "image/" (fileType file)) then
    s |> setError "Unsupported file format."
  else
    match fileResult file with
    | Some r => handleFile_onload (Some r) s
    | None => s
    end.

Definition lightingCorrection : string :=
  "User complained about bad lighting integration previously. FORCE Color Grading and Light Matching.".

Definition cutoutCorrection : string :=
  "User complained about artificial edges. IMPROVE Edge Blending and Alpha Matting.".

Definition fakeCorrection : string :=
  "User complained result looked fake. INCREASE Photorealism and Texture details.".

(** [a.includes(x)] on an array of strings. *)
Definition arrayIncludes (x : string) (a : list string) : bool :=
  existsb (String.eqb x) a.

(** [handleDislike].  [newProfile] is a shallow copy: its [corrections] is
    the array of the current profile, to which [push] appends. *)
Definition handleDislike (reason : string) (s : AppState) : AppState :=
  let s1 := s |> setFeedback (Some disliked) |> setShowFeedbackOptions false in
  let lp := learningProfile s in
  let '(newCorrection, newProfile) :=
    if String.eqb reason "lighting" then
      (lightingCorrection,
       mkLearningProfile (lightingEmphasis lp + 1) (blendingStrictness lp) (corrections lp))
    else if String.eqb reason "cutout" then
      (cutoutCorrection,
       mkLearningProfile (lightingEmphasis lp) (blendingStrictness lp + 1) (corrections lp))
    else if String.eqb reason "fake" then (fakeCorrection, lp)
    else ("", lp) in
  let pushed :=
    if Js.truthy newCorrection && negb (arrayIncludes newCorrection (corrections newProfile))
    then mkLearningProfile (lightingEmphasis newProfile) (blendingStrictness newProfile)
           (corrections newProfile ++ [newCorrection])
    else newProfile in
  s1 |> setLearningProfile pushed.

Definition handleReset (s : AppState) : AppState :=
  s |> setOriginalImage None
    |> setGeneratedImage None
    |> setSceneRefImage None
    |> setPrompt ""
    |> setError ""
    |> setFeedback None
    |> setShowFeedbackOptions false
    |> setIsCompareMode false
    |> setActiveView editor.

Definition loadFromHistory (item : HistoryItem) (s : AppState) : AppState :=
  s |> setOriginalImage (Some (itemOriginal item))
    |> setGeneratedImage (Some (itemGenerated item))
    |> setPrompt (itemPrompt item)
    |> setActiveView editor.

(** *** Operations that call the external model *)

(** What an operation's closure holds while the call is in flight. *)
#[projections(primitive)]
Record InFlight := mkInFlight {
  capturedImage : string;
  capturedPrompt : string;
  capturedModel : string;
  request : Api.Request
}.

(** The record the three generation operations put into the history;
    [now] is [Date.now()] and [localeTime] is
    [new Date().toLocaleTimeString()], both read when the call returns. *)
Definition historyRecord (fl : InFlight) (newImage : string)
    (now : Z) (localeTime : string) : HistoryItem :=
  mkHistoryItem now (capturedImage fl) newImage (capturedPrompt fl) localeTime
    (capturedModel fl).

(** [enhancePrompt] *)
Definition enhanceSystemInstruction : string :=
  "You are a minimalist design expert. Rewrite the user's description into a clean, photorealistic image generation prompt. Focus on lighting quality and composition. Output ONLY the raw prompt string in English.".

Definition enhancePrompt_begin (s : AppState) : option (AppState * Api.Request) :=
  if negb (Js.truthy (Js.trim (prompt s))) then None
  else
    Some (s |> setEnhancing true |> setError "",
          Api.mkRequest "gemini-2.5-flash"
            (Api.ContentsString
               ("User idea: " ++ Js.dquote ++ prompt s ++ Js.dquote ++ ". Make it high-end."))
            (Some (Api.mkConfig (Some enhanceSystemInstruction) None))).

Definition enhancePrompt_settle (res : Api.Outcome) (s : AppState) : AppState :=
  (match res with
   | Api.Returns r =>
       match Api.responseText r with
       | Some t => if Js.truthy t then s |> setPrompt (Js.trim t) else s
       | None => s
       end
   | Api.Throws err =>
       if isAuthError err then s |> setHasApiKey false
       else s |> setError "Failed to enhance prompt."
   end) |> setEnhancing false.

Definition enhancePrompt (ai : Api.Request -> Api.Outcome) (s : AppState) : AppState :=
  match enhancePrompt_begin s with
  | None => s
  | Some (s1, req) => enhancePrompt_settle (ai req) s1
  end.

(** [analyzeSceneRef] *)
Definition analyzeSceneRef_begin (base64 : string) (s : AppState)
    : AppState * Api.Request :=
  (s |> setAnalyzingSceneRef true,
   Api.mkRequest "gemini-2.5-flash"
     (Api.ContentsParts
        [ Api.textPart
            "Analyze the uploaded image. Describe the environment, lighting, mood, and scenery in high detail. Output a single, high-quality prompt that can be used to recreate this background.";
          Api.inlinePart (mimeOf base64) (base64Of base64) ])
     (Some (Api.mkConfig
              (Some "You are a professional visual prompt engineer. Output ONLY the prompt string. No 'Here is a prompt', no markdown formatting.")
              None))).

Definition analyzeSceneRef_settle (res : Api.Outcome) (s : AppState) : AppState :=
  (match res with
   | Api.Returns r =>
       match Api.responseText r with
       | Some t => if Js.truthy t then s |> setPrompt (Js.trim t) else s
       | None => s
       end
   | Api.Throws e => if isAuthError e then s |> setHasApiKey false else s
   end) |> setAnalyzingSceneRef false.

(** [handleSceneRefUpload], up to the [await] inside [analyzeSceneRef]. *)
Definition handleSceneRefUpload_begin (file : File) (s : AppState)
    : option (AppState * Api.Request) :=
  if negb (Js.startsWith "image/" (fileType file)) then None
  else
    match fileResult file with
    | Some base64 =>
        if Js.truthy base64
        then Some (analyzeSceneRef_begin base64 (s |> setSceneRefImage (Some base64)))
        else None
    | None => None
    end.

Definition handleSceneRefUpload (ai : Api.Request -> Api.Outcome) (file : File)
    (s : AppState) : AppState :=
  match handleSceneRefUpload_begin file s with
  | None => s
  | Some (s1, req) => analyzeSceneRef_settle (ai req) s1
  end.

(** [applyFilter] *)
Definition filterFullPrompt (filterPrompt : string) : string :=
  Js.lines
    [ "";
      "            TASK: Apply a visual style filter to the image.";
      ("            STYLE: " ++ Js.dquote ++ filterPrompt ++ Js.dquote)%string;
      "            CONSTRAINT: Keep the original composition, subject, and geometry EXACTLY the same. Only change lighting, colors, and texture to match the requested style.";
      "            High quality, detailed, photorealistic (unless style implies otherwise).";
      "          " ].

Definition applyFilter_begin (filterPrompt : string) (s : AppState)
    : option (AppState * InFlight) :=
  match originalImage s with
  | Some img =>
      if Js.truthy img then
        Some (s |> setLoading true |> setError "",
              mkInFlight img ("Filter: " ++ filterPrompt) (selectedModel s)
                (Api.mkRequest (apiModelFor (selectedModel s))
                   (Api.ContentsParts
                      [ Api.textPart (filterFullPrompt filterPrompt);
                        Api.inlinePart (mimeOf img) (base64Of img) ])
                   None))
      else None
  | None => None
  end.

Definition applyFilter_settle (fl : InFlight) (res : Api.Outcome)
    (now : Z) (localeTime : string) (s : AppState) : AppState :=
  (match Api.tryGenerate res with
   | inl generatedBase64 =>
       let newImage := pngDataURL generatedBase64 in
       s |> setGeneratedImage (Some newImage)
         |> setHistory (fun prev => historyRecord fl newImage now localeTime :: prev)
         |> setActiveView editor
   | inr err =>
       if isAuthError err then s |> setHasApiKey false
       else s |> setError "Failed to apply filter."
   end) |> setLoading false.

Definition applyFilter (ai : Api.Request -> Api.Outcome) (now : Z)
    (localeTime : string) (filterPrompt : string) (s : AppState) : AppState :=
  match applyFilter_begin filterPrompt s with
  | None => s
  | Some (s1, fl) => applyFilter_settle fl (ai (request fl)) now localeTime s1
  end.

(** [generateWithMask] *)
Definition maskFullPrompt (maskPrompt : string) : string :=
  Js.lines
    [ "";
      "            Perform a localized edit on the image using the provided mask.";
      ("            Instruction: " ++ Js.dquote ++ maskPrompt ++ Js.dquote ++ ".")%string;
      "            The second image provided is a mask where WHITE pixels indicate the area to edit.";
      "            Keep all areas outside the mask strictly unchanged.";
      "            High quality, photorealistic, seamless blending.";
      "        " ].

Definition generateWithMask_begin (maskBase64 maskPrompt : string) (s : AppState)
    : option (AppState * InFlight) :=
  match originalImage s with
  | Some img =>
      if Js.truthy img then
        Some (s |> setLoading true |> setError "",
              mkInFlight img maskPrompt (selectedModel s)
                (Api.mkRequest (apiModelFor (selectedModel s))
                   (Api.ContentsParts
                      [ Api.textPart (maskFullPrompt maskPrompt);
                        Api.inlinePart (mimeOf img) (base64Of img);
                        Api.inlinePart (Some "image/png") (base64Of maskBase64) ])
                   None))
      else None
  | None => None
  end.

Definition generateWithMask_settle (fl : InFlight) (res : Api.Outcome)
    (now : Z) (localeTime : string) (s : AppState) : AppState :=
  (match Api.tryGenerate res with
   | inl generatedBase64 =>
       let newImage := pngDataURL generatedBase64 in
       s |> setGeneratedImage (Some newImage)
         |> setHistory (fun prev => historyRecord fl newImage now localeTime :: prev)
         |> setActiveView editor
   | inr err =>
       if isAuthError err then s |> setHasApiKey false
       else s |> setError "Error generating edit. Please try again."
   end) |> setLoading false.

Definition generateWithMask (ai : Api.Request -> Api.Outcome) (now : Z)
    (localeTime : string) (maskBase64 maskPrompt : string) (s : AppState) : AppState :=
  match generateWithMask_begin maskBase64 maskPrompt s with
  | None => s
  | Some (s1, fl) => generateWithMask_settle fl (ai (request fl)) now localeTime s1
  end.

(** [generateNewBackground] *)
Definition adaptiveInstructions (lp : LearningProfile) : string :=
  if (0 <? List.length (corrections lp))%nat
  then "ADAPTIVE LEARNING: " ++ Js.join ". " (corrections lp)
  else "".

Definition blendingInstruction (blending : Z) : string :=
  if (blending <? 30)%Z then
    "Keep original subject lighting and colors strictly. Minimal blending with background. Cutout aesthetic."
  else if (70 <? blending)%Z then
    "Aggressive blending. Heavily relight and color-grade the subject to fully immerse them in the new atmosphere. Modify subject lighting significantly."
  else "Balanced blending. Relight subject naturally to match the environment.".

Definition backgroundFullPrompt (s : AppState) : string :=
  Js.lines
    [ "";
      "        TASK: Professional Background Replacement.";
      "        STYLE: High-end commercial photography, clean, sharp.";
      ("        INSTRUCTION: Keep the subject structure. Replace background with: "
         ++ Js.dquote ++ prompt s ++ Js.dquote ++ ".")%string;
      ("        BLENDING: " ++ blendingInstruction (blending s) ++ " (Strength: "
         ++ Js.numberToString (blending s) ++ "/100)")%string;
      "        TECHNICAL: Seamless compositing.";
      ("        " ++ adaptiveInstructions (learningProfile s))%string;
      "      " ].

Definition sceneReferenceNote : string :=
  " Use the second image provided as a strict visual reference for the background style, lighting, and composition.".

Definition backgroundParts (img : string) (s : AppState) : list Api.Part :=
  match sceneRefImage s with
  | Some ref =>
      if Js.truthy ref then
        [ Api.textPart (backgroundFullPrompt s ++ sceneReferenceNote);
          Api.inlinePart (mimeOf img) (base64Of img);
          Api.inlinePart (mimeOf ref) (base64Of ref) ]
      else
        [ Api.textPart (backgroundFullPrompt s);
          Api.inlinePart (mimeOf img) (base64Of img) ]
  | None =>
      [ Api.textPart (backgroundFullPrompt s);
        Api.inlinePart (mimeOf img) (base64Of img) ]
  end.

Definition generateNewBackground_begin (s : AppState) : option (AppState * InFlight) :=
  match originalImage s with
  | Some img =>
      if Js.truthy img && Js.truthy (Js.trim (prompt s)) then
        Some (s |> setLoading true |> setError "" |> setFeedback None
                |> setShowFeedbackOptions false,
              mkInFlight img (prompt s) (selectedModel s)
                (Api.mkRequest (apiModelFor (selectedModel s))
                   (Api.ContentsParts (backgroundParts img s)) None))
      else None
  | None => None
  end.

Definition generateNewBackground_settle (fl : InFlight) (res : Api.Outcome)
    (now : Z) (localeTime : string) (s : AppState) : AppState :=
  (match Api.tryGenerate res with
   | inl generatedBase64 =>
       let newImage := pngDataURL generatedBase64 in
       s |> setGeneratedImage (Some newImage)
         |> setHistory (fun prev => historyRecord fl newImage now localeTime :: prev)
   | inr err =>
       if isAuthError err then s |> setHasApiKey false
       else s |> setError "Error generating image. Please try again."
   end) |> setLoading false.

Definition generateNewBackground (ai : Api.Request -> Api.Outcome) (now : Z)
    (localeTime : string) (s : AppState) : AppState :=
  match generateNewBackground_begin s with
  | None => s
  | Some (s1, fl) => generateNewBackground_settle fl (ai (request fl)) now localeTime s1
  end.

(* ================================================================= *)
(** ** Child components

    A child component sees the main component only through its props; an
    operation of a child is a function on the pair of the main state and
    the child's own state, in which the props are the callbacks [App]
    passes in its [return]. *)

Module FilterStudio.

Record State := mkState {
  filterPrompt : string;
  enhancing : bool;
  refImage : option string;
  analyzingRef : bool
}.

Definition initial : State := mkState "" false None false.

Definition setFilterPrompt (v : string) (t : State) : State :=
  mkState v (enhancing t) (refImage t) (analyzingRef t).

Definition setEnhancing (v : bool) (t : State) : State :=
  mkState (filterPrompt t) v (refImage t) (analyzingRef t).

Definition setRefImage (v : option string) (t : State) : State :=
  mkState (filterPrompt t) (enhancing t) v (analyzingRef t).

Definition setAnalyzingRef (v : bool) (t : State) : State :=
  mkState (filterPrompt t) (enhancing t) (refImage t) v.

(** [handleApply]; [onApply] is [applyFilter]. *)
Definition handleApply_begin (w : AppState * State) : option ((AppState * State) * InFlight) :=
  let '(s, t) := w in
  if Js.truthy (filterPrompt t) then
    match applyFilter_begin (filterPrompt t) s with
    | Some (s1, fl) => Some ((s1, t), fl)
    | None => None
    end
  else None.

Definition handleEnhance_begin (w : AppState * State)
    : option ((AppState * State) * Api.Request) :=
  let '(s, t) := w in
  if negb (Js.truthy (Js.trim (filterPrompt t))) then None
  else
    Some ((s, t |> setEnhancing true),
          Api.mkRequest "gemini-2.5-flash"
            (Api.ContentsString
               ("Refine this art style description into a high-quality, descriptive prompt for an AI image generator. Focus on visual aesthetics, medium, and technique. Input: "
                  ++ Js.dquote ++ filterPrompt t ++ Js.dquote))
            None).

(** The [catch] block only writes to the console. *)
Definition handleEnhance_settle (res : Api.Outcome) (w : AppState * State)
    : AppState * State :=
  let '(s, t) := w in
  (s,
   (match res with
    | Api.Returns r =>
        match Api.responseText r with
        | Some x => if Js.truthy x then t |> setFilterPrompt (Js.trim x) else t
        | None => t
        end
    | Api.Throws _ => t
    end) |> setEnhancing false).

Definition analyzeRefStyle_begin (base64 : string) (w : AppState * State)
    : (AppState * State) * Api.Request :=
  let '(s, t) := w in
  ((s, t |> setAnalyzingRef true),
   Api.mkRequest "gemini-2.5-flash"
     (Api.ContentsParts
        [ Api.textPart
            "Analyze the visual style, color grading, lighting, filters, and texture of this image. Describe ONLY the aesthetic style in a comma-separated list of keywords (e.g., 'grainy film, green tint, high contrast'). Do not describe the subject.";
          Api.inlinePart (mimeOf base64) (base64Of base64) ])
     None).

(** The [catch] block only writes to the console. *)
Definition analyzeRefStyle_settle (res : Api.Outcome) (w : AppState * State)
    : AppState * State :=
  let '(s, t) := w in
  (s,
   (match res with
    | Api.Returns r =>
        match Api.responseText r with
        | Some x => if Js.truthy x then t |> setFilterPrompt (Js.trim x) else t
        | None => t
        end
    | Api.Throws _ => t
    end) |> setAnalyzingRef false).

Definition handleRefUpload_begin (file : File) (w : AppState * State)
    : option ((AppState * State) * Api.Request) :=
  if negb (Js.startsWith "image/" (fileType file)) then None
  else
    match fileResult file with
    | Some base64 =>
        if Js.truthy base64 then
          let '(s, t) := w in
          Some (analyzeRefStyle_begin base64 (s, t |> setRefImage (Some base64)))
        else None
    | None => None
    end.

End FilterStudio.

Module PromptInspector.

Record State := mkState {
  jsonResult : option string;
  loading : bool;
  copied : bool
}.

Definition initial : State := mkState None false false.

Definition setJsonResult (v : option string) (t : State) : State :=
  mkState v (loading t) (copied t).

Definition setLoading (v : bool) (t : State) : State :=
  mkState (jsonResult t) v (copied t).

(** The prop [onAuthError] as [App] passes it. *)
Definition onAuthError (s : AppState) : AppState := s |> setHasApiKey false.

(** [JSON.stringify({ error: "Failed to analyze image." }, null, 2)] *)
Definition failedJson : string :=
  Js.lines
    [ "{";
      ("  " ++ Js.dquote ++ "error" ++ Js.dquote ++ ": " ++ Js.dquote
         ++ "Failed to analyze image." ++ Js.dquote)%string;
      "}" ].

Definition analyzeImage_begin (image : string) (w : AppState * State)
    : (AppState * State) * Api.Request :=
  let '(s, t) := w in
  ((s, t |> setLoading true |> setJsonResult None),
   Api.mkRequest "gemini-3-pro-preview"
     (Api.ContentsParts
        [ Api.textPart
            "Extract all visual details from this image and convert them into a clean, well-structured JSON prompt. include sections: 'subject', 'clothing', 'hair', 'face', 'accessories', 'environment', 'lighting', 'camera', 'style'. Return ONLY valid JSON.";
          Api.inlinePart (mimeOf image) (base64Of image) ])
     (Some (Api.mkConfig None (Some "application/json")))).

(** The effect on [image]: [if (!image) return; analyzeImage();] *)
Definition onImage (image : string) (w : AppState * State)
    : option ((AppState * State) * Api.Request) :=
  if Js.truthy image then Some (analyzeImage_begin image w) else None.

Definition analyzeImage_settle (res : Api.Outcome) (w : AppState * State)
    : AppState * State :=
  let '(s, t) := w in
  let '(s1, t1) :=
    match res with
    | Api.Returns r =>
        (s, t |> setJsonResult
                   (Some (match Api.responseText r with
                          | Some x => if Js.truthy x then x else "{}"
                          | None => "{}"
                          end)))
    | Api.Throws e =>
        if isAuthError e then (onAuthError s, t)
        else (s, t |> setJsonResult (Some failedJson))
    end in
  (s1, t1 |> setLoading false).

End PromptInspector.

Module AdvancedCanvas.

Inductive NodeType := source | generator.

Inductive Status := idle | loading | complete.

Record NodeData := mkNodeData {
  image : option string;
  prompt : string;
  status : Status;
  result : option string;
  model : string
}.

Record Node := mkNode {
  id : string;
  type : NodeType;
  x : Q;
  y : Q;
  parentId : option string;
  data : NodeData
}.

Record Point := mkPoint { px : Q; py : Q }.

Record State := mkState {
  nodes : list Node;
  scale : Q;
  offset : Point;
  isDragging : bool;
  dragStart : Point;
  draggingNode : option Node
}.

Definition initial : State :=
  mkState [] 1 (mkPoint 0 0) false (mkPoint 0 0) None.

Definition setNodes (v : list Node) (t : State) : State :=
  mkState v (scale t) (offset t) (isDragging t) (dragStart t) (draggingNode t).

(** [setScale(s => f(s))]; [setScale(v)] is the constant function. *)
Definition setScale (f : Q -> Q) (t : State) : State :=
  mkState (nodes t) (f (scale t)) (offset t) (isDragging t) (dragStart t)
    (draggingNode t).

Definition setOffset (f : Point -> Point) (t : State) : State :=
  mkState (nodes t) (scale t) (f (offset t)) (isDragging t) (dragStart t)
    (draggingNode t).

Definition setIsDragging (v : bool) (t : State) : State :=
  mkState (nodes t) (scale t) (offset t) v (dragStart t) (draggingNode t).

Definition setDragStart (v : Point) (t : State) : State :=
  mkState (nodes t) (scale t) (offset t) (isDragging t) v (draggingNode t).

Definition setDraggingNode (v : option Node) (t : State) : State :=
  mkState (nodes t) (scale t) (offset t) (isDragging t) (dragStart t) v.

(** The mount effect: an empty canvas gets its root node. *)
Definition mount (originalImage : option string) (t : State) : State :=
  match nodes t with
  | [] =>
      t |> setNodes
             [ mkNode "root" source 100 200 None
                 (mkNodeData originalImage "" idle None "nano-banana-1") ]
  | _ => t
  end.

Record WheelEvent := mkWheelEvent {
  ctrlKey : bool;
  metaKey : bool;
  deltaX : Q;
  deltaY : Q
}.

Definition zoomSensitivity : Q := 1 # 1000.

Definition handleWheel (e : WheelEvent) (t : State) : State :=
  if ctrlKey e || metaKey e then
    let newScale := Qmin (Qmax (1 # 10) (scale t - deltaY e * zoomSensitivity)) 3 in
    t |> setScale (fun _ => newScale)
  else
    t |> setOffset (fun prev => mkPoint (px prev - deltaX e) (py prev - deltaY e)).

(** The zoom-out button. *)
Definition zoomOut (t : State) : State :=
  t |> setScale (fun s => Qmax (1 # 10) (s - (1 # 10))).

(** The zoom-in button. *)
Definition zoomIn (t : State) : State :=
  t |> setScale (fun s => Qmin 3 (s + (1 # 10))).

Definition findNode (i : string) (ns : list Node) : option Node :=
  find (fun n => String.eqb (id n) i) ns.

(** [addNode]; [now] is [Date.now()]. *)
Definition addNode (now : Z) (parent : string) (t : State) : State :=
  match findNode parent (nodes t) with
  | None => t
  | Some p =>
      let newNode :=
        mkNode ("node-" ++ Js.numberToString now) generator (x p + 450) (y p)
          (Some parent) (mkNodeData None "" idle None "nano-banana-1") in
      t |> setNodes (nodes t ++ [newNode])
  end.

(** [nodes.map(n => n.id === id ? { ...n, data: { ...n.data, ...newData } } : n)]:
    the partial record [newData] is the function that overwrites its fields. *)
Definition updatedNodes (i : string) (newData : NodeData -> NodeData)
    (ns : list Node) : list Node :=
  map (fun n =>
         if String.eqb (id n) i
         then mkNode (id n) (type n) (x n) (y n) (parentId n) (newData (data n))
         else n) ns.

Definition withStatus (v : Status) (d : NodeData) : NodeData :=
  mkNodeData (image d) (prompt d) v (result d) (model d).

Definition withResult (v : Status) (r : string) (d : NodeData) : NodeData :=
  mkNodeData (image d) (prompt d) v (Some r) (model d).

(** The prop [onAuthError] as [App] passes it. *)
Definition onAuthError (s : AppState) : AppState := s |> setHasApiKey false.

Definition generatorPrompt (p : string) : string :=
  "Transform this image based on the following instruction: " ++ Js.dquote ++ p
    ++ Js.dquote
    ++ ". Maintain the composition but change style/content significantly as requested. High quality photorealistic output.".

(** [runGenerator] up to the [await].  The second component is what the
    closure keeps: the [nodes] array of the render in which the handler
    was created, which every later [updateNodeData] of this run maps over. *)
Definition runGenerator_begin (nodeId : string) (w : AppState * State)
    : option ((AppState * State) * (list Node * Api.Request)) :=
  let '(s, t) := w in
  match findNode nodeId (nodes t) with
  | None => None
  | Some node =>
      match parentId node with
      | None => None
      | Some pid =>
          if negb (Js.truthy pid) then None
          else
            match findNode pid (nodes t) with
            | None => None
            | Some parent =>
                let sourceImage :=
                  if Js.truthy_opt (result (data parent)) then result (data parent)
                  else image (data parent) in
                match sourceImage with
                | None => None
                | Some src =>
                    if negb (Js.truthy src) then None
                    else
                      Some ((s, t |> setNodes (updatedNodes nodeId (withStatus loading) (nodes t))),
                            (nodes t,
                             Api.mkRequest (apiModelFor (model (data node)))
                               (Api.ContentsParts
                                  [ Api.textPart (generatorPrompt (prompt (data node)));
                                    Api.inlinePart (mimeOf src) (base64Of src) ])
                               None))
                end
            end
      end
  end.

Definition runGenerator_settle (closureNodes : list Node) (nodeId : string)
    (res : Api.Outcome) (w : AppState * State) : AppState * State :=
  let '(s, t) := w in
  match res with
  | Api.Returns r =>
      match Api.generatedBase64 r with
      | Some b =>
          if Js.truthy b then
            (s, t |> setNodes (updatedNodes nodeId (withResult complete (pngDataURL b)) closureNodes))
          else (s, t |> setNodes (updatedNodes nodeId (withStatus idle) closureNodes))
      | None => (s, t |> setNodes (updatedNodes nodeId (withStatus idle) closureNodes))
      end
  | Api.Throws e =>
      ((if isAuthError e then onAuthError s else s),
       t |> setNodes (updatedNodes nodeId (withStatus idle) closureNodes))
  end.

(** [updateNodeData], called from a handler of the current render. *)
Definition updateNodeData (i : string) (newData : NodeData -> NodeData)
    (t : State) : State :=
  t |> setNodes (updatedNodes i newData (nodes t)).

Definition withModel (m : string) (d : NodeData) : NodeData :=
  mkNodeData (image d) (prompt d) (status d) (result d) m.

Definition withPrompt (p : string) (d : NodeData) : NodeData :=
  mkNodeData (image d) p (status d) (result d) (model d).

(** A mouse event on the canvas; [onContainer] is
    [e.target === containerRef.current]. *)
Record MouseEvent := mkMouseEvent {
  onContainer : bool;
  clientX : Q;
  clientY : Q;
  movementX : Q;
  movementY : Q
}.

Definition handleMouseDown (e : MouseEvent) (t : State) : State :=
  if onContainer e then
    t |> setIsDragging true
      |> setDragStart (mkPoint (clientX e - px (offset t)) (clientY e - py (offset t)))
  else t.

(** [onMouseDown] of a node's title bar. *)
Definition nodeMouseDown (node : Node) (t : State) : State :=
  t |> setDraggingNode (Some node).

Definition movedNodes (dragged : Node) (e : MouseEvent) (sc : Q) (ns : list Node)
    : list Node :=
  map (fun n =>
         if String.eqb (id n) (id dragged)
         then mkNode (id n) (type n) (x n + movementX e / sc) (y n + movementY e / sc)
                (parentId n) (data n)
         else n) ns.

Definition handleMouseMove (e : MouseEvent) (t : State) : State :=
  let t1 :=
    if isDragging t then
      t |> setOffset (fun _ => mkPoint (clientX e - px (dragStart t))
                                 (clientY e - py (dragStart t)))
    else t in
  match draggingNode t with
  | Some dragged => t1 |> setNodes (movedNodes dragged e (scale t) (nodes t))
  | None => t1
  end.

Definition handleMouseUp (t : State) : State :=
  t |> setIsDragging false |> setDraggingNode None.

End AdvancedCanvas.

(* ================================================================= *)
(** ** The three generation operations, uniformly

    [generateNewBackground], [applyFilter] and [generateWithMask] differ in
    their guard, request, failure message and in whether they return to
    the editor; the dispatchers below select the source function. *)

Inductive GenOp :=
| Background
| Filter (filterPrompt : string)
| Mask (maskBase64 maskPrompt : string).

Definition gen_begin (op : GenOp) (s : AppState) : option (AppState * InFlight) :=
  match op with
  | Background => generateNewBackground_begin s
  | Filter fp => applyFilter_begin fp s
  | Mask m p => generateWithMask_begin m p s
  end.

Definition gen_settle (op : GenOp) (fl : InFlight) (res : Api.Outcome)
    (now : Z) (localeTime : string) (s : AppState) : AppState :=
  match op with
  | Background => generateNewBackground_settle fl res now localeTime s
  | Filter _ => applyFilter_settle fl res now localeTime s
  | Mask _ _ => generateWithMask_settle fl res now localeTime s
  end.

Definition gen_run (op : GenOp) (ai : Api.Request -> Api.Outcome) (now : Z)
    (localeTime : string) (s : AppState) : AppState :=
  match op with
  | Background => generateNewBackground ai now localeTime s
  | Filter fp => applyFilter ai now localeTime fp s
  | Mask m p => generateWithMask ai now localeTime m p s
  end.

(** The message each operation's [catch] shows for an error that is not
    an auth error. *)
Definition gen_failure_message (op : GenOp) : string :=
  match op with
  | Background => "Error generating image. Please try again."
  | Filter _ => "Failed to apply filter."
  | Mask _ _ => "Error generating edit. Please try again."
  end.

(* ================================================================= *)
(** ** Every operation that calls [ai.models.generateContent] *)

Inductive ApiOperation :=
| OpRunGenerator
| OpFilterEnhance
| OpFilterAnalyzeRefStyle
| OpInspectorAnalyzeImage
| OpAnalyzeSceneRef
| OpEnhancePrompt
| OpApplyFilter
| OpGenerateWithMask
| OpGenerateNewBackground.

(** The main state after the call of operation [op] has thrown [e], the
    main state being [s] at that moment.  What the closure holds and the
    child's own state do not reach the [catch] blocks' effect on the main
    state, so they are fixed to empty values here. *)
Definition app_after_throw (op : ApiOperation) (e : Api.JsError) (s : AppState)
    : AppState :=
  let fl := mkInFlight "" "" "" (Api.mkRequest "" (Api.ContentsString "") None) in
  match op with
  | OpRunGenerator =>
      fst (AdvancedCanvas.runGenerator_settle [] "" (Api.Throws e)
             (s, AdvancedCanvas.initial))
  | OpFilterEnhance =>
      fst (FilterStudio.handleEnhance_settle (Api.Throws e) (s, FilterStudio.initial))
  | OpFilterAnalyzeRefStyle =>
      fst (FilterStudio.analyzeRefStyle_settle (Api.Throws e) (s, FilterStudio.initial))
  | OpInspectorAnalyzeImage =>
      fst (PromptInspector.analyzeImage_settle (Api.Throws e)
             (s, PromptInspector.initial))
  | OpAnalyzeSceneRef => analyzeSceneRef_settle (Api.Throws e) s
  | OpEnhancePrompt => enhancePrompt_settle (Api.Throws e) s
  | OpApplyFilter => applyFilter_settle fl (Api.Throws e) 0 "" s
  | OpGenerateWithMask => generateWithMask_settle fl (Api.Throws e) 0 "" s
  | OpGenerateNewBackground => generateNewBackground_settle fl (Api.Throws e) 0 "" s
  end.

(* ================================================================= *)
(** ** The application as an event system

    A world is the main state, the clock [Date.now()] reads, and the calls
    in flight.  Events are accepted in any state (the handlers carry their
    own guards); the buttons the UI disables only remove behaviours. *)

Inductive Flight :=
| FlyGeneration (op : GenOp) (fl : InFlight)
| FlyEnhance
| FlySceneRef.

#[projections(primitive)]
Record World := mkWorld {
  app : AppState;
  clock : Z;
  inflight : list Flight
}.

Definition initialWorld (t0 : Z) : World := mkWorld initialState t0 [].

Inductive Event :=
| Tick (ms : N)
| Mounted (aistudio : option bool)
| Connect (aistudio : bool)
| Upload (file : File)
| SceneRefUpload (file : File)
| Like
| OpenFeedbackOptions
| Dislike (reason : string)
| TypePrompt (p : string)
| Slide (z : Z)
| SelectModel (m : string)
| Navigate (v : View)
| ToggleCompare
| Reset
| LoadFromHistory (n : nat)
| ChildAuthError
| Start (op : GenOp)
| StartEnhance
| Settle (k : nat) (res : Api.Outcome) (localeTime : string).

Fixpoint removeNth {A : Type} (k : nat) (l : list A) : list A :=
  match l, k with
  | [], _ => []
  | _ :: l', O => l'
  | a :: l', S k' => a :: removeNth k' l'
  end.

Definition settle (f : Flight) (res : Api.Outcome) (now : Z) (localeTime : string)
    (s : AppState) : AppState :=
  match f with
  | FlyGeneration op fl => gen_settle op fl res now localeTime s
  | FlyEnhance => enhancePrompt_settle res s
  | FlySceneRef => analyzeSceneRef_settle res s
  end.

Definition step (ev : Event) (w : World) : World :=
  let s := app w in
  let upd (s' : AppState) := mkWorld s' (clock w) (inflight w) in
  match ev with
  | Tick ms => mkWorld s (clock w + Z.of_N ms) (inflight w)
  | Mounted a => upd (check a s)
  | Connect a => upd (handleConnect a s)
  | Upload f => upd (handleFile f s)
  | SceneRefUpload f =>
      match handleSceneRefUpload_begin f s with
      | Some (s1, _) => mkWorld s1 (clock w) (inflight w ++ [FlySceneRef])
      | None => w
      end
  | Like => upd (s |> setFeedback (Some liked))
  | OpenFeedbackOptions => upd (s |> setShowFeedbackOptions true)
  | Dislike reason => upd (handleDislike reason s)
  | TypePrompt p => upd (s |> setPrompt p)
  | Slide z => upd (s |> setBlending z)
  | SelectModel m => upd (s |> setSelectedModel m)
  | Navigate v => upd (s |> setActiveView v)
  | ToggleCompare => upd (s |> setIsCompareMode (negb (isCompareMode s)))
  | Reset => upd (handleReset s)
  | LoadFromHistory n =>
      match nth_error (history s) n with
      | Some item => upd (loadFromHistory item s)
      | None => w
      end
  | ChildAuthError => upd (s |> setHasApiKey false)
  | Start op =>
      match gen_begin op s with
      | Some (s1, fl) => mkWorld s1 (clock w) (inflight w ++ [FlyGeneration op fl])
      | None => w
      end
  | StartEnhance =>
      match enhancePrompt_begin s with
      | Some (s1, _) => mkWorld s1 (clock w) (inflight w ++ [FlyEnhance])
      | None => w
      end
  | Settle k res localeTime =>
      match nth_error (inflight w) k with
      | Some f => mkWorld (settle f res (clock w) localeTime s) (clock w)
                    (removeNth k (inflight w))
      | None => w
      end
  end.

Definition run (evs : list Event) (w : World) : World :=
  fold_left (fun w' ev => step ev w') evs w.

(** The strings the file reader has delivered to [handleFile] in a trace. *)
Fixpoint delivered (evs : list Event) : list string :=
  match evs with
  | [] => []
  | Upload f :: evs' =>
      match fileResult f with
      | Some r => r :: delivered evs'
      | None => delivered evs'
      end
  | _ :: evs' => delivered evs'
  end.

(** ** Predicates the statements use *)

(** A browser object URL, as [URL.createObjectURL] returns it. *)
Definition isObjectURL (u : string) : bool := Js.startsWith "blob:" u.

(** Newest first by position and by [id]. *)
Definition newestFirst (h : list HistoryItem) : Prop :=
  StronglySorted (fun a b => (itemId b <= itemId a)%Z) h.

(** Every image a state holds. *)
Definition heldImages (s : AppState) : list string :=
  (match originalImage s with Some o => [o] | None => [] end)
  ++ (match generatedImage s with Some g => [g] | None => [] end)
  ++ flat_map (fun i => [itemOriginal i; itemGenerated i]) (history s).

(** Zoom actions of the canvas toolbar and wheel. *)
Inductive ZoomAction :=
| WheelZoom (e : AdvancedCanvas.WheelEvent)
| ZoomOutButton
| ZoomInButton.

Definition zoom (a : ZoomAction) (t : AdvancedCanvas.State) : AdvancedCanvas.State :=
  match a with
  | WheelZoom e => AdvancedCanvas.handleWheel e t
  | ZoomOutButton => AdvancedCanvas.zoomOut t
  | ZoomInButton => AdvancedCanvas.zoomIn t
  end.

Definition zooms (acts : list ZoomAction) (t : AdvancedCanvas.State)
    : AdvancedCanvas.State :=
  fold_left (fun t' a => zoom a t') acts t.

(** [handleDislike] called once per element of [reasons]. *)
Definition dislikes (reasons : list string) (s : AppState) : AppState :=
  fold_left (fun s' r => handleDislike r s') reasons s.

(** The correction string [handleDislike] chooses for a reason. *)
Definition correctionFor (reason : string) : string :=
  if String.eqb reason "lighting" then lightingCorrection
  else if String.eqb reason "cutout" then cutoutCorrection
  else if String.eqb reason "fake" then fakeCorrection
  else "".

(** [if (c && !a.includes(c)) a.push(c)] *)
Definition pushOnce (c : string) (a : list string) : list string :=
  if Js.truthy c && negb (arrayIncludes c a) then a ++ [c] else a.

(** The state right after the entry setters of a generation operation. *)
Definition gen_entry (op : GenOp) (s : AppState) : AppState :=
  match op with
  | Background =>
      s |> setLoading true |> setError "" |> setFeedback None
        |> setShowFeedbackOptions false
  | Filter _ | Mask _ _ => s |> setLoading true |> setError ""
  end.

(** The prompt a generation operation writes into its history record. *)
Definition recordPrompt (op : GenOp) (s : AppState) : string :=
  match op with
  | Background => prompt s
  | Filter fp => "Filter: " ++ fp
  | Mask _ p => p
  end.

(** Sample values for the examples. *)
Definition pdfFile : File :=
  mkFile "application/pdf" (Some "data:application/pdf;base64,JVBERg==").

Definition pngFile : File :=
  mkFile "image/png" (Some "data:image/png;base64,iVBORw0KGgo=").

Definition imageResponse (payload : string) : Api.Response :=
  Api.mkResponse
    (Some [Api.mkCandidate
             (Some (Api.mkContent
                      (Some [Api.textPart "Here is your image.";
                             Api.inlinePart (Some "image/png") (Some payload)])))])
    (Some "Here is your image.").

Definition textOnlyResponse : Api.Response :=
  Api.mkResponse
    (Some [Api.mkCandidate
             (Some (Api.mkContent (Some [Api.textPart "I cannot edit this image."])))])
    (Some "I cannot edit this image.").

Definition serverError : Api.JsError :=
  Api.mkJsError "Error: 500 Internal Server Error" true "{}".

Definition forbiddenError : Api.JsError :=
  Api.mkJsError "ApiError: 403 Forbidden" true "{}".

(** A response whose first inline part carries no data and whose second
    one carries an image. *)
Definition emptyFirstResponse : Api.Response :=
  Api.mkResponse
    (Some [Api.mkCandidate
             (Some (Api.mkContent
                      (Some [Api.inlinePart (Some "image/png") (Some "");
                             Api.inlinePart (Some "image/png") (Some "QUJD")])))])
    None.

(** Whether some part of some candidate of a response has [inlineData]. *)
Definition hasInlinePart (r : Api.Response) : bool :=
  match Api.candidates r with
  | Some cs =>
      existsb
        (fun c =>
           match Api.content c with
           | Some ct =>
               match Api.parts ct with
               | Some ps =>
                   existsb (fun p => match Api.inlineData p with
                                     | Some _ => true
                                     | None => false
                                     end) ps
               | None => false
               end
           | None => false
           end) cs
  | None => false
  end.

(** A state in which a first result has been liked. *)
Definition likedWorld : World :=
  run [ Mounted (Some true); Upload pngFile; TypePrompt "a beach at dusk";
        Start Background; Tick 1500;
        Settle 0 (Api.Returns (imageResponse "QUJD")) "10:00:01"; Like ]
    (initialWorld 1700000000000).

(** The generated images and the original images a state holds. *)
Definition generatedHeld (s : AppState) : list string :=
  (match generatedImage s with Some g => [g] | None => [] end)
  ++ map itemGenerated (history s).

Definition originalsHeld (s : AppState) : list string :=
  (match originalImage s with Some o => [o] | None => [] end)
  ++ map itemOriginal (history s).

(** A PNG data URL built from a non-empty payload. *)
Definition isGenerated (u : string) : Prop :=
  exists b, u = pngDataURL b /\ Js.truthy b = true.

(** Where the images of a world come from: generated ones are built by the
    code, original ones (current, recorded, or captured by a call in
    flight) were delivered by the file reader and are among [d]. *)
Definition imagesFrom (d : list string) (w : World) : Prop :=
  (forall u, In u (generatedHeld (app w)) -> isGenerated u)
  /\ (forall u, In u (originalsHeld (app w)) -> In u d)
  /\ (forall op fl, In (FlyGeneration op fl) (inflight w) -> In (capturedImage fl) d).

(** A state whose images are those of [s], whatever else changed. *)
Definition sameImages (s s' : AppState) : Prop :=
  originalImage s' = originalImage s
  /\ generatedImage s' = generatedImage s
  /\ history s' = history s.

(** The interval the canvas keeps its zoom scale in. *)
Definition inZoomRange (q : Q) : Prop := (1 # 10 <= q)%Q /\ (q <= 3)%Q.

(* ================================================================= *)
(** ** The compare slider *)

Module CompareSlider.

(** A JS number that may be [NaN]. *)
Inductive Num :=
| Finite (q : Q)
| NaN.

(** What [getBoundingClientRect()] is read for. *)
Record Rect := mkRect {
  left : Q;
  width : Q
}.

Record State := mkState {
  position : Num;
  isDragging : bool
}.

Definition initial : State := mkState (Finite 50) false.

(** [updatePosition]; [container] is [containerRef.current]'s rectangle.
    With a width of zero [x] is 0 and [x / rect.width] is [0 / 0]. *)
Definition updatePosition (container : option Rect) (clientX : Q) (t : State)
    : State :=
  match container with
  | None => t
  | Some rect =>
      let x := Qmax 0 (Qmin (clientX - left rect) (width rect)) in
      let percent :=
        if Qeq_bool (width rect) 0 then NaN
        else Finite ((x / width rect) * 100) in
      mkState percent (isDragging t)
  end.

Definition handleMouseDown (container : option Rect) (clientX : Q) (t : State)
    : State :=
  updatePosition container clientX (mkState (position t) true).

Definition handleMouseMove (container : option Rect) (clientX : Q) (t : State)
    : State :=
  if isDragging t then updatePosition container clientX t else t.

Definition handleMouseUp (t : State) : State := mkState (position t) false.

Definition handleTouchMove (container : option Rect) (clientX : Q) (t : State)
    : State :=
  updatePosition container clientX t.

Inductive Event :=
| MouseDown (container : option Rect) (clientX : Q)
| MouseMove (container : option Rect) (clientX : Q)
| MouseUp
| MouseLeave
| TouchMove (container : option Rect) (clientX : Q).

Definition step (ev : Event) (t : State) : State :=
  match ev with
  | MouseDown c x => handleMouseDown c x t
  | MouseMove c x => handleMouseMove c x t
  | MouseUp | MouseLeave => handleMouseUp t
  | TouchMove c x => handleTouchMove c x t
  end.

Definition run (evs : list Event) (t : State) : State :=
  fold_left (fun t' ev => step ev t') evs t.

(** The container, where an event reads one, is wider than nothing. *)
Definition laidOut (ev : Event) : Prop :=
  match ev with
  | MouseDown (Some r) _ | MouseMove (Some r) _ | TouchMove (Some r) _ =>
      (0 < width r)%Q
  | _ => True
  end.

Definition inPercentRange (n : Num) : Prop :=
  match n with
  | Finite q => (0 <= q)%Q /\ (q <= 100)%Q
  | NaN => False
  end.

End CompareSlider.

(* ================================================================= *)
(** ** The brush editor

    The mask canvas is a DOM object; its pixels are a value of a type
    [Bitmap] the embedding does not look into.  [getImageData] over the
    whole canvas reads that value and [putImageData] at the origin writes
    it back (the canvas keeps the size the image gave it).  What a stroke
    paints is a function on bitmaps that comes with the event. *)

Module BrushEditor.

(** [a.slice(-n)] *)
Definition sliceLast {A : Type} (n : nat) (a : list A) : list A :=
  skipn (List.length a - n) a.

Section Canvas.

Variable Bitmap : Type.

(** The canvas after [clearRect] over its whole area. *)
Variable cleared : Bitmap.

Record State := mkState {
  isDrawing : bool;
  brushSize : Z;
  isErasing : bool;
  prompt : string;
  canvasHistory : list Bitmap;
  canvas : option Bitmap;
  lineWidth : Z;
  destinationOut : bool
}.

(** [canvas] is [None] while [canvasRef.current] or its 2d context is
    missing. *)
Definition initial (c : option Bitmap) : State :=
  mkState false 40 false EmptyString [] c 1 false.

(** [setCanvasHistory(prev => [...prev.slice(-4), snapshot])] *)
Definition pushSnapshot (snapshot : Bitmap) (h : list Bitmap) : list Bitmap :=
  sliceLast 4 h ++ [snapshot].

(** [startDrawing].  Its snapshot is read in the updater as well; the
    handler itself only opens a path and sets the context up, so the
    canvas the updater reads is the one the handler found. *)
Definition startDrawing (t : State) : State :=
  match canvas t with
  | Some b =>
      mkState true (brushSize t) (isErasing t) (prompt t)
        (pushSnapshot b (canvasHistory t)) (canvas t)
        (brushSize t) (isErasing t)
  | None =>
      mkState true (brushSize t) (isErasing t) (prompt t) (canvasHistory t)
        (canvas t) (lineWidth t) (destinationOut t)
  end.

(** [draw]; [stroke] is what [lineTo] and [stroke] paint at the event's
    coordinates with the context's current settings. *)
Definition draw (stroke : Z -> bool -> Bitmap -> Bitmap) (t : State) : State :=
  if negb (isDrawing t) then t
  else
    match canvas t with
    | Some b =>
        mkState (isDrawing t) (brushSize t) (isErasing t) (prompt t)
          (canvasHistory t) (Some (stroke (lineWidth t) (destinationOut t) b))
          (lineWidth t) (destinationOut t)
    | None => t
    end.

Definition stopDrawing (t : State) : State :=
  mkState false (brushSize t) (isErasing t) (prompt t) (canvasHistory t)
    (canvas t) (lineWidth t) (destinationOut t).

(** [clearCanvas].  The snapshot is read inside the updater passed to
    [setCanvasHistory], which runs when the update is rendered, after the
    handler has returned: by then [clearRect] has emptied the canvas, so
    the snapshot that enters the history is the cleared canvas. *)
Definition clearCanvas (t : State) : State :=
  match canvas t with
  | Some _ =>
      mkState (isDrawing t) (brushSize t) (isErasing t) (prompt t)
        (pushSnapshot cleared (canvasHistory t)) (Some cleared)
        (lineWidth t) (destinationOut t)
  | None => t
  end.

(** [handleUndo]: [canvasHistory[canvasHistory.length - 1]] is put back and
    [prev.slice(0, -1)] kept. *)
Definition handleUndo (t : State) : State :=
  match canvasHistory t with
  | [] => t
  | h0 :: hs =>
      match canvas t with
      | Some _ =>
          mkState (isDrawing t) (brushSize t) (isErasing t) (prompt t)
            (removelast (h0 :: hs)) (Some (last (h0 :: hs) h0))
            (lineWidth t) (destinationOut t)
      | None => t
      end
  end.

Definition setBrushSize (v : Z) (t : State) : State :=
  mkState (isDrawing t) v (isErasing t) (prompt t) (canvasHistory t) (canvas t)
    (lineWidth t) (destinationOut t).

Definition setIsErasing (v : bool) (t : State) : State :=
  mkState (isDrawing t) (brushSize t) v (prompt t) (canvasHistory t) (canvas t)
    (lineWidth t) (destinationOut t).

Definition setPrompt (v : string) (t : State) : State :=
  mkState (isDrawing t) (brushSize t) (isErasing t) v (canvasHistory t) (canvas t)
    (lineWidth t) (destinationOut t).

(** [handleGenerateClick]; [maskOf] is what [getMaskBase64] makes of the
    canvas (the strokes recoloured white, as a PNG data URL), and
    [onGenerate] is [generateWithMask]. *)
Definition handleGenerateClick_begin (maskOf : Bitmap -> string)
    (w : AppState * State) : option ((AppState * State) * InFlight) :=
  let '(s, t) := w in
  match canvas t with
  | None => None
  | Some b =>
      if Js.truthy (maskOf b) && Js.truthy (prompt t) then
        match generateWithMask_begin (maskOf b) (prompt t) s with
        | Some (s1, fl) => Some ((s1, t), fl)
        | None => None
        end
      else None
  end.

Inductive Event :=
| StartDrawing
| Draw (stroke : Z -> bool -> Bitmap -> Bitmap)
| StopDrawing
| ClearCanvas
| Undo
| BrushSize (v : Z)
| Erasing (v : bool).

Definition step (ev : Event) (t : State) : State :=
  match ev with
  | StartDrawing => startDrawing t
  | Draw stroke => draw stroke t
  | StopDrawing => stopDrawing t
  | ClearCanvas => clearCanvas t
  | Undo => handleUndo t
  | BrushSize v => setBrushSize v t
  | Erasing v => setIsErasing v t
  end.

Definition run (evs : list Event) (t : State) : State :=
  fold_left (fun t' ev => step ev t') evs t.

(** One stroke: the button goes down, the pointer moves, the button goes
    up. *)
Definition strokeEvents (moves : list (Z -> bool -> Bitmap -> Bitmap)) : list Event :=
  StartDrawing :: map Draw moves ++ [StopDrawing].

End Canvas.

End BrushEditor.

(** ** Predicates of the further properties *)

(** An event in a browser where [window.aistudio] does not exist: the
    mount check finds nothing to ask and [handleConnect] has nothing to
    open. *)
Definition withoutStudio (ev : Event) : Prop :=
  match ev with
  | Mounted (Some _) => False
  | Connect true => False
  | _ => True
  end.

(** The markers [isAuthError] looks for. *)
Definition authMarkers : list string :=
  ["403"; "permission_denied"; "permission denied"; "not found"].

(** The calls in flight that keep each busy flag up. *)
Definition isGeneration (f : Flight) : bool :=
  match f with FlyGeneration _ _ => true | _ => false end.

Definition isEnhance (f : Flight) : bool :=
  match f with FlyEnhance => true | _ => false end.

Definition isSceneRef (f : Flight) : bool :=
  match f with FlySceneRef => true | _ => false end.




Definition busyFlagsBacked (w : World) : Prop :=
  (loading (app w) = true -> existsb isGeneration (inflight w) = true)
  /\ (enhancing (app w) = true -> existsb isEnhance (inflight w) = true)
  /\ (analyzingSceneRef (app w) = true -> existsb isSceneRef (inflight w) = true).

(** A canvas on which a first generator has produced a result and a
    second one hangs below it. *)
Definition chainedCanvas : AdvancedCanvas.State :=
  AdvancedCanvas.mkState
    [ AdvancedCanvas.mkNode "node-1" AdvancedCanvas.generator 550 200 (Some "root")
        (AdvancedCanvas.mkNodeData None "make it snow" AdvancedCanvas.complete
           (Some (pngDataURL "REVG")) "nano-banana-1");
      AdvancedCanvas.mkNode "node-2" AdvancedCanvas.generator 1000 200 (Some "node-1")
        (AdvancedCanvas.mkNodeData None "at night" AdvancedCanvas.idle None
           "nano-banana-1") ]
    1 (AdvancedCanvas.mkPoint 0 0) false (AdvancedCanvas.mkPoint 0 0) None.

(** A canvas with two generators under the root, both with a prompt. *)
Definition twoGenerators : AdvancedCanvas.State :=
  AdvancedCanvas.mkState
    [ AdvancedCanvas.mkNode "root" AdvancedCanvas.source 100 200 None
        (AdvancedCanvas.mkNodeData (Some "data:image/png;base64,iVBORw0KGgo=") ""
           AdvancedCanvas.idle None "nano-banana-1");
      AdvancedCanvas.mkNode "node-1" AdvancedCanvas.generator 550 200 (Some "root")
        (AdvancedCanvas.mkNodeData None "make it snow" AdvancedCanvas.idle None
           "nano-banana-1");
      AdvancedCanvas.mkNode "node-2" AdvancedCanvas.generator 550 200 (Some "root")
        (AdvancedCanvas.mkNodeData None "at night" AdvancedCanvas.idle None
           "nano-banana-1") ]
    1 (AdvancedCanvas.mkPoint 0 0) false (AdvancedCanvas.mkPoint 0 0) None.

(** [runGenerator] on [twoGenerators] for the first node, then for the
    second while the first call is in flight; the first call returns an
    image, then the second does.  The list of node ids and statuses at the
    end. *)
Definition overlappingGenerators : list (string * AdvancedCanvas.Status) :=
  match AdvancedCanvas.runGenerator_begin "node-1" (initialState, twoGenerators) with
  | Some (w1, (closure1, _)) =>
      match AdvancedCanvas.runGenerator_begin "node-2" w1 with
      | Some (w2, (closure2, _)) =>
          let w3 := AdvancedCanvas.runGenerator_settle closure1 "node-1"
                      (Api.Returns (imageResponse "QUJD")) w2 in
          let w4 := AdvancedCanvas.runGenerator_settle closure2 "node-2"
                      (Api.Returns (imageResponse "REVG")) w3 in
          map (fun n => (AdvancedCanvas.id n,
                         AdvancedCanvas.status (AdvancedCanvas.data n)))
            (AdvancedCanvas.nodes (snd w4))
      | None => []
      end
  | None => []
  end.

(* ================================================================= *)
(** ** Proof automation *)

(** Nested setters are evaluated innermost first: each setter mentions its
    argument once per cell, so the other order copies it that often. *)
Ltac eval_setters :=
  cbv [setHasApiKey setIsInitialLoad setOriginalImage setGeneratedImage
       setPrompt setLoading setEnhancing setError setBlending setIsCompareMode
       setSceneRefImage setAnalyzingSceneRef setSelectedModel setActiveView
       setHistory setFeedback setShowFeedbackOptions setLearningProfile
       hasApiKey isInitialLoad originalImage generatedImage prompt loading
       enhancing error blending isCompareMode sceneRefImage analyzingSceneRef
       selectedModel activeView history feedback showFeedbackOptions
       learningProfile].

Ltac eval_handlers :=
  cbv [run step settle gen_run gen_settle gen_begin
       generateNewBackground generateNewBackground_settle generateNewBackground_begin
       applyFilter applyFilter_settle applyFilter_begin
       generateWithMask generateWithMask_settle generateWithMask_begin
       enhancePrompt enhancePrompt_settle enhancePrompt_begin
       handleSceneRefUpload handleSceneRefUpload_begin
       analyzeSceneRef_settle analyzeSceneRef_begin
       handleFile handleFile_onload handleReset loadFromHistory handleDislike
       handleConnect check historyRecord
       app clock inflight
       capturedImage capturedPrompt capturedModel request
       setHasApiKey setIsInitialLoad setOriginalImage setGeneratedImage
       setPrompt setLoading setEnhancing setError setBlending setIsCompareMode
       setSceneRefImage setAnalyzingSceneRef setSelectedModel setActiveView
       setHistory setFeedback setShowFeedbackOptions setLearningProfile
       hasApiKey isInitialLoad originalImage generatedImage prompt loading
       enhancing error blending isCompareMode sceneRefImage analyzingSceneRef
       selectedModel activeView history feedback showFeedbackOptions
       learningProfile
       lightingEmphasis blendingStrictness corrections
       itemId itemOriginal itemGenerated itemPrompt itemTimestamp itemModel
       fst snd negb].

(** Case analysis on whatever the handlers branch on, innermost test
    first. *)
Ltac branch :=
  repeat (match goal with
          | |- context [match ?x with _ => _ end] =>
              lazymatch x with
              | context [match _ with _ => _ end] => fail
              | _ => destruct x eqn:?
              end
          end; eval_handlers).

(* ================================================================= *)
(** * Properties *)

(** ** Strings *)

Section StringFacts.

Lemma append_assoc (a b c : string) : ((a ++ b) ++ c = a ++ (b ++ c))%string.
Proof. induction a as [|x a IH]; simpl; [reflexivity | now rewrite IH]. Qed.

Lemma prefix_append (p b : string) : String.prefix p (p ++ b) = true.
Proof.
  induction p as [|x p IH]; simpl.
  - now destruct b.
  - destruct (ascii_dec x x) as [_|ne]; [exact IH | now elim ne].
Qed.

Lemma includes_here (p s : string) : String.prefix p s = true -> Js.includes p s = true.
Proof. intros H. destruct s; simpl in *; rewrite H; reflexivity. Qed.

Lemma includes_append (a p b : string) : Js.includes p (a ++ p ++ b) = true.
Proof.
  induction a as [|x a IH]; simpl.
  - apply includes_here, prefix_append.
  - rewrite IH. apply orb_true_r.
Qed.

Lemma occurs_append (c : ascii) (a b : string) :
  Js.occurs c (a ++ b) = Js.occurs c a || Js.occurs c b.
Proof.
  induction a as [|x a IH]; simpl; [reflexivity|].
  rewrite IH. apply orb_assoc.
Qed.

Lemma split_without (sep : ascii) (a : string) :
  Js.occurs sep a = false -> Js.split sep a = [a].
Proof.
  induction a as [|x a IH]; simpl; intros H; [reflexivity|].
  apply orb_false_elim in H as [Hx Ha].
  rewrite Hx, (IH Ha). reflexivity.
Qed.

Lemma split_at_first (sep : ascii) (a b : string) :
  Js.occurs sep a = false ->
  Js.split sep (a ++ String sep b) = a :: Js.split sep b.
Proof.
  induction a as [|x a IH]; simpl; intros H.
  - now rewrite Ascii.eqb_refl.
  - apply orb_false_elim in H as [Hx Ha].
    rewrite Hx, (IH Ha). reflexivity.
Qed.

(** The two [split] expressions of the source recover the payload and
    the MIME type of a data URL. *)
Lemma base64Of_dataURL (mime payload : string) :
  Js.occurs "," mime = false -> Js.occurs "," payload = false ->
  base64Of (dataURL mime payload) = Some payload.
Proof.
  intros Hm Hp. unfold base64Of, dataURL.
  change ("data:" ++ mime ++ ";base64," ++ payload)%string
    with ("data:" ++ (mime ++ (";base64" ++ String "," payload)))%string.
  rewrite <- !append_assoc.
  rewrite split_at_first.
  - rewrite (split_without _ _ Hp). reflexivity.
  - rewrite !occurs_append, Hm. reflexivity.
Qed.

Lemma mimeOf_dataURL (mime payload : string) :
  Js.occurs ";" mime = false -> Js.occurs ":" mime = false ->
  mimeOf (dataURL mime payload) = Some mime.
Proof.
  intros Hs Hc. unfold mimeOf, dataURL.
  change ("data:" ++ mime ++ ";base64," ++ payload)%string
    with ("data:" ++ (mime ++ String ";" ("base64," ++ payload)))%string.
  rewrite <- append_assoc.
  rewrite split_at_first by (rewrite occurs_append, Hs; reflexivity).
  change ("data:" ++ mime)%string with ("data" ++ String ":" mime)%string.
  rewrite split_at_first by reflexivity.
  rewrite (split_without _ _ Hc). reflexivity.
Qed.

Lemma truthy_append_l (a b : string) : Js.truthy a = true -> Js.truthy (a ++ b) = true.
Proof. destruct a; simpl; [discriminate | reflexivity]. Qed.

End StringFacts.

Example split_data_url :
  Js.split "," "data:image/png;base64,QUJD" = ["data:image/png;base64"; "QUJD"].
Proof. reflexivity. Qed.

Example split_of_empty : Js.split "," "" = [""].
Proof. reflexivity. Qed.

Example trim_blanks : Js.trim "  a b   " = "a b".
Proof. reflexivity. Qed.

Example trim_only_blanks : Js.truthy (Js.trim "   ") = false.
Proof. reflexivity. Qed.

Example trim_unicode_blanks :
  Js.trim (Js.noBreakSpace ++ " a" ++ Js.ideographicSpace ++ "b "
             ++ Js.ideographicSpace ++ Js.noBreakSpace)%string
  = ("a" ++ Js.ideographicSpace ++ "b")%string
  /\ Js.truthy (Js.trim Js.noBreakSpace) = false.
Proof. split; reflexivity. Qed.

Example numberToString_50 : Js.numberToString 50 = "50".
Proof. reflexivity. Qed.

Example numberToString_negative : Js.numberToString (-1203) = "-1203".
Proof. reflexivity. Qed.

Example numberToString_0 : Js.numberToString 0 = "0".
Proof. reflexivity. Qed.

Example isAuthError_status :
  isAuthError (Api.mkJsError "ApiError: request failed" true
                 "{status:PERMISSION_DENIED}") = true.
Proof. reflexivity. Qed.

Example isAuthError_no_image : isAuthError (Api.newError "No image generated.") = false.
Proof. reflexivity. Qed.

Example apiModelFor_unknown : apiModelFor "something else" = "gemini-2.5-flash-image".
Proof. reflexivity. Qed.

(** ** Reasoning about runs of the event system *)

Section Runs.

Variable P : World -> Prop.
Hypothesis P_step : forall ev w, P w -> P (step ev w).

Lemma run_preserves (evs : list Event) (w : World) : P w -> P (run evs w).
Proof.
  revert w. induction evs as [|ev evs IH]; intros w Hw; simpl.
  - exact Hw.
  - apply IH, P_step, Hw.
Qed.

End Runs.

Lemma run_app (evs1 evs2 : list Event) (w : World) :
  run (evs1 ++ evs2) w = run evs2 (run evs1 w).
Proof. unfold run. apply fold_left_app. Qed.

(* ================================================================= *)
(** ** Resetting the session *)

(** C8. [handleReset] clears the current image, the generated image, the
    scene reference image, the prompt, the error, the feedback, the
    feedback-options flag and the compare mode, and returns the view to
    the editor; the history, the learning profile, the selected model and
    the blending level keep their values, as does every other cell. *)
Theorem handleReset_clears_session_only (s : AppState) :
  handleReset s =
    mkAppState (hasApiKey s) (isInitialLoad s)
      None None "" (loading s) (enhancing s) "" (blending s) false
      None (analyzingSceneRef s) (selectedModel s) editor (history s)
      None false (learningProfile s).
Proof. unfold handleReset. eval_setters. reflexivity. Qed.

Lemma handleReset_idempotent (s : AppState) :
  handleReset (handleReset s) = handleReset s.
Proof. unfold handleReset. eval_setters. reflexivity. Qed.

(* ================================================================= *)
(** ** Uploading a photo *)

Lemma handleFile_without_result (file : File) (s : AppState) :
  Js.startsWith "image/" (fileType file) = true ->
  fileResult file = None ->
  handleFile file s = s.
Proof. intros Ht Hr. unfold handleFile. rewrite Ht, Hr. reflexivity. Qed.

(** C7. A file whose type does not start with [image/] only sets the error
    to "Unsupported file format."; every other cell keeps its value.  A
    file whose type starts with [image/], once the reader has delivered
    its contents [r], becomes the current image: the generated image and
    the feedback state are cleared, the error is cleared and the view is
    the editor. *)
Theorem handleFile_accepts_only_images (file : File) (s : AppState) :
  (Js.startsWith "image/" (fileType file) = false ->
   handleFile file s =
     mkAppState (hasApiKey s) (isInitialLoad s) (originalImage s) (generatedImage s)
       (prompt s) (loading s) (enhancing s) "Unsupported file format." (blending s)
       (isCompareMode s) (sceneRefImage s) (analyzingSceneRef s) (selectedModel s)
       (activeView s) (history s) (feedback s) (showFeedbackOptions s)
       (learningProfile s))
  /\
  (Js.startsWith "image/" (fileType file) = true ->
   forall r, fileResult file = Some r -> Js.truthy r = true ->
   handleFile file s =
     mkAppState (hasApiKey s) (isInitialLoad s) (Some r) None
       (prompt s) (loading s) (enhancing s) "" (blending s)
       (isCompareMode s) (sceneRefImage s) (analyzingSceneRef s) (selectedModel s)
       editor (history s) None false (learningProfile s)).
Proof.
  split.
  - intros Ht. unfold handleFile. rewrite Ht. cbn [negb]. eval_setters. reflexivity.
  - intros Ht r Hr Hr'. unfold handleFile, handleFile_onload.
    rewrite Ht, Hr. cbn [negb Js.truthy_opt]. rewrite Hr'.
    eval_setters. reflexivity.
Qed.

Lemma handleFile_accepts_only_images_witness :
  error (handleFile pdfFile initialState) = "Unsupported file format."
  /\ originalImage (handleFile pdfFile initialState) = None
  /\ originalImage (handleFile pngFile initialState)
     = Some "data:image/png;base64,iVBORw0KGgo="
  /\ error (handleFile pngFile initialState) = "".
Proof.
  rewrite (proj1 (handleFile_accepts_only_images pdfFile initialState) eq_refl).
  rewrite (proj2 (handleFile_accepts_only_images pngFile initialState) eq_refl
             "data:image/png;base64,iVBORw0KGgo=" eq_refl eq_refl).
  repeat split.
Defined.

(* ================================================================= *)
(** ** Zoom of the node-graph canvas *)

(** The three zoom updates keep an interval [lo, hi] whatever the numbers
    are, as long as [max] and [min] are least upper and greatest lower
    bounds and subtracting (adding) the step does not increase (decrease)
    its argument.  This is all the bound needs of the arithmetic: it holds
    for exact rationals and for rounded arithmetic alike. *)
Section ClampedZoom.

Variable num : Type.
Variable le : num -> num -> Prop.
Variables vmax vmin : num -> num -> num.
Variables lo hi : num.
Variables down up : num -> num.

Hypothesis le_trans : forall a b c, le a b -> le b c -> le a c.
Hypothesis le_max_l : forall a b, le a (vmax a b).
Hypothesis max_lub : forall a b c, le a c -> le b c -> le (vmax a b) c.
Hypothesis le_min_l : forall a b, le (vmin a b) a.
Hypothesis le_min_r : forall a b, le (vmin a b) b.
Hypothesis min_glb : forall a b c, le c a -> le c b -> le c (vmin a b).
Hypothesis lo_le_hi : le lo hi.
Hypothesis down_le : forall s, le (down s) s.
Hypothesis up_ge : forall s, le s (up s).

Lemma clamp_both (x : num) : le lo (vmin (vmax lo x) hi) /\ le (vmin (vmax lo x) hi) hi.
Proof.
  split.
  - apply min_glb; [apply le_max_l | exact lo_le_hi].
  - apply le_min_r.
Qed.

Lemma clamp_below (s : num) :
  le lo s /\ le s hi -> le lo (vmax lo (down s)) /\ le (vmax lo (down s)) hi.
Proof.
  intros [Hlo Hhi]. split.
  - apply le_max_l.
  - apply max_lub; [exact lo_le_hi | exact (le_trans _ _ _ (down_le s) Hhi)].
Qed.

Lemma clamp_above (s : num) :
  le lo s /\ le s hi -> le lo (vmin hi (up s)) /\ le (vmin hi (up s)) hi.
Proof.
  intros [Hlo Hhi]. split.
  - apply min_glb; [exact lo_le_hi | exact (le_trans _ _ _ Hlo (up_ge s))].
  - apply le_min_l.
Qed.

End ClampedZoom.

Lemma wheel_clamps (q : Q) : inZoomRange (Qmin (Qmax (1 # 10) q) 3).
Proof.
  apply (clamp_both Q Qle Qmax Qmin (1 # 10) 3).
  - apply Q.le_max_l.
  - apply Q.le_min_r.
  - apply Q.min_glb.
  - lra.
Qed.

Lemma zoom_keeps_range (a : ZoomAction) (t : AdvancedCanvas.State) :
  inZoomRange (AdvancedCanvas.scale t) ->
  inZoomRange (AdvancedCanvas.scale (zoom a t)).
Proof.
  intros H. destruct a as [e| |]; simpl.
  - unfold AdvancedCanvas.handleWheel.
    destruct (AdvancedCanvas.ctrlKey e || AdvancedCanvas.metaKey e); simpl.
    + apply wheel_clamps.
    + exact H.
  - apply (clamp_below Q Qle Qmax (1 # 10) 3 (fun s => s - (1 # 10))).
    + apply Qle_trans.
    + apply Q.le_max_l.
    + apply Q.max_lub.
    + lra.
    + intros s. lra.
    + exact H.
  - apply (clamp_above Q Qle Qmin (1 # 10) 3 (fun s => s + (1 # 10))).
    + apply Qle_trans.
    + apply Q.le_min_l.
    + apply Q.min_glb.
    + lra.
    + intros s. lra.
    + exact H.
Qed.

Lemma zooms_keep_range (acts : list ZoomAction) (t : AdvancedCanvas.State) :
  inZoomRange (AdvancedCanvas.scale t) ->
  inZoomRange (AdvancedCanvas.scale (zooms acts t)).
Proof.
  revert t. induction acts as [|a acts IH]; intros t Ht; simpl.
  - exact Ht.
  - apply IH, zoom_keeps_range, Ht.
Qed.

(** C9. Starting from the scale 1 the canvas is created with, after any
    sequence of zoom actions (wheel events, with or without ctrl/meta, the
    zoom-out button, the zoom-in button) the scale is at least 0.1 and at
    most 3. *)
Theorem canvas_scale_stays_in_range (acts : list ZoomAction) :
  (1 # 10 <= AdvancedCanvas.scale (zooms acts AdvancedCanvas.initial))%Q
  /\ (AdvancedCanvas.scale (zooms acts AdvancedCanvas.initial) <= 3)%Q.
Proof.
  apply zooms_keep_range. split; simpl; lra.
Qed.

Example zoom_out_at_floor :
  AdvancedCanvas.scale
    (zooms [WheelZoom (AdvancedCanvas.mkWheelEvent true false 0 5000); ZoomOutButton]
       AdvancedCanvas.initial) = 1 # 10.
Proof. reflexivity. Qed.

Example zoom_in_at_ceiling :
  Qeq_bool
    (AdvancedCanvas.scale
       (zooms [WheelZoom (AdvancedCanvas.mkWheelEvent false true 0 (-9000)); ZoomInButton]
          AdvancedCanvas.initial)) 3 = true.
Proof. reflexivity. Qed.

(* ================================================================= *)
(** ** Disliking a result *)

Lemma arrayIncludes_In (x : string) (a : list string) :
  arrayIncludes x a = true <-> In x a.
Proof.
  unfold arrayIncludes. rewrite existsb_exists. split.
  - intros [y [Hy Heq]]. apply String.eqb_eq in Heq. now subst.
  - intros H. exists x. split; [exact H | apply String.eqb_refl].
Qed.

Lemma pushOnce_NoDup (c : string) (a : list string) :
  NoDup a -> NoDup (pushOnce c a).
Proof.
  intros Ha. unfold pushOnce.
  destruct (Js.truthy c); cbn [andb]; [|exact Ha].
  destruct (arrayIncludes c a) eqn:Hin; cbn [negb]; [exact Ha|].
  apply NoDup_app.
  - exact Ha.
  - constructor; [intros [] | constructor].
  - intros x Hx [Hc|[]]. subst x.
    apply arrayIncludes_In in Hx. congruence.
Qed.

Lemma pushOnce_idempotent (c : string) (a : list string) :
  pushOnce c (pushOnce c a) = pushOnce c a.
Proof.
  unfold pushOnce at 2. destruct (Js.truthy c) eqn:Hc; cbn [andb].
  - destruct (arrayIncludes c a) eqn:Hin; cbn [negb].
    + unfold pushOnce. now rewrite Hc, Hin.
    + unfold pushOnce. rewrite Hc.
      assert (H : arrayIncludes c (a ++ [c]) = true).
      { apply arrayIncludes_In, in_or_app. right. now left. }
      rewrite H, Hin. reflexivity.
  - unfold pushOnce. now rewrite Hc.
Qed.

Lemma handleDislike_corrections (reason : string) (s : AppState) :
  corrections (learningProfile (handleDislike reason s))
  = pushOnce (correctionFor reason) (corrections (learningProfile s)).
Proof.
  unfold correctionFor, pushOnce. eval_handlers.
  destruct (String.eqb reason "lighting"); [|destruct (String.eqb reason "cutout");
    [|destruct (String.eqb reason "fake")]]; eval_handlers;
  match goal with
  | |- context [if ?x then _ else _] => destruct x
  end; reflexivity.
Qed.

Lemma handleDislike_lightingEmphasis (reason : string) (s : AppState) :
  lightingEmphasis (learningProfile (handleDislike reason s))
  = (lightingEmphasis (learningProfile s)
     + (if String.eqb reason "lighting" then 1 else 0))%Z.
Proof.
  eval_handlers.
  destruct (String.eqb reason "lighting") eqn:Hl;
    [|destruct (String.eqb reason "cutout") eqn:Hc;
      [|destruct (String.eqb reason "fake")]];
  eval_handlers;
  try (match goal with
       | |- context [if ?x then _ else _] => destruct x
       end); cbn; lia.
Qed.

Lemma handleDislike_blendingStrictness (reason : string) (s : AppState) :
  blendingStrictness (learningProfile (handleDislike reason s))
  = (blendingStrictness (learningProfile s)
     + (if String.eqb reason "cutout" then 1 else 0))%Z.
Proof.
  eval_handlers.
  destruct (String.eqb reason "lighting") eqn:Hl.
  - apply String.eqb_eq in Hl. subst reason. cbn [String.eqb Ascii.eqb Bool.eqb].
    eval_handlers.
    match goal with
    | |- context [if ?x then _ else _] => destruct x
    end; cbn; lia.
  - destruct (String.eqb reason "cutout") eqn:Hc;
      [|destruct (String.eqb reason "fake")];
    eval_handlers;
    try (match goal with
         | |- context [if ?x then _ else _] => destruct x
         end); cbn; lia.
Qed.

Lemma dislikes_repeat_corrections (reason : string) (n : nat) (s : AppState) :
  corrections (learningProfile (dislikes (repeat reason (S n)) s))
  = corrections (learningProfile (handleDislike reason s)).
Proof.
  revert s. induction n as [|n IH]; intros s.
  - reflexivity.
  - change (dislikes (repeat reason (S (S n))) s)
      with (dislikes (repeat reason (S n)) (handleDislike reason s)).
    rewrite IH, !handleDislike_corrections. apply pushOnce_idempotent.
Qed.

Lemma dislikes_repeat_lighting (n : nat) (s : AppState) :
  lightingEmphasis (learningProfile (dislikes (repeat "lighting" n) s))
  = (lightingEmphasis (learningProfile s) + Z.of_nat n)%Z.
Proof.
  revert s. induction n as [|n IH]; intros s.
  - cbn. lia.
  - change (dislikes (repeat "lighting" (S n)) s)
      with (dislikes (repeat "lighting" n) (handleDislike "lighting" s)).
    rewrite IH, handleDislike_lightingEmphasis. cbn [String.eqb Ascii.eqb Bool.eqb]. lia.
Qed.

Lemma dislikes_repeat_cutout (n : nat) (s : AppState) :
  blendingStrictness (learningProfile (dislikes (repeat "cutout" n) s))
  = (blendingStrictness (learningProfile s) + Z.of_nat n)%Z.
Proof.
  revert s. induction n as [|n IH]; intros s.
  - cbn. lia.
  - change (dislikes (repeat "cutout" (S n)) s)
      with (dislikes (repeat "cutout" n) (handleDislike "cutout" s)).
    rewrite IH, handleDislike_blendingStrictness. cbn [String.eqb Ascii.eqb Bool.eqb]. lia.
Qed.

(** Only [handleDislike] writes the learning profile. *)
Lemma step_learningProfile (ev : Event) (w : World) :
  learningProfile (app (step ev w))
  = match ev with
    | Dislike reason => learningProfile (handleDislike reason (app w))
    | _ => learningProfile (app w)
    end.
Proof.
  destruct ev; eval_handlers; branch; reflexivity.
Qed.

Lemma corrections_NoDup_step (ev : Event) (w : World) :
  NoDup (corrections (learningProfile (app w))) ->
  NoDup (corrections (learningProfile (app (step ev w)))).
Proof.
  intros H. rewrite step_learningProfile. destruct ev; try exact H.
  rewrite handleDislike_corrections. apply pushOnce_NoDup, H.
Qed.

(** C10. Calling [handleDislike] with one reason once or many times in a
    row leaves the corrections list as the first call made it; along every
    run of the application the list holds no string twice; and every
    'lighting' call adds one to [lightingEmphasis], every 'cutout' call one
    to [blendingStrictness]. *)
Theorem dislike_corrections_added_once :
  (forall (reason : string) (n : nat) (s : AppState),
      corrections (learningProfile (dislikes (repeat reason (S n)) s))
      = corrections (learningProfile (handleDislike reason s)))
  /\ (forall (evs : list Event) (t0 : Z),
         NoDup (corrections (learningProfile (app (run evs (initialWorld t0))))))
  /\ (forall (n : nat) (s : AppState),
         lightingEmphasis (learningProfile (dislikes (repeat "lighting" n) s))
         = (lightingEmphasis (learningProfile s) + Z.of_nat n)%Z)
  /\ (forall (n : nat) (s : AppState),
         blendingStrictness (learningProfile (dislikes (repeat "cutout" n) s))
         = (blendingStrictness (learningProfile s) + Z.of_nat n)%Z).
Proof.
  split; [exact dislikes_repeat_corrections|].
  split; [|split; [exact dislikes_repeat_lighting | exact dislikes_repeat_cutout]].
  intros evs t0.
  apply (run_preserves (fun w => NoDup (corrections (learningProfile (app w))))).
  - intros ev w. apply corrections_NoDup_step.
  - constructor.
Qed.

Example three_lighting_dislikes :
  learningProfile (dislikes ["lighting"; "lighting"; "fake"; "lighting"] initialState)
  = mkLearningProfile 3 0 [lightingCorrection; fakeCorrection].
Proof. reflexivity. Qed.

(* ================================================================= *)
(** ** The generation operations *)

Lemma gen_run_unfold (op : GenOp) (ai : Api.Request -> Api.Outcome) (now : Z)
    (localeTime : string) (s : AppState) :
  gen_run op ai now localeTime s
  = match gen_begin op s with
    | Some (s1, fl) => gen_settle op fl (ai (request fl)) now localeTime s1
    | None => s
    end.
Proof. destruct op; reflexivity. Qed.

(** What passing the guard means and what the closure then holds. *)
Lemma gen_begin_some (op : GenOp) (s s1 : AppState) (fl : InFlight) :
  gen_begin op s = Some (s1, fl) ->
  s1 = gen_entry op s
  /\ originalImage s = Some (capturedImage fl)
  /\ Js.truthy (capturedImage fl) = true
  /\ capturedPrompt fl = recordPrompt op s
  /\ capturedModel fl = selectedModel s.
Proof.
  destruct op; cbn [gen_begin gen_entry recordPrompt];
    [unfold generateNewBackground_begin
    |unfold applyFilter_begin
    |unfold generateWithMask_begin];
    destruct (originalImage s) as [img|] eqn:Himg; try discriminate.
  - destruct (Js.truthy img) eqn:Ht; cbn [andb]; try discriminate.
    destruct (Js.truthy (Js.trim (prompt s))); try discriminate.
    intros H. injection H as <- <-. cbn. rewrite Ht. repeat split.
  - destruct (Js.truthy img) eqn:Ht; try discriminate.
    intros H. injection H as <- <-. cbn. rewrite Ht. repeat split.
  - destruct (Js.truthy img) eqn:Ht; try discriminate.
    intros H. injection H as <- <-. cbn. rewrite Ht. repeat split.
Qed.



Lemma gen_settle_loading (op : GenOp) (fl : InFlight) (res : Api.Outcome)
    (now : Z) (localeTime : string) (s : AppState) :
  loading (gen_settle op fl res now localeTime s) = false.
Proof. destruct op; reflexivity. Qed.

(** The three ways a settled call ends. *)
Lemma gen_settle_success (op : GenOp) (fl : InFlight) (res : Api.Outcome)
    (now : Z) (localeTime : string) (s : AppState) (b : string) :
  Api.tryGenerate res = inl b ->
  gen_settle op fl res now localeTime s
  = mkAppState (hasApiKey s) (isInitialLoad s) (originalImage s)
      (Some (pngDataURL b)) (prompt s) false (enhancing s) (error s) (blending s)
      (isCompareMode s) (sceneRefImage s) (analyzingSceneRef s) (selectedModel s)
      (match op with Background => activeView s | _ => editor end)
      (historyRecord fl (pngDataURL b) now localeTime :: history s)
      (feedback s) (showFeedbackOptions s) (learningProfile s).
Proof.
  intros H. destruct op; eval_handlers; rewrite H; eval_handlers; reflexivity.
Qed.

Lemma gen_settle_auth_error (op : GenOp) (fl : InFlight) (res : Api.Outcome)
    (now : Z) (localeTime : string) (s : AppState) (e : Api.JsError) :
  Api.tryGenerate res = inr e -> isAuthError e = true ->
  gen_settle op fl res now localeTime s = s |> setHasApiKey false |> setLoading false.
Proof.
  intros H Ha. destruct op; eval_handlers; rewrite H, Ha; eval_handlers; reflexivity.
Qed.

Lemma gen_settle_other_error (op : GenOp) (fl : InFlight) (res : Api.Outcome)
    (now : Z) (localeTime : string) (s : AppState) (e : Api.JsError) :
  Api.tryGenerate res = inr e -> isAuthError e = false ->
  gen_settle op fl res now localeTime s
  = s |> setError (gen_failure_message op) |> setLoading false.
Proof.
  intros H Ha. destruct op; eval_handlers; rewrite H, Ha; eval_handlers; reflexivity.
Qed.

Lemma existsb_snoc {A : Type} (f : A -> bool) (l : list A) (x : A) :
  existsb f (l ++ [x]) = existsb f l || f x.
Proof. rewrite existsb_app. cbn. now rewrite orb_false_r. Qed.

Lemma existsb_removeNth {A : Type} (f : A -> bool) (k : nat) (l : list A) (y : A) :
  nth_error l k = Some y -> f y = false ->
  existsb f (removeNth k l) = existsb f l.
Proof.
  revert k. induction l as [|a l IH]; intros k Hk Hy; [destruct k; discriminate|].
  destruct k; cbn in *.
  - injection Hk as ->. now rewrite Hy.
  - now rewrite (IH k Hk Hy).
Qed.










Example loading_follows_one_call :
  loading
    (app (run [ Upload pngFile; TypePrompt "a beach at dusk"; Start Background;
                Dislike "fake" ]
            (initialWorld 1700000000000)))
  = true
  /\ loading
       (app (run [ Upload pngFile; TypePrompt "a beach at dusk"; Start Background;
                   Dislike "fake";
                   Settle 0 (Api.Returns textOnlyResponse) "10:00:05" ]
               (initialWorld 1700000000000)))
     = false.
Proof. vm_compute. split; reflexivity. Qed.

(* ================================================================= *)
(** ** The shared history *)

Lemma gen_entry_history (op : GenOp) (s : AppState) :
  history (gen_entry op s) = history s.
Proof. destruct op; reflexivity. Qed.

Lemma gen_run_success (op : GenOp) (ai : Api.Request -> Api.Outcome) (now : Z)
    (localeTime : string) (s s1 : AppState) (fl : InFlight) (b : string) :
  gen_begin op s = Some (s1, fl) ->
  Api.tryGenerate (ai (request fl)) = inl b ->
  exists img,
    originalImage s = Some img
    /\ generatedImage (gen_run op ai now localeTime s) = Some (pngDataURL b)
    /\ history (gen_run op ai now localeTime s)
       = mkHistoryItem now img (pngDataURL b) (recordPrompt op s) localeTime
           (selectedModel s) :: history s.
Proof.
  intros Hb Hr. rewrite gen_run_unfold, Hb.
  rewrite (gen_settle_success _ _ _ _ _ _ _ Hr).
  apply gen_begin_some in Hb as (-> & Himg & _ & Hp & Hm).
  exists (capturedImage fl). split; [exact Himg|]. split; [reflexivity|].
  cbn [history]. rewrite gen_entry_history. unfold historyRecord.
  rewrite Hp, Hm. reflexivity.
Qed.

(** A step leaves the history alone or puts one record, stamped with the
    clock, in front of it. *)
Lemma step_history (ev : Event) (w : World) :
  history (app (step ev w)) = history (app w)
  \/ exists item,
       history (app (step ev w)) = item :: history (app w)
       /\ itemId item = clock w.
Proof.
  destruct ev; eval_handlers; branch;
    try (left; reflexivity);
    right; eexists; split; reflexivity.
Qed.

Lemma step_clock (ev : Event) (w : World) : (clock w <= clock (step ev w))%Z.
Proof.
  destruct ev; eval_handlers; branch; lia.
Qed.

Lemma newestFirst_step (ev : Event) (w : World) :
  newestFirst (history (app w))
  /\ Forall (fun i => (itemId i <= clock w)%Z) (history (app w)) ->
  newestFirst (history (app (step ev w)))
  /\ Forall (fun i => (itemId i <= clock (step ev w))%Z) (history (app (step ev w))).
Proof.
  intros [Hs Hc].
  pose proof (step_clock ev w) as Hclk.
  assert (Hc' : Forall (fun i => (itemId i <= clock (step ev w))%Z) (history (app w))).
  { revert Hc. apply Forall_impl. intros i Hi. lia. }
  destruct (step_history ev w) as [-> | [item [-> Hid]]].
  - split; assumption.
  - split.
    + apply SSorted_cons; [exact Hs|].
      revert Hc. apply Forall_impl. intros i Hi. lia.
    + constructor; [lia | exact Hc'].
Qed.

Lemma newestFirst_run (evs : list Event) (t0 : Z) :
  newestFirst (history (app (run evs (initialWorld t0)))).
Proof.
  apply (run_preserves
           (fun w => newestFirst (history (app w))
                     /\ Forall (fun i => (itemId i <= clock w)%Z) (history (app w)))).
  - intros ev w. apply newestFirst_step.
  - split; constructor.
Qed.

(** C1. Each of [generateNewBackground], [applyFilter] and
    [generateWithMask], when it runs and the response carries an image,
    puts exactly one record (original, generated, prompt, timestamp,
    model, with [Date.now()] as id) in front of the one history list; no
    step of the application does anything else to that list, and along
    every run it is ordered newest first. *)
Theorem history_prepended_newest_first :
  (forall op ai now localeTime s s1 fl b,
      gen_begin op s = Some (s1, fl) ->
      Api.tryGenerate (ai (request fl)) = inl b ->
      exists img,
        originalImage s = Some img
        /\ history (gen_run op ai now localeTime s)
           = mkHistoryItem now img (pngDataURL b) (recordPrompt op s) localeTime
               (selectedModel s) :: history s)
  /\ (forall ev w,
         history (app (step ev w)) = history (app w)
         \/ exists item,
              history (app (step ev w)) = item :: history (app w)
              /\ itemId item = clock w)
  /\ (forall evs t0, newestFirst (history (app (run evs (initialWorld t0))))).
Proof.
  split; [|split; [exact step_history | exact newestFirst_run]].
  intros op ai now localeTime s s1 fl b Hb Hr.
  destruct (gen_run_success op ai now localeTime s s1 fl b Hb Hr) as (img & H1 & _ & H3).
  exists img. split; assumption.
Qed.

Lemma history_prepended_newest_first_witness :
  exists img,
    originalImage (handleFile pngFile initialState) = Some img
    /\ history (gen_run (Filter "Vintage")
                  (fun _ => Api.Returns (imageResponse "QUJD")) 1700000000000
                  "10:00:00" (handleFile pngFile initialState))
       = [mkHistoryItem 1700000000000 img (pngDataURL "QUJD") "Filter: Vintage"
            "10:00:00" "nano-banana-1"].
Proof.
  refine (proj1 history_prepended_newest_first (Filter "Vintage") _ _ _ _ _ _ _ _ _).
  - vm_compute. reflexivity.
  - vm_compute. reflexivity.
Defined.

Example history_after_two_runs :
  map itemPrompt
    (history
       (app (run [ Upload pngFile; TypePrompt "a beach"; Start Background;
                   Tick 1500; Settle 0 (Api.Returns (imageResponse "QUJD")) "10:00:01";
                   Start (Filter "Noir"); Tick 900;
                   Settle 0 (Api.Returns (imageResponse "REVG")) "10:00:02" ]
              (initialWorld 1000))))
  = ["Filter: Noir"; "a beach"].
Proof. vm_compute. reflexivity. Qed.

(* ================================================================= *)
(** ** A generation that fails *)

(** C3, as stated, fails: a failed [generateNewBackground] also resets the
    feedback the user gave on the previous result, so its effect is not
    confined to the error and the loading flag. *)
Lemma failed_background_resets_feedback :
  isAuthError serverError = false
  /\ generatedImage (app likedWorld) = Some (pngDataURL "QUJD")
  /\ feedback (app likedWorld) = Some liked
  /\ feedback (generateNewBackground (fun _ => Api.Throws serverError)
                 1700000009000 "10:00:09" (app likedWorld)) = None
  /\ generateNewBackground (fun _ => Api.Throws serverError)
       1700000009000 "10:00:09" (app likedWorld)
     <> (app likedWorld |> setError "Error generating image. Please try again."
                         |> setLoading false).
Proof.
  repeat split; try (vm_compute; reflexivity).
  intros H. apply (f_equal feedback) in H. vm_compute in H. discriminate H.
Qed.

(** C3, amended. When a generation operation that has passed its guard
    fails with an error that is not an auth error, the error cell holds
    the operation's fixed message and [loading] is false; the original
    image, the generated image, the history and every other cell are as
    before, except that [generateNewBackground] has cleared the feedback
    and the feedback-options flag on entry. *)
Theorem failed_generation_only_reports (op : GenOp) (ai : Api.Request -> Api.Outcome)
    (now : Z) (localeTime : string) (s s1 : AppState) (fl : InFlight)
    (e : Api.JsError) :
  gen_begin op s = Some (s1, fl) ->
  Api.tryGenerate (ai (request fl)) = inr e ->
  isAuthError e = false ->
  gen_run op ai now localeTime s
  = mkAppState (hasApiKey s) (isInitialLoad s) (originalImage s) (generatedImage s)
      (prompt s) false (enhancing s) (gen_failure_message op) (blending s)
      (isCompareMode s) (sceneRefImage s) (analyzingSceneRef s) (selectedModel s)
      (activeView s) (history s)
      (match op with Background => None | _ => feedback s end)
      (match op with Background => false | _ => showFeedbackOptions s end)
      (learningProfile s).
Proof.
  intros Hb Hr Ha. rewrite gen_run_unfold, Hb.
  rewrite (gen_settle_other_error _ _ _ _ _ _ _ Hr Ha).
  apply gen_begin_some in Hb as (-> & _).
  destruct op; reflexivity.
Qed.

Lemma failed_generation_only_reports_witness :
  gen_run (Mask "data:image/png;base64,TUFTSw==" "remove the lamp")
    (fun _ => Api.Returns textOnlyResponse) 1700000009000 "10:00:09" (app likedWorld)
  = app likedWorld |> setError "Error generating edit. Please try again.".
Proof.
  rewrite (failed_generation_only_reports
             (Mask "data:image/png;base64,TUFTSw==" "remove the lamp")
             (fun _ => Api.Returns textOnlyResponse) 1700000009000 "10:00:09"
             (app likedWorld)
             (gen_entry (Mask "data:image/png;base64,TUFTSw==" "remove the lamp")
                (app likedWorld))
             (mkInFlight "data:image/png;base64,iVBORw0KGgo=" "remove the lamp"
                "nano-banana-1"
                (Api.mkRequest "gemini-2.5-flash-image"
                   (Api.ContentsParts
                      [ Api.textPart (maskFullPrompt "remove the lamp");
                        Api.inlinePart (Some "image/png") (Some "iVBORw0KGgo=");
                        Api.inlinePart (Some "image/png") (Some "TUFTSw==") ])
                   None))
             (Api.newError "No image generated.")).
  - vm_compute. reflexivity.
  - vm_compute. reflexivity.
  - vm_compute. reflexivity.
  - vm_compute. reflexivity.
Defined.

(* ================================================================= *)
(** ** The image pipeline: upload, request, result *)

Lemma prefix_append_l (p a b : string) :
  String.prefix p a = true -> String.prefix p (a ++ b) = true.
Proof.
  revert a. induction p as [|x p IH]; intros a H.
  - now destruct (a ++ b)%string.
  - destruct a as [|y a]; simpl in *; [discriminate|].
    destruct (ascii_dec x y); [now apply IH | discriminate].
Qed.

Lemma includes_append_l (p a b : string) :
  Js.includes p a = true -> Js.includes p (a ++ b) = true.
Proof.
  induction a as [|y a IH]; intros H.
  - simpl in H. rewrite orb_false_r in H.
    destruct p; [|discriminate]. now destruct b.
  - change (Js.includes p (String y a))
      with (String.prefix p (String y a) || Js.includes p a) in H.
    change (Js.includes p (String y a ++ b))
      with (String.prefix p (String y a ++ b) || Js.includes p (a ++ b)).
    apply orb_true_iff in H as [H|H].
    + rewrite (prefix_append_l _ _ b H). reflexivity.
    + rewrite (IH H). apply orb_true_r.
Qed.

Lemma includes_append_r (p a b : string) :
  Js.includes p b = true -> Js.includes p (a ++ b) = true.
Proof.
  intros H. induction a as [|y a IH]; [exact H|].
  change (Js.includes p (String y a ++ b))
    with (String.prefix p (String y a ++ b) || Js.includes p (a ++ b)).
  rewrite IH. apply orb_true_r.
Qed.

(** The prompt text sent for a background replacement quotes the user's
    prompt. *)
Lemma backgroundFullPrompt_quotes_prompt (s : AppState) :
  Js.includes (prompt s) (backgroundFullPrompt s) = true.
Proof.
  unfold backgroundFullPrompt, Js.lines. cbn [String.concat].
  do 6 apply includes_append_r.
  apply includes_append_l.
  do 2 apply includes_append_r.
  apply includes_here, prefix_append.
Qed.

Lemma backgroundParts_shape (mime payload : string) (s : AppState) :
  Js.occurs "," mime = false -> Js.occurs ";" mime = false ->
  Js.occurs ":" mime = false -> Js.occurs "," payload = false ->
  exists textPrompt rest,
    backgroundParts (dataURL mime payload) s
    = Api.textPart textPrompt :: Api.inlinePart (Some mime) (Some payload) :: rest
    /\ Js.includes (prompt s) textPrompt = true.
Proof.
  intros H1 H2 H3 H4. unfold backgroundParts.
  rewrite (mimeOf_dataURL _ _ H2 H3), (base64Of_dataURL _ _ H1 H4).
  destruct (sceneRefImage s) as [ref|]; [destruct (Js.truthy ref)|];
    eexists; eexists; (split; [reflexivity|]).
  - apply includes_append_l, backgroundFullPrompt_quotes_prompt.
  - apply backgroundFullPrompt_quotes_prompt.
  - apply backgroundFullPrompt_quotes_prompt.
Qed.

Lemma tryGenerate_image (r : Api.Response) (b : string) :
  Api.generatedBase64 r = Some b -> Js.truthy b = true ->
  Api.tryGenerate (Api.Returns r) = inl b.
Proof. intros H Ht. unfold Api.tryGenerate. now rewrite H, Ht. Qed.

Lemma tryGenerate_no_image (r : Api.Response) :
  Js.truthy_opt (Api.generatedBase64 r) = false ->
  Api.tryGenerate (Api.Returns r) = inr (Api.newError "No image generated.").
Proof.
  unfold Api.tryGenerate, Js.truthy_opt.
  destruct (Api.generatedBase64 r) as [b|]; [|reflexivity].
  intros ->. reflexivity.
Qed.

Lemma no_image_is_not_auth_error :
  isAuthError (Api.newError "No image generated.") = false.
Proof. reflexivity. Qed.

(** C2, as stated, fails: the first candidate of this response holds two
    inline parts, the first without data, the second with an image; the
    run shows no image, adds no record and reports an error. *)
Lemma inline_part_without_data_gives_no_image :
  hasInlinePart emptyFirstResponse = true
  /\ originalImage (handleFile pngFile initialState |> setPrompt "a beach at dusk")
     = Some "data:image/png;base64,iVBORw0KGgo="
  /\ generatedImage
       (generateNewBackground (fun _ => Api.Returns emptyFirstResponse)
          1700000000000 "10:00:00"
          (handleFile pngFile initialState |> setPrompt "a beach at dusk")) = None
  /\ history
       (generateNewBackground (fun _ => Api.Returns emptyFirstResponse)
          1700000000000 "10:00:00"
          (handleFile pngFile initialState |> setPrompt "a beach at dusk")) = []
  /\ error
       (generateNewBackground (fun _ => Api.Returns emptyFirstResponse)
          1700000000000 "10:00:00"
          (handleFile pngFile initialState |> setPrompt "a beach at dusk"))
     = "Error generating image. Please try again.".
Proof. repeat split; vm_compute; reflexivity. Qed.

(** C2, amended. An accepted upload makes the reader's data URL the
    current image.  A run of [generateNewBackground] on a current image
    [data:<mime>;base64,<payload>] with a non-blank prompt sends the model
    a text that quotes the prompt, followed by the payload with its MIME
    type.  If the call returns and the first inline-data part of the first
    candidate carries non-empty data, that data, as a PNG data URL, becomes
    the generated image and one record is put in front of the history.  In
    every other case (the call throws, or there is no such part, or it
    carries no data) the generated image and the history stay as they
    were. *)
Theorem pipeline_uses_first_inline_part (mime payload : string) :
  Js.occurs "," mime = false -> Js.occurs ";" mime = false ->
  Js.occurs ":" mime = false -> Js.occurs "," payload = false ->
  (forall s, Js.startsWith "image/" mime = true ->
             originalImage (handleFile (mkFile mime (Some (dataURL mime payload))) s)
             = Some (dataURL mime payload))
  /\
  (forall s ai now localeTime,
      originalImage s = Some (dataURL mime payload) ->
      Js.truthy (Js.trim (prompt s)) = true ->
      exists s1 fl textPrompt rest,
        gen_begin Background s = Some (s1, fl)
        /\ request fl
           = Api.mkRequest (apiModelFor (selectedModel s))
               (Api.ContentsParts
                  (Api.textPart textPrompt
                     :: Api.inlinePart (Some mime) (Some payload) :: rest))
               None
        /\ Js.includes (prompt s) textPrompt = true
        /\ (forall r b,
               ai (request fl) = Api.Returns r ->
               Api.generatedBase64 r = Some b -> Js.truthy b = true ->
               generatedImage (generateNewBackground ai now localeTime s)
               = Some (pngDataURL b)
               /\ history (generateNewBackground ai now localeTime s)
                  = mkHistoryItem now (dataURL mime payload) (pngDataURL b) (prompt s)
                      localeTime (selectedModel s) :: history s)
        /\ (forall r,
               ai (request fl) = Api.Returns r ->
               Js.truthy_opt (Api.generatedBase64 r) = false ->
               generatedImage (generateNewBackground ai now localeTime s)
               = generatedImage s
               /\ history (generateNewBackground ai now localeTime s) = history s)
        /\ (forall e,
               ai (request fl) = Api.Throws e ->
               generatedImage (generateNewBackground ai now localeTime s)
               = generatedImage s
               /\ history (generateNewBackground ai now localeTime s) = history s)).
Proof.
  intros H1 H2 H3 H4. split.
  - intros s Ht. unfold handleFile, handleFile_onload.
    cbn [fileType fileResult]. rewrite Ht. reflexivity.
  - intros s ai now localeTime Himg Hp.
    destruct (backgroundParts_shape mime payload s H1 H2 H3 H4)
      as (textPrompt & rest & Hparts & Hinc).
    assert (Hb : gen_begin Background s
                 = Some (gen_entry Background s,
                         mkInFlight (dataURL mime payload) (prompt s) (selectedModel s)
                           (Api.mkRequest (apiModelFor (selectedModel s))
                              (Api.ContentsParts
                                 (Api.textPart textPrompt
                                    :: Api.inlinePart (Some mime) (Some payload)
                                    :: rest)) None))).
    { cbn [gen_begin]. unfold generateNewBackground_begin.
      rewrite Himg, Hp, Hparts. reflexivity. }
    eexists; eexists; exists textPrompt, rest.
    split; [exact Hb|]. split; [reflexivity|]. split; [exact Hinc|].
    change (generateNewBackground ai now localeTime s)
      with (gen_run Background ai now localeTime s).
    split; [|split].
    + intros r b Hr Hg Ht.
      destruct (gen_run_success Background ai now localeTime s _ _ b Hb)
        as (img & Hi & Hgen & Hhist).
      { cbn [request]. cbn [request] in Hr. rewrite Hr.
        now apply tryGenerate_image. }
      rewrite Himg in Hi. injection Hi as <-. split; assumption.
    + intros r Hr Hn.
      rewrite gen_run_unfold, Hb. cbn [request] in Hr |- *. rewrite Hr.
      rewrite (gen_settle_other_error Background _ (Api.Returns r) _ _ _
                 (Api.newError "No image generated.")
                 (tryGenerate_no_image r Hn) no_image_is_not_auth_error).
      split; reflexivity.
    + intros e He.
      rewrite gen_run_unfold, Hb. cbn [request] in He |- *. rewrite He.
      destruct (isAuthError e) eqn:Ha.
      * rewrite (gen_settle_auth_error Background _ (Api.Throws e) _ _ _ e eq_refl Ha).
        split; reflexivity.
      * rewrite (gen_settle_other_error Background _ (Api.Throws e) _ _ _ e eq_refl Ha).
        split; reflexivity.
Qed.

Lemma pipeline_uses_first_inline_part_witness :
  exists s1 fl,
    gen_begin Background (handleFile pngFile initialState |> setPrompt "a beach at dusk")
    = Some (s1, fl)
    /\ generatedImage
         (generateNewBackground (fun _ => Api.Returns (imageResponse "QUJD"))
            1700000000000 "10:00:00"
            (handleFile pngFile initialState |> setPrompt "a beach at dusk"))
       = Some (pngDataURL "QUJD").
Proof.
  destruct (proj2 (pipeline_uses_first_inline_part "image/png" "iVBORw0KGgo="
                     eq_refl eq_refl eq_refl eq_refl)
              (handleFile pngFile initialState |> setPrompt "a beach at dusk")
              (fun _ => Api.Returns (imageResponse "QUJD"))
              1700000000000%Z "10:00:00" eq_refl eq_refl)
    as (s1 & fl & textPrompt & rest & Hb & _ & _ & Hok & _).
  exists s1, fl. split; [exact Hb|].
  exact (proj1 (Hok (imageResponse "QUJD") "QUJD" eq_refl eq_refl eq_refl)).
Defined.

(** A prompt of white space only, the no-break space included, is blank to
    the entry guard: nothing is sent and the state stays as it is. *)
Example blank_prompt_sends_nothing :
  gen_begin Background
    (handleFile pngFile initialState
       |> setPrompt (" " ++ Js.noBreakSpace ++ Js.ideographicSpace)%string)
  = None
  /\ generateNewBackground (fun _ => Api.Returns (imageResponse "QUJD"))
       1700000000000 "10:00:00"
       (handleFile pngFile initialState |> setPrompt Js.noBreakSpace)
     = (handleFile pngFile initialState |> setPrompt Js.noBreakSpace).
Proof. split; vm_compute; reflexivity. Qed.

Example second_candidate_is_ignored :
  Api.generatedBase64
    (Api.mkResponse
       (Some [ Api.mkCandidate (Some (Api.mkContent (Some [Api.textPart "no"])));
               Api.mkCandidate
                 (Some (Api.mkContent
                          (Some [Api.inlinePart (Some "image/png") (Some "QUJD")]))) ])
       None) = None.
Proof. reflexivity. Qed.

(* ================================================================= *)
(** ** The API-key gate *)

(** What the closure holds and the child's state play no part in what a
    thrown error does to the main state. *)
Lemma after_throw_generation (op : GenOp) (fl : InFlight) (e : Api.JsError)
    (now : Z) (localeTime : string) (s : AppState) :
  hasApiKey (gen_settle op fl (Api.Throws e) now localeTime s)
  = if isAuthError e then false else hasApiKey s.
Proof.
  destruct (isAuthError e) eqn:Ha.
  - now rewrite (gen_settle_auth_error op fl (Api.Throws e) now localeTime s e eq_refl Ha).
  - now rewrite (gen_settle_other_error op fl (Api.Throws e) now localeTime s e eq_refl Ha).
Qed.

Lemma after_throw_enhancePrompt (e : Api.JsError) (s : AppState) :
  hasApiKey (enhancePrompt_settle (Api.Throws e) s)
  = if isAuthError e then false else hasApiKey s.
Proof. unfold enhancePrompt_settle. destruct (isAuthError e); reflexivity. Qed.

Lemma after_throw_analyzeSceneRef (e : Api.JsError) (s : AppState) :
  hasApiKey (analyzeSceneRef_settle (Api.Throws e) s)
  = if isAuthError e then false else hasApiKey s.
Proof. unfold analyzeSceneRef_settle. destruct (isAuthError e); reflexivity. Qed.

Lemma after_throw_analyzeImage (e : Api.JsError) (s : AppState)
    (t : PromptInspector.State) :
  hasApiKey (fst (PromptInspector.analyzeImage_settle (Api.Throws e) (s, t)))
  = if isAuthError e then false else hasApiKey s.
Proof.
  unfold PromptInspector.analyzeImage_settle. destruct (isAuthError e); reflexivity.
Qed.

Lemma after_throw_runGenerator (e : Api.JsError) (s : AppState)
    (t : AdvancedCanvas.State) (closureNodes : list AdvancedCanvas.Node)
    (nodeId : string) :
  hasApiKey (fst (AdvancedCanvas.runGenerator_settle closureNodes nodeId
                    (Api.Throws e) (s, t)))
  = if isAuthError e then false else hasApiKey s.
Proof.
  unfold AdvancedCanvas.runGenerator_settle. destruct (isAuthError e); reflexivity.
Qed.

Lemma after_handleEnhance (res : Api.Outcome) (s : AppState) (t : FilterStudio.State) :
  fst (FilterStudio.handleEnhance_settle res (s, t)) = s.
Proof. reflexivity. Qed.

Lemma after_analyzeRefStyle (res : Api.Outcome) (s : AppState) (t : FilterStudio.State) :
  fst (FilterStudio.analyzeRefStyle_settle res (s, t)) = s.
Proof. reflexivity. Qed.

(** Seven of the nine operations go through the gate. *)
Lemma gate_of_seven (op : ApiOperation) (e : Api.JsError) (s : AppState) :
  op <> OpFilterEnhance -> op <> OpFilterAnalyzeRefStyle ->
  hasApiKey (app_after_throw op e s) = if isAuthError e then false else hasApiKey s.
Proof.
  intros H1 H2. destruct op; try congruence; unfold app_after_throw.
  - apply after_throw_runGenerator.
  - apply after_throw_analyzeImage.
  - apply after_throw_analyzeSceneRef.
  - apply after_throw_enhancePrompt.
  - apply (after_throw_generation (Filter "")).
  - apply (after_throw_generation (Mask "" "")).
  - apply (after_throw_generation Background).
Qed.

(** C4. The two operations of the filter studio that call the model on
    their own, [handleEnhance] and [analyzeRefStyle], do not go through the
    gate: an error that [isAuthError] recognises leaves [hasApiKey] as it
    was, whereas the same error thrown to [enhancePrompt] of the main
    component sets it to false. *)
Theorem filter_studio_skips_api_key_gate :
  isAuthError forbiddenError = true
  /\ (forall s, hasApiKey (app_after_throw OpFilterEnhance forbiddenError s)
                = hasApiKey s)
  /\ (forall s, hasApiKey (app_after_throw OpFilterAnalyzeRefStyle forbiddenError s)
                = hasApiKey s)
  /\ (forall s, hasApiKey (app_after_throw OpEnhancePrompt forbiddenError s) = false)
  /\ hasApiKey
       (fst (FilterStudio.handleEnhance_settle (Api.Throws forbiddenError)
               (setHasApiKey true initialState,
                FilterStudio.setFilterPrompt "anime" FilterStudio.initial)))
     = true.
Proof.
  split; [reflexivity|].
  split; [intros s; reflexivity|].
  split; [intros s; reflexivity|].
  split; [|reflexivity].
  intros s. unfold app_after_throw. rewrite after_throw_enhancePrompt. reflexivity.
Qed.

(* ================================================================= *)
(** ** Where the held images come from *)

Lemma tryGenerate_inl_truthy (res : Api.Outcome) (b : string) :
  Api.tryGenerate res = inl b -> Js.truthy b = true.
Proof.
  unfold Api.tryGenerate. destruct res as [r|e]; [|discriminate].
  destruct (Api.generatedBase64 r) as [x|]; [|discriminate].
  destruct (Js.truthy x) eqn:Hx; [|discriminate].
  intros H. injection H as <-. exact Hx.
Qed.

Lemma generated_is_not_object_url (u : string) : isGenerated u -> isObjectURL u = false.
Proof. intros [b [-> _]]. reflexivity. Qed.

Lemma In_removeNth {A : Type} (k : nat) (l : list A) (x : A) :
  In x (removeNth k l) -> In x l.
Proof.
  revert k. induction l as [|a l IH]; intros k H; [destruct k; exact H|].
  destruct k; simpl in H.
  - now right.
  - destruct H as [->|H]; [now left | right; eauto].
Qed.

Lemma imagesFrom_mono (d d' : list string) (w : World) :
  incl d d' -> imagesFrom d w -> imagesFrom d' w.
Proof.
  intros Hi (Hg & Ho & Hf). split; [exact Hg|].
  split; [intros u Hu; apply Hi, Ho, Hu | intros op fl H; apply Hi, (Hf op fl H)].
Qed.

Lemma imagesFrom_same (d : list string) (s s' : AppState) (c c' : Z)
    (fs fs' : list Flight) :
  sameImages s s' ->
  (forall op fl, In (FlyGeneration op fl) fs' -> In (FlyGeneration op fl) fs) ->
  imagesFrom d (mkWorld s c fs) -> imagesFrom d (mkWorld s' c' fs').
Proof.
  intros (H1 & H2 & H3) Hfs (Hg & Ho & Hf).
  unfold imagesFrom, generatedHeld, originalsHeld in *. cbn [app inflight] in *.
  rewrite H1, H2, H3. split; [exact Hg|]. split; [exact Ho|].
  intros op fl H. apply (Hf op fl), Hfs, H.
Qed.

Lemma sameImages_refl (s : AppState) : sameImages s s.
Proof. repeat split. Qed.

Lemma settle_other_sameImages (res : Api.Outcome) (s : AppState) :
  sameImages s (enhancePrompt_settle res s)
  /\ sameImages s (analyzeSceneRef_settle res s).
Proof.
  split; unfold sameImages; eval_handlers; branch; repeat split.
Qed.

Lemma gen_entry_sameImages (op : GenOp) (s : AppState) : sameImages s (gen_entry op s).
Proof. destruct op; repeat split. Qed.

Lemma in_snoc {A : Type} (l : list A) (x y : A) :
  In y (l ++ [x]) -> In y l \/ y = x.
Proof.
  intros H. apply in_app_or in H as [H|[H|[]]]; [now left | now right].
Qed.

Lemma imagesFrom_step (d : list string) (ev : Event) (w : World) :
  imagesFrom d w -> imagesFrom (d ++ delivered [ev]) (step ev w).
Proof.
  intros Hw.
  assert (Hmono : imagesFrom (d ++ delivered [ev]) w).
  { revert Hw. apply imagesFrom_mono, incl_appl, incl_refl. }
  destruct w as [s c fs].
  destruct ev; cbn [step app clock inflight];
    try solve [revert Hmono; apply imagesFrom_same;
               [repeat split; reflexivity | intros op' fl' H; exact H]].
  - (* Mounted *)
    revert Hmono. apply imagesFrom_same; [|auto].
    unfold check. destruct aistudio; repeat split.
  - (* Connect *)
    revert Hmono. apply imagesFrom_same; [|auto].
    unfold handleConnect. destruct aistudio; repeat split.
  - (* Upload *)
    unfold handleFile, handleFile_onload.
    destruct (negb (Js.startsWith "image/" (fileType file))).
    + revert Hmono. apply imagesFrom_same; [repeat split | auto].
    + destruct (fileResult file) as [r|] eqn:Hr; [|exact Hmono].
      cbn [Js.truthy_opt]. destruct (Js.truthy r); [|exact Hmono].
      destruct Hmono as (Hg & Ho & Hf).
      unfold imagesFrom, generatedHeld, originalsHeld in *.
      cbn [app inflight delivered] in *. rewrite Hr in *.
      split; [|split].
      * intros u Hu. apply Hg, in_or_app. right. exact Hu.
      * intros u [<-|Hu].
        -- apply in_or_app. right. now left.
        -- apply Ho, in_or_app. right. exact Hu.
      * exact Hf.
  - (* SceneRefUpload *)
    destruct (handleSceneRefUpload_begin file s) as [[s1 req]|] eqn:Hb; [|exact Hmono].
    revert Hmono. apply imagesFrom_same.
    + revert Hb. unfold handleSceneRefUpload_begin, analyzeSceneRef_begin.
      destruct (negb (Js.startsWith "image/" (fileType file))); [discriminate|].
      destruct (fileResult file) as [r|]; [|discriminate].
      destruct (Js.truthy r); [|discriminate].
      intros H. injection H as <- _. repeat split.
    + intros op' fl' H. apply in_snoc in H as [H|H]; [exact H | discriminate H].
  - (* Dislike *)
    revert Hmono. apply imagesFrom_same; [|auto].
    unfold sameImages. eval_handlers. branch; repeat split.
  - (* Reset *)
    destruct Hmono as (Hg & Ho & Hf).
    unfold imagesFrom, generatedHeld, originalsHeld in *. cbn [app inflight] in *.
    split; [|split].
    + intros u Hu. apply Hg, in_or_app. right. exact Hu.
    + intros u Hu. apply Ho, in_or_app. right. exact Hu.
    + exact Hf.
  - (* LoadFromHistory *)
    destruct (nth_error (history s) n) as [item|] eqn:Hn; [|exact Hmono].
    apply nth_error_In in Hn.
    destruct Hmono as (Hg & Ho & Hf).
    unfold imagesFrom, generatedHeld, originalsHeld in *. cbn [app inflight] in *.
    split; [|split].
    + intros u [<-|Hu].
      * apply Hg, in_or_app. right. now apply in_map.
      * apply Hg, in_or_app. right. exact Hu.
    + intros u [<-|Hu].
      * apply Ho, in_or_app. right. now apply in_map.
      * apply Ho, in_or_app. right. exact Hu.
    + exact Hf.
  - (* Start *)
    destruct (gen_begin op s) as [[s1 fl]|] eqn:Hb; [|exact Hmono].
    apply gen_begin_some in Hb as (-> & Himg & _).
    assert (Hcap : In (capturedImage fl) (d ++ delivered [Start op])).
    { destruct Hmono as (_ & Ho & _). apply Ho.
      unfold originalsHeld. cbn [app]. rewrite Himg. now left. }
    pose proof (imagesFrom_same _ s (gen_entry op s) c c fs fs
                  (gen_entry_sameImages op s) (fun _ _ H => H) Hmono)
      as (Hg & Ho & Hf).
    split; [exact Hg|]. split; [exact Ho|].
    cbn [inflight] in *. intros op' fl' H.
    apply in_snoc in H as [H|H]; [exact (Hf op' fl' H)|].
    injection H as _ ->. exact Hcap.
  - (* StartEnhance *)
    destruct (enhancePrompt_begin s) as [[s1 req]|] eqn:Hb; [|exact Hmono].
    revert Hmono. apply imagesFrom_same.
    + revert Hb. unfold enhancePrompt_begin.
      destruct (negb (Js.truthy (Js.trim (prompt s)))); [discriminate|].
      intros H. injection H as <- _. repeat split.
    + intros op' fl' H. apply in_snoc in H as [H|H]; [exact H | discriminate H].
  - (* Settle *)
    destruct (nth_error fs k) as [f|] eqn:Hk; [|exact Hmono].
    apply nth_error_In in Hk.
    destruct f as [op fl| |]; cbn [settle].
    + destruct (Api.tryGenerate res) as [b|e] eqn:Hr.
      * rewrite (gen_settle_success _ _ _ _ _ _ _ Hr).
        pose proof (tryGenerate_inl_truthy _ _ Hr) as Hb.
        destruct Hmono as (Hg & Ho & Hf).
        unfold imagesFrom, generatedHeld, originalsHeld in *.
        cbn [app inflight] in *.
        split; [|split].
        -- intros u [<-|[<-|Hu]].
           ++ now exists b.
           ++ now exists b.
           ++ apply Hg, in_or_app. right. exact Hu.
        -- intros u Hu. apply in_app_or in Hu as [Hu|[<-|Hu]].
           ++ apply Ho, in_or_app. left. exact Hu.
           ++ apply (Hf op fl Hk).
           ++ apply Ho, in_or_app. right. exact Hu.
        -- intros op' fl' H. apply (Hf op' fl'), (In_removeNth k), H.
      * revert Hmono. apply imagesFrom_same.
        -- destruct (isAuthError e) eqn:Ha.
           ++ rewrite (gen_settle_auth_error _ _ _ _ _ _ _ Hr Ha). repeat split.
           ++ rewrite (gen_settle_other_error _ _ _ _ _ _ _ Hr Ha). repeat split.
        -- intros op' fl' H. apply (In_removeNth k), H.
    + revert Hmono. apply imagesFrom_same.
      * apply settle_other_sameImages.
      * intros op' fl' H. apply (In_removeNth k), H.
    + revert Hmono. apply imagesFrom_same.
      * apply settle_other_sameImages.
      * intros op' fl' H. apply (In_removeNth k), H.
Qed.

Lemma delivered_app (evs1 evs2 : list Event) :
  delivered (evs1 ++ evs2) = delivered evs1 ++ delivered evs2.
Proof.
  induction evs1 as [|ev evs1 IH]; [reflexivity|].
  destruct ev; cbn [delivered List.app]; try exact IH.
  destruct (fileResult file); [|exact IH].
  rewrite IH. reflexivity.
Qed.

Lemma imagesFrom_run (evs : list Event) (d : list string) (w : World) :
  imagesFrom d w -> imagesFrom (d ++ delivered evs) (run evs w).
Proof.
  revert d w. induction evs as [|ev evs IH]; intros d w Hw.
  - cbn [delivered run fold_left]. rewrite app_nil_r. exact Hw.
  - change (ev :: evs) with ([ev] ++ evs) at 1.
    rewrite delivered_app, List.app_assoc.
    change (run (ev :: evs) w) with (run evs (step ev w)).
    apply IH, imagesFrom_step, Hw.
Qed.

Lemma heldImages_split (s : AppState) (u : string) :
  In u (heldImages s) -> In u (generatedHeld s) \/ In u (originalsHeld s).
Proof.
  unfold heldImages, generatedHeld, originalsHeld. intros H.
  apply in_app_or in H as [H|H]; [right; apply in_or_app; now left|].
  apply in_app_or in H as [H|H]; [left; apply in_or_app; now left|].
  induction (history s) as [|i h IH]; [destruct H|].
  cbn [flat_map List.app map] in *.
  destruct H as [<-|[<-|H]].
  - right. apply in_or_app. right. now left.
  - left. apply in_or_app. right. now left.
  - destruct (IH H) as [H'|H'].
    + left. apply in_app_or in H' as [H'|H'];
        apply in_or_app; [now left | right; now right].
    + right. apply in_app_or in H' as [H'|H'];
        apply in_or_app; [now left | right; now right].
Qed.

(** C5, as stated, fails: after one successful generation the state holds
    a generated image and an original image, both [data:] URLs; neither is
    a [blob:] object URL. *)
Lemma held_images_are_not_object_urls :
  generatedImage (app likedWorld) = Some "data:image/png;base64,QUJD"
  /\ originalImage (app likedWorld) = Some "data:image/png;base64,iVBORw0KGgo="
  /\ heldImages (app likedWorld)
     = [ "data:image/png;base64,iVBORw0KGgo="; "data:image/png;base64,QUJD";
         "data:image/png;base64,iVBORw0KGgo="; "data:image/png;base64,QUJD" ]
  /\ forallb (fun u => negb (isObjectURL u)) (heldImages (app likedWorld)) = true.
Proof. repeat split; vm_compute; reflexivity. Qed.

(** C5, amended. The code creates no object URL.  Along every run, every
    image the state holds (the current image, the generated image, the
    images of the history entries) is either a generated image, which the
    code built as [data:image/png;base64,<payload>] from a non-empty
    payload of a response and which therefore is no [blob:] URL, or a
    string that the file reader delivered to [handleFile]. *)
Theorem held_images_are_data_urls (evs : list Event) (t0 : Z) (u : string) :
  In u (heldImages (app (run evs (initialWorld t0)))) ->
  (isGenerated u /\ isObjectURL u = false) \/ In u (delivered evs).
Proof.
  intros Hu.
  assert (H0 : imagesFrom [] (initialWorld t0)).
  { split; [|split].
    - intros x [].
    - intros x [].
    - intros op fl []. }
  apply (imagesFrom_run evs) in H0. cbn [List.app] in H0.
  destruct H0 as (Hg & Ho & _).
  apply heldImages_split in Hu as [Hu|Hu].
  - left. split; [apply Hg, Hu | apply generated_is_not_object_url, Hg, Hu].
  - right. apply Ho, Hu.
Qed.

Lemma held_images_are_data_urls_witness :
  (isGenerated "data:image/png;base64,QUJD"
   /\ isObjectURL "data:image/png;base64,QUJD" = false)
  \/ In "data:image/png;base64,QUJD"
       (delivered
          [ Mounted (Some true); Upload pngFile; TypePrompt "a beach at dusk";
            Start Background; Tick 1500;
            Settle 0 (Api.Returns (imageResponse "QUJD")) "10:00:01"; Like ]).
Proof.
  apply (held_images_are_data_urls _ 1700000000000%Z).
  vm_compute. right. left. reflexivity.
Defined.

(* ================================================================= *)
(** * Further properties of the components *)

(** ** The compare slider *)

Lemma updatePosition_in_range (r : CompareSlider.Rect) (clientX : Q)
    (t : CompareSlider.State) :
  (0 < CompareSlider.width r)%Q ->
  CompareSlider.inPercentRange
    (CompareSlider.position (CompareSlider.updatePosition (Some r) clientX t)).
Proof.
  intros Hw. unfold CompareSlider.updatePosition. cbn [CompareSlider.position].
  destruct (Qeq_bool (CompareSlider.width r) 0) eqn:Hz.
  - apply Qeq_bool_iff in Hz. rewrite Hz in Hw. now apply Qlt_irrefl in Hw.
  - set (x := Qmax 0 (Qmin (clientX - CompareSlider.left r) (CompareSlider.width r))).
    assert (H0 : (0 <= x)%Q) by apply Q.le_max_l.
    assert (H1 : (x <= CompareSlider.width r)%Q).
    { apply Q.max_lub; [apply Qlt_le_weak, Hw | apply Q.le_min_r]. }
    assert (Ha : (0 <= x / CompareSlider.width r)%Q).
    { apply Qle_shift_div_l; [exact Hw | lra]. }
    assert (Hb : (x / CompareSlider.width r <= 1)%Q).
    { apply Qle_shift_div_r; [exact Hw | lra]. }
    split; lra.
Qed.

Lemma slider_step_in_range (ev : CompareSlider.Event) (t : CompareSlider.State) :
  CompareSlider.laidOut ev ->
  CompareSlider.inPercentRange (CompareSlider.position t) ->
  CompareSlider.inPercentRange (CompareSlider.position (CompareSlider.step ev t)).
Proof.
  intros Hl Ht.
  destruct ev as [[r|] x|[r|] x| | |[r|] x]; cbn [CompareSlider.step];
    unfold CompareSlider.handleMouseDown, CompareSlider.handleMouseMove,
      CompareSlider.handleMouseUp, CompareSlider.handleTouchMove;
    try exact Ht.
  - apply updatePosition_in_range, Hl.
  - destruct (CompareSlider.isDragging t); [apply updatePosition_in_range, Hl | exact Ht].
  - destruct (CompareSlider.isDragging t); exact Ht.
  - apply updatePosition_in_range, Hl.
Qed.

(** X1. Whatever the pointer does, the divider of the compare slider stays
    between 0 and 100 percent, provided the container has a positive
    width whenever an event measures it. *)
Theorem slider_position_is_a_percentage (evs : list CompareSlider.Event) :
  Forall CompareSlider.laidOut evs ->
  CompareSlider.inPercentRange
    (CompareSlider.position (CompareSlider.run evs CompareSlider.initial)).
Proof.
  intros H.
  assert (H0 : CompareSlider.inPercentRange
                 (CompareSlider.position CompareSlider.initial)).
  { cbn. split; lra. }
  revert H0. generalize CompareSlider.initial.
  induction H as [|ev evs Hev _ IH]; intros t Ht; [exact Ht|].
  cbn [CompareSlider.run fold_left]. apply IH, slider_step_in_range; assumption.
Qed.

Lemma slider_position_is_a_percentage_witness :
  CompareSlider.inPercentRange
    (CompareSlider.position
       (CompareSlider.run
          [ CompareSlider.MouseDown (Some (CompareSlider.mkRect 100 800)) 2500;
            CompareSlider.MouseMove (Some (CompareSlider.mkRect 100 800)) (-40);
            CompareSlider.MouseUp ]
          CompareSlider.initial)).
Proof.
  apply slider_position_is_a_percentage.
  repeat constructor.
Defined.

Lemma slider_moves_ignored (moves : list (option CompareSlider.Rect * Q))
    (t : CompareSlider.State) :
  CompareSlider.isDragging t = false ->
  CompareSlider.run (map (fun m => CompareSlider.MouseMove (fst m) (snd m)) moves) t = t.
Proof.
  intros Ht. induction moves as [|m moves IH]; [reflexivity|].
  cbn [map CompareSlider.run fold_left CompareSlider.step].
  unfold CompareSlider.handleMouseMove. rewrite Ht. exact IH.
Qed.

(** Once the button is released (or the pointer has left the
    slider), mouse moves no longer move the divider, however many
    follow. *)
Lemma slider_released_ignores_moves (moves : list (option CompareSlider.Rect * Q))
    (t : CompareSlider.State) :
  CompareSlider.run
    (CompareSlider.MouseUp
       :: map (fun m => CompareSlider.MouseMove (fst m) (snd m)) moves) t
  = CompareSlider.handleMouseUp t
  /\ CompareSlider.position
       (CompareSlider.run
          (CompareSlider.MouseLeave
             :: map (fun m => CompareSlider.MouseMove (fst m) (snd m)) moves) t)
     = CompareSlider.position t.
Proof.
  split.
  - cbn [CompareSlider.run fold_left CompareSlider.step].
    now apply slider_moves_ignored.
  - cbn [CompareSlider.run fold_left CompareSlider.step].
    change (fold_left (fun t' ev => CompareSlider.step ev t')
              (map (fun m => CompareSlider.MouseMove (fst m) (snd m)) moves)
              (CompareSlider.handleMouseUp t))
      with (CompareSlider.run
              (map (fun m => CompareSlider.MouseMove (fst m) (snd m)) moves)
              (CompareSlider.handleMouseUp t)).
    now rewrite slider_moves_ignored.
Qed.

Example slider_edges :
  CompareSlider.position
    (CompareSlider.handleTouchMove (Some (CompareSlider.mkRect 100 800)) 100
       CompareSlider.initial) = CompareSlider.Finite (0 / 800 * 100)
  /\ CompareSlider.position
       (CompareSlider.handleTouchMove (Some (CompareSlider.mkRect 100 0)) 300
          CompareSlider.initial) = CompareSlider.NaN.
Proof. split; reflexivity. Qed.

(** ** The brush editor's undo history *)

Section BrushFacts.

Context {Bitmap : Type}.
Variable cleared : Bitmap.

Lemma sliceLast_length {A : Type} (n : nat) (a : list A) :
  (List.length (BrushEditor.sliceLast n a) <= n)%nat.
Proof. unfold BrushEditor.sliceLast. rewrite length_skipn. lia. Qed.


Lemma sliceLast_snoc {A : Type} (n : nat) (a : list A) (x : A) :
  BrushEditor.sliceLast n (BrushEditor.sliceLast (S n) a) ++ [x]
  = BrushEditor.sliceLast (S n) (a ++ [x]).
Proof.
  unfold BrushEditor.sliceLast.
  rewrite length_skipn, length_app. cbn [List.length].
  rewrite skipn_skipn, skipn_app.
  replace (List.length a + 1 - S n - List.length a)%nat with 0%nat by lia.
  cbn [skipn]. f_equal. f_equal. lia.
Qed.

Lemma pushSnapshot_length (b : Bitmap) (h : list Bitmap) :
  (List.length (BrushEditor.pushSnapshot Bitmap b h) <= 5)%nat.
Proof.
  unfold BrushEditor.pushSnapshot. rewrite length_app. cbn [List.length].
  pose proof (sliceLast_length 4 h). lia.
Qed.

Lemma removelast_length {A : Type} (l : list A) :
  (List.length (removelast l) <= List.length l)%nat.
Proof.
  induction l as [|a l IH]; [cbn; lia|].
  destruct l; cbn in *; lia.
Qed.

Lemma brush_step_history_bound (ev : BrushEditor.Event Bitmap)
    (t : BrushEditor.State Bitmap) :
  (List.length (BrushEditor.canvasHistory Bitmap t) <= 5)%nat ->
  (List.length (BrushEditor.canvasHistory Bitmap (BrushEditor.step Bitmap cleared ev t))
   <= 5)%nat.
Proof.
  intros H. destruct ev; cbn [BrushEditor.step].
  - unfold BrushEditor.startDrawing.
    destruct (BrushEditor.canvas Bitmap t); cbn [BrushEditor.canvasHistory];
      [apply pushSnapshot_length | exact H].
  - unfold BrushEditor.draw.
    destruct (negb (BrushEditor.isDrawing Bitmap t)); [exact H|].
    destruct (BrushEditor.canvas Bitmap t); exact H.
  - exact H.
  - unfold BrushEditor.clearCanvas.
    destruct (BrushEditor.canvas Bitmap t); cbn [BrushEditor.canvasHistory];
      [apply pushSnapshot_length | exact H].
  - unfold BrushEditor.handleUndo.
    destruct (BrushEditor.canvasHistory Bitmap t) as [|h0 hs] eqn:Hh; [now rewrite Hh|].
    destruct (BrushEditor.canvas Bitmap t); [|now rewrite Hh].
    cbn [BrushEditor.canvasHistory].
    pose proof (removelast_length (h0 :: hs)). lia.
  - exact H.
  - exact H.
Qed.

(** X2. The undo history of the brush editor never holds more than five
    snapshots, whatever is drawn, cleared or undone. *)
Theorem brush_history_at_most_five (evs : list (BrushEditor.Event Bitmap))
    (c : option Bitmap) :
  (List.length
     (BrushEditor.canvasHistory Bitmap
        (BrushEditor.run Bitmap cleared evs (BrushEditor.initial Bitmap c))) <= 5)%nat.
Proof.
  assert (H0 : (List.length
                  (BrushEditor.canvasHistory Bitmap (BrushEditor.initial Bitmap c))
                <= 5)%nat) by (cbn; lia).
  revert H0. generalize (BrushEditor.initial Bitmap c).
  induction evs as [|ev evs IH]; intros t Ht; [exact Ht|].
  cbn [BrushEditor.run fold_left]. apply IH, brush_step_history_bound, Ht.
Qed.

(** X3. The history keeps the most recent snapshots: pushing a series of
    snapshots onto an empty history leaves the last five of them, oldest
    first. *)
Theorem brush_history_keeps_latest_five (snapshots : list Bitmap) :
  fold_left (fun h b => BrushEditor.pushSnapshot Bitmap b h) snapshots []
  = BrushEditor.sliceLast 5 snapshots.
Proof.
  assert (G : forall done rest : list Bitmap,
             fold_left (fun h b => BrushEditor.pushSnapshot Bitmap b h) rest
               (BrushEditor.sliceLast 5 done)
             = BrushEditor.sliceLast 5 (done ++ rest)).
  { intros done rest. revert done.
    induction rest as [|b rest IH]; intros done.
    - now rewrite app_nil_r.
    - cbn [fold_left]. unfold BrushEditor.pushSnapshot at 2.
      rewrite sliceLast_snoc, IH, <- List.app_assoc. reflexivity. }
  exact (G [] snapshots).
Qed.




End BrushFacts.


Example brush_six_strokes_five_undos :
  let stroke := fun (w : Z) (_ : bool) (b : nat) => S b in
  let six := BrushEditor.run nat 0%nat
               (List.concat (repeat (BrushEditor.strokeEvents nat [stroke]) 6))
               (BrushEditor.initial nat (Some 0%nat)) in
  BrushEditor.canvas nat six = Some 6%nat
  /\ BrushEditor.canvasHistory nat six = [1; 2; 3; 4; 5]%nat
  /\ BrushEditor.canvas nat
       (BrushEditor.run nat 0%nat (repeat (BrushEditor.Undo nat) 6) six) = Some 1%nat.
Proof. repeat split. Qed.

(** ** The node-graph canvas *)

Lemma updatedNodes_keeps (i : string)
    (newData : AdvancedCanvas.NodeData -> AdvancedCanvas.NodeData)
    (ns : list AdvancedCanvas.Node) :
  map AdvancedCanvas.id (AdvancedCanvas.updatedNodes i newData ns)
  = map AdvancedCanvas.id ns
  /\ map AdvancedCanvas.type (AdvancedCanvas.updatedNodes i newData ns)
     = map AdvancedCanvas.type ns
  /\ map AdvancedCanvas.parentId (AdvancedCanvas.updatedNodes i newData ns)
     = map AdvancedCanvas.parentId ns
  /\ map AdvancedCanvas.x (AdvancedCanvas.updatedNodes i newData ns)
     = map AdvancedCanvas.x ns
  /\ map AdvancedCanvas.y (AdvancedCanvas.updatedNodes i newData ns)
     = map AdvancedCanvas.y ns.
Proof.
  unfold AdvancedCanvas.updatedNodes. rewrite !map_map.
  repeat split; apply map_ext; intros n;
    destruct (String.eqb (AdvancedCanvas.id n) i); reflexivity.
Qed.

Lemma movedNodes_keeps (dragged : AdvancedCanvas.Node) (e : AdvancedCanvas.MouseEvent)
    (sc : Q) (ns : list AdvancedCanvas.Node) :
  map AdvancedCanvas.id (AdvancedCanvas.movedNodes dragged e sc ns)
  = map AdvancedCanvas.id ns
  /\ map AdvancedCanvas.type (AdvancedCanvas.movedNodes dragged e sc ns)
     = map AdvancedCanvas.type ns
  /\ map AdvancedCanvas.parentId (AdvancedCanvas.movedNodes dragged e sc ns)
     = map AdvancedCanvas.parentId ns
  /\ map AdvancedCanvas.data (AdvancedCanvas.movedNodes dragged e sc ns)
     = map AdvancedCanvas.data ns.
Proof.
  unfold AdvancedCanvas.movedNodes. rewrite !map_map.
  repeat split; apply map_ext; intros n;
    destruct (String.eqb (AdvancedCanvas.id n) (AdvancedCanvas.id dragged));
    reflexivity.
Qed.

(** X5. Editing a node's data, dragging a node and moving the mouse never
    add, remove, reorder or re-parent nodes: the ids, types and parent
    links of the node list stay as they are; a data edit leaves every
    position, a drag leaves every node's data. *)
Theorem canvas_edits_keep_the_graph (i : string)
    (newData : AdvancedCanvas.NodeData -> AdvancedCanvas.NodeData)
    (e : AdvancedCanvas.MouseEvent) (t : AdvancedCanvas.State) :
  let shape := fun ns => (map AdvancedCanvas.id ns, map AdvancedCanvas.type ns,
                          map AdvancedCanvas.parentId ns) in
  let places := fun ns => (map AdvancedCanvas.x ns, map AdvancedCanvas.y ns) in
  shape (AdvancedCanvas.nodes (AdvancedCanvas.updateNodeData i newData t))
  = shape (AdvancedCanvas.nodes t)
  /\ places (AdvancedCanvas.nodes (AdvancedCanvas.updateNodeData i newData t))
     = places (AdvancedCanvas.nodes t)
  /\ shape (AdvancedCanvas.nodes (AdvancedCanvas.handleMouseMove e t))
     = shape (AdvancedCanvas.nodes t)
  /\ map AdvancedCanvas.data (AdvancedCanvas.nodes (AdvancedCanvas.handleMouseMove e t))
     = map AdvancedCanvas.data (AdvancedCanvas.nodes t).
Proof.
  cbv zeta.
  destruct (updatedNodes_keeps i newData (AdvancedCanvas.nodes t))
    as (U1 & U2 & U3 & U4 & U5).
  unfold AdvancedCanvas.updateNodeData. cbn [AdvancedCanvas.setNodes AdvancedCanvas.nodes].
  rewrite U1, U2, U3, U4, U5.
  split; [reflexivity|]. split; [reflexivity|].
  unfold AdvancedCanvas.handleMouseMove.
  destruct (AdvancedCanvas.draggingNode t) as [dragged|];
    destruct (AdvancedCanvas.isDragging t);
    cbn [AdvancedCanvas.setNodes AdvancedCanvas.setOffset AdvancedCanvas.nodes];
    try (split; reflexivity);
    destruct (movedNodes_keeps dragged e (AdvancedCanvas.scale t) (AdvancedCanvas.nodes t))
      as (M1 & M2 & M3 & M4);
    rewrite M1, M2, M3, M4; split; reflexivity.
Qed.

Lemma canvas_mouse_up_ends_drags (e : AdvancedCanvas.MouseEvent)
    (t : AdvancedCanvas.State) :
  AdvancedCanvas.handleMouseMove e (AdvancedCanvas.handleMouseUp t)
  = AdvancedCanvas.handleMouseUp t.
Proof. reflexivity. Qed.

(** X6. Dragging a node by its title bar moves the nodes that carry its
    id, by the pointer movement divided by the zoom scale, and leaves every
    other node where it is in the list and on the canvas; once the button
    is released, further moves change nothing. *)
Theorem canvas_drag_moves_one_node (node : AdvancedCanvas.Node)
    (e e' : AdvancedCanvas.MouseEvent) (t : AdvancedCanvas.State)
    (k : nat) (n : AdvancedCanvas.Node) :
  nth_error (AdvancedCanvas.nodes t) k = Some n ->
  nth_error
    (AdvancedCanvas.nodes
       (AdvancedCanvas.handleMouseMove e (AdvancedCanvas.nodeMouseDown node t))) k
  = Some (if String.eqb (AdvancedCanvas.id n) (AdvancedCanvas.id node)
          then AdvancedCanvas.mkNode (AdvancedCanvas.id n) (AdvancedCanvas.type n)
                 (AdvancedCanvas.x n
                  + AdvancedCanvas.movementX e / AdvancedCanvas.scale t)
                 (AdvancedCanvas.y n
                  + AdvancedCanvas.movementY e / AdvancedCanvas.scale t)
                 (AdvancedCanvas.parentId n) (AdvancedCanvas.data n)
          else n)
  /\ AdvancedCanvas.handleMouseMove e'
       (AdvancedCanvas.handleMouseUp
          (AdvancedCanvas.handleMouseMove e (AdvancedCanvas.nodeMouseDown node t)))
     = AdvancedCanvas.handleMouseUp
         (AdvancedCanvas.handleMouseMove e (AdvancedCanvas.nodeMouseDown node t)).
Proof.
  intros Hk. split; [|apply canvas_mouse_up_ends_drags].
  destruct t as [ns sc off dr ds dn]. cbn in Hk.
  unfold AdvancedCanvas.handleMouseMove, AdvancedCanvas.nodeMouseDown.
  cbn. destruct dr; cbn; unfold AdvancedCanvas.movedNodes;
    rewrite (map_nth_error _ _ _ Hk); reflexivity.
Qed.

Lemma canvas_drag_moves_one_node_witness :
  nth_error
    (AdvancedCanvas.nodes
       (AdvancedCanvas.handleMouseMove
          (AdvancedCanvas.mkMouseEvent false 340 260 30 15)
          (AdvancedCanvas.nodeMouseDown
             (AdvancedCanvas.mkNode "root" AdvancedCanvas.source 100 200 None
                (AdvancedCanvas.mkNodeData None EmptyString AdvancedCanvas.idle None
                   "nano-banana-1"))
             (AdvancedCanvas.addNode 1700000000000 "root"
                (AdvancedCanvas.mount None AdvancedCanvas.initial))))) 1
  = Some (AdvancedCanvas.mkNode "node-1700000000000" AdvancedCanvas.generator
            (100 + 450) 200 (Some "root")
            (AdvancedCanvas.mkNodeData None EmptyString AdvancedCanvas.idle None
               "nano-banana-1")).
Proof.
  refine (proj1 (canvas_drag_moves_one_node _
                   (AdvancedCanvas.mkMouseEvent false 340 260 30 15)
                   (AdvancedCanvas.mkMouseEvent false 0 0 0 0) _ 1
                   (AdvancedCanvas.mkNode "node-1700000000000" AdvancedCanvas.generator
                      (100 + 450) 200 (Some "root")
                      (AdvancedCanvas.mkNodeData None EmptyString AdvancedCanvas.idle
                         None "nano-banana-1")) _)).
  reflexivity.
Defined.

(** X7. Panning follows the pointer: after the button goes down on the
    canvas background (no node being dragged), a move shifts the offset by
    exactly the distance the pointer has travelled since, in exact
    arithmetic, and leaves nodes and zoom alone.  A button press that is
    not on the background starts no pan. *)
Theorem canvas_pan_follows_pointer (e1 e2 : AdvancedCanvas.MouseEvent)
    (t : AdvancedCanvas.State) :
  AdvancedCanvas.draggingNode t = None ->
  (AdvancedCanvas.onContainer e1 = true ->
   let t2 := AdvancedCanvas.handleMouseMove e2 (AdvancedCanvas.handleMouseDown e1 t) in
   (AdvancedCanvas.px (AdvancedCanvas.offset t2)
    == AdvancedCanvas.px (AdvancedCanvas.offset t)
       + (AdvancedCanvas.clientX e2 - AdvancedCanvas.clientX e1))%Q
   /\ (AdvancedCanvas.py (AdvancedCanvas.offset t2)
       == AdvancedCanvas.py (AdvancedCanvas.offset t)
          + (AdvancedCanvas.clientY e2 - AdvancedCanvas.clientY e1))%Q
   /\ AdvancedCanvas.nodes t2 = AdvancedCanvas.nodes t
   /\ AdvancedCanvas.scale t2 = AdvancedCanvas.scale t)
  /\ (AdvancedCanvas.onContainer e1 = false ->
      AdvancedCanvas.isDragging t = false ->
      AdvancedCanvas.handleMouseMove e2 (AdvancedCanvas.handleMouseDown e1 t) = t).
Proof.
  intros Hn. destruct t as [ns sc off dr ds dn]. cbn in Hn. subst dn. split.
  - intros Hc. unfold AdvancedCanvas.handleMouseDown. rewrite Hc.
    cbn. split; [ring|]. split; [ring|]. split; reflexivity.
  - intros Hc Hd. cbn in Hd. subst dr.
    unfold AdvancedCanvas.handleMouseDown. rewrite Hc. reflexivity.
Qed.

Lemma canvas_pan_follows_pointer_witness :
  AdvancedCanvas.nodes
    (AdvancedCanvas.handleMouseMove
       (AdvancedCanvas.mkMouseEvent true 340 260 40 10)
       (AdvancedCanvas.handleMouseDown
          (AdvancedCanvas.mkMouseEvent true 300 250 0 0)
          (AdvancedCanvas.mount (Some "data:image/png;base64,QUJD")
             AdvancedCanvas.initial)))
  = AdvancedCanvas.nodes
      (AdvancedCanvas.mount (Some "data:image/png;base64,QUJD") AdvancedCanvas.initial).
Proof.
  exact (proj1 (proj2 (proj2
           (proj1 (canvas_pan_follows_pointer
                     (AdvancedCanvas.mkMouseEvent true 300 250 0 0)
                     (AdvancedCanvas.mkMouseEvent true 340 260 40 10)
                     (AdvancedCanvas.mount (Some "data:image/png;base64,QUJD")
                        AdvancedCanvas.initial) eq_refl) eq_refl)))).
Defined.

Lemma mimeOf_png (b : string) : mimeOf (pngDataURL b) = Some "image/png".
Proof. exact (mimeOf_dataURL "image/png" b eq_refl eq_refl). Qed.

Lemma base64Of_png (b : string) :
  Js.occurs "," b = false -> base64Of (pngDataURL b) = Some b.
Proof. exact (base64Of_dataURL "image/png" b eq_refl). Qed.

Lemma findNode_here (i : string) (n : AdvancedCanvas.Node)
    (ns : list AdvancedCanvas.Node) :
  AdvancedCanvas.id n = i -> AdvancedCanvas.findNode i (n :: ns) = Some n.
Proof.
  intros <-. unfold AdvancedCanvas.findNode. cbn [find].
  now rewrite String.eqb_refl.
Qed.

(** X8. A generator node added under the root and given a prompt sends,
    when run, the image the canvas was opened with (its payload and MIME
    type) together with that prompt to the default image model; running the
    root itself, which has no parent, sends nothing. *)
Theorem generator_under_root_sends_source (mime payload p : string) (now : Z)
    (s : AppState) :
  Js.occurs "," mime = false -> Js.occurs ";" mime = false ->
  Js.occurs ":" mime = false -> Js.occurs "," payload = false ->
  let newId := ("node-" ++ Js.numberToString now)%string in
  let t := AdvancedCanvas.updateNodeData newId (AdvancedCanvas.withPrompt p)
             (AdvancedCanvas.addNode now "root"
                (AdvancedCanvas.mount (Some (dataURL mime payload))
                   AdvancedCanvas.initial)) in
  (exists w',
      AdvancedCanvas.runGenerator_begin newId (s, t)
      = Some (w',
              (AdvancedCanvas.nodes t,
               Api.mkRequest "gemini-2.5-flash-image"
                 (Api.ContentsParts
                    [ Api.textPart (AdvancedCanvas.generatorPrompt p);
                      Api.inlinePart (Some mime) (Some payload) ])
                 None)))
  /\ AdvancedCanvas.runGenerator_begin "root" (s, t) = None.
Proof.
  intros H1 H2 H3 H4 newId t.
  set (root := AdvancedCanvas.mkNode "root" AdvancedCanvas.source 100 200 None
                 (AdvancedCanvas.mkNodeData (Some (dataURL mime payload)) EmptyString
                    AdvancedCanvas.idle None "nano-banana-1")).
  set (child := AdvancedCanvas.mkNode newId AdvancedCanvas.generator (100 + 450) 200
                  (Some "root")
                  (AdvancedCanvas.mkNodeData None p AdvancedCanvas.idle None
                     "nano-banana-1")).
  assert (Ht : AdvancedCanvas.nodes t = [root; child]).
  { subst t. unfold AdvancedCanvas.updateNodeData, AdvancedCanvas.addNode,
      AdvancedCanvas.mount. cbn [AdvancedCanvas.initial AdvancedCanvas.nodes
      AdvancedCanvas.setNodes]. fold root.
    rewrite (findNode_here "root" root [] eq_refl).
    cbn [AdvancedCanvas.setNodes AdvancedCanvas.nodes List.app
         AdvancedCanvas.updatedNodes map AdvancedCanvas.id root].
    fold newId. rewrite String.eqb_refl.
    change (String.eqb "root" newId) with false. cbv iota. reflexivity. }
  assert (Hroot : AdvancedCanvas.findNode "root" [root; child] = Some root)
    by (apply findNode_here; reflexivity).
  assert (Hchild : AdvancedCanvas.findNode newId [root; child] = Some child).
  { unfold AdvancedCanvas.findNode. cbn [find AdvancedCanvas.id root child].
    change (String.eqb "root" newId) with false. cbv iota.
    now rewrite String.eqb_refl. }
  split.
  - eexists. unfold AdvancedCanvas.runGenerator_begin. rewrite Ht, Hchild.
    cbn [AdvancedCanvas.parentId child Js.truthy negb]. rewrite Hroot.
    cbn [AdvancedCanvas.data AdvancedCanvas.result AdvancedCanvas.image root
         Js.truthy_opt].
    change (Js.truthy (dataURL mime payload)) with true. cbn [negb].
    rewrite (mimeOf_dataURL _ _ H2 H3), (base64Of_dataURL _ _ H1 H4).
    reflexivity.
  - unfold AdvancedCanvas.runGenerator_begin. rewrite Ht, Hroot. reflexivity.
Qed.

Lemma generator_under_root_sends_source_witness :
  AdvancedCanvas.runGenerator_begin "root"
    (initialState,
     AdvancedCanvas.updateNodeData "node-1700000000000"
       (AdvancedCanvas.withPrompt "make it snow")
       (AdvancedCanvas.addNode 1700000000000 "root"
          (AdvancedCanvas.mount (Some (dataURL "image/png" "iVBORw0KGgo="))
             AdvancedCanvas.initial)))
  = None.
Proof.
  exact (proj2 (generator_under_root_sends_source "image/png" "iVBORw0KGgo="
                  "make it snow" 1700000000000 initialState
                  eq_refl eq_refl eq_refl eq_refl)).
Defined.

(** X9. What a generator call writes when it settles is computed from the
    node list of the render in which it was started: the nodes afterwards
    are those nodes with the run node's data updated, whatever the list had
    become in the meantime, so nodes added and edits made while the call
    was in flight are gone. *)
Theorem generator_settles_on_stale_nodes (nodeId : string) (s s1 : AppState)
    (t t1 : AdvancedCanvas.State) (closureNodes : list AdvancedCanvas.Node)
    (req : Api.Request) :
  AdvancedCanvas.runGenerator_begin nodeId (s, t)
  = Some ((s1, t1), (closureNodes, req)) ->
  closureNodes = AdvancedCanvas.nodes t
  /\ forall (res : Api.Outcome) (s' : AppState) (t' : AdvancedCanvas.State),
       (exists newData,
           AdvancedCanvas.nodes
             (snd (AdvancedCanvas.runGenerator_settle closureNodes nodeId res (s', t')))
           = AdvancedCanvas.updatedNodes nodeId newData (AdvancedCanvas.nodes t))
       /\ map AdvancedCanvas.id
            (AdvancedCanvas.nodes
               (snd (AdvancedCanvas.runGenerator_settle closureNodes nodeId res
                       (s', t'))))
          = map AdvancedCanvas.id (AdvancedCanvas.nodes t).
Proof.
  intros Hb.
  assert (Hc : closureNodes = AdvancedCanvas.nodes t).
  { revert Hb. unfold AdvancedCanvas.runGenerator_begin.
    repeat match goal with
           | |- context [match ?x with _ => _ end] => destruct x; try discriminate
           end.
    intros H. now injection H. }
  split; [exact Hc|]. subst closureNodes.
  intros res s' t'.
  assert (He : exists newData,
             AdvancedCanvas.nodes
               (snd (AdvancedCanvas.runGenerator_settle (AdvancedCanvas.nodes t)
                       nodeId res (s', t')))
             = AdvancedCanvas.updatedNodes nodeId newData (AdvancedCanvas.nodes t)).
  { unfold AdvancedCanvas.runGenerator_settle.
    destruct res as [r|e]; [destruct (Api.generatedBase64 r) as [b|];
                            [destruct (Js.truthy b)|]|];
      eexists; reflexivity. }
  split; [exact He|].
  destruct He as [newData ->]. apply updatedNodes_keeps.
Qed.

Lemma generator_settles_on_stale_nodes_witness :
  map AdvancedCanvas.id
    (AdvancedCanvas.nodes
       (snd (AdvancedCanvas.runGenerator_settle
               (AdvancedCanvas.nodes
                  (AdvancedCanvas.updateNodeData "node-1700000000000"
                     (AdvancedCanvas.withPrompt "make it snow")
                     (AdvancedCanvas.addNode 1700000000000 "root"
                        (AdvancedCanvas.mount (Some "data:image/png;base64,QUJD")
                           AdvancedCanvas.initial))))
               "node-1700000000000" (Api.Returns (imageResponse "REVG"))
               (initialState,
                AdvancedCanvas.addNode 1700000000500 "root"
                  (AdvancedCanvas.updateNodeData "node-1700000000000"
                     (AdvancedCanvas.withStatus AdvancedCanvas.loading)
                     (AdvancedCanvas.updateNodeData "node-1700000000000"
                        (AdvancedCanvas.withPrompt "make it snow")
                        (AdvancedCanvas.addNode 1700000000000 "root"
                           (AdvancedCanvas.mount (Some "data:image/png;base64,QUJD")
                              AdvancedCanvas.initial))))))))
  = ["root"; "node-1700000000000"].
Proof.
  destruct (AdvancedCanvas.runGenerator_begin "node-1700000000000"
              (initialState,
               AdvancedCanvas.updateNodeData "node-1700000000000"
                 (AdvancedCanvas.withPrompt "make it snow")
                 (AdvancedCanvas.addNode 1700000000000 "root"
                    (AdvancedCanvas.mount (Some "data:image/png;base64,QUJD")
                       AdvancedCanvas.initial))))
    as [[[s1 t1] [cn req]]|] eqn:Hb; [|discriminate Hb].
  destruct (generator_settles_on_stale_nodes _ _ _ _ _ _ _ Hb) as [Hc Hs].
  subst cn. rewrite (proj2 (Hs (Api.Returns (imageResponse "REVG")) initialState _)).
  reflexivity.
Defined.

(** X10. Generators chain: when the parent of a node holds a result, it is
    that result (a PNG data URL built by an earlier run), not the parent's
    own image, whose payload the node sends, as [image/png]. *)
Theorem generator_sends_parent_result (s : AppState) (t : AdvancedCanvas.State)
    (nodeId pid b : string) (node parent : AdvancedCanvas.Node) :
  AdvancedCanvas.findNode nodeId (AdvancedCanvas.nodes t) = Some node ->
  AdvancedCanvas.parentId node = Some pid ->
  Js.truthy pid = true ->
  AdvancedCanvas.findNode pid (AdvancedCanvas.nodes t) = Some parent ->
  AdvancedCanvas.result (AdvancedCanvas.data parent) = Some (pngDataURL b) ->
  Js.occurs "," b = false ->
  exists w' closureNodes,
    AdvancedCanvas.runGenerator_begin nodeId (s, t)
    = Some (w',
            (closureNodes,
             Api.mkRequest (apiModelFor (AdvancedCanvas.model (AdvancedCanvas.data node)))
               (Api.ContentsParts
                  [ Api.textPart
                      (AdvancedCanvas.generatorPrompt
                         (AdvancedCanvas.prompt (AdvancedCanvas.data node)));
                    Api.inlinePart (Some "image/png") (Some b) ])
               None)).
Proof.
  intros Hn Hp Ht Hpar Hres Hb.
  unfold AdvancedCanvas.runGenerator_begin. rewrite Hn, Hp, Ht. cbn [negb].
  rewrite Hpar, Hres. cbn [Js.truthy_opt].
  change (Js.truthy (pngDataURL b)) with true. cbn [negb].
  rewrite mimeOf_png, (base64Of_png b Hb).
  eexists. eexists. reflexivity.
Qed.

Lemma generator_sends_parent_result_witness :
  exists w' closureNodes,
    AdvancedCanvas.runGenerator_begin "node-2" (initialState, chainedCanvas)
    = Some (w',
            (closureNodes,
             Api.mkRequest "gemini-2.5-flash-image"
               (Api.ContentsParts
                  [ Api.textPart (AdvancedCanvas.generatorPrompt "at night");
                    Api.inlinePart (Some "image/png") (Some "REVG") ])
               None)).
Proof.
  exact (generator_sends_parent_result initialState chainedCanvas
           "node-2" "node-1" "REVG"
           (AdvancedCanvas.mkNode "node-2" AdvancedCanvas.generator 1000 200
              (Some "node-1")
              (AdvancedCanvas.mkNodeData None "at night" AdvancedCanvas.idle None
                 "nano-banana-1"))
           (AdvancedCanvas.mkNode "node-1" AdvancedCanvas.generator 550 200 (Some "root")
              (AdvancedCanvas.mkNodeData None "make it snow" AdvancedCanvas.complete
                 (Some (pngDataURL "REVG")) "nano-banana-1"))
           eq_refl eq_refl eq_refl eq_refl eq_refl eq_refl).
Defined.

(* ================================================================= *)
(** *** The node list a generator call leaves *)

(** X11. The node list a settling generator call writes: every node with
    the run node's id is [complete] with a PNG data URL as result when the
    response carried a non-empty inline payload, and [idle] otherwise,
    whether the call returned without an image or threw; the other nodes
    are exactly those of the list the call started from.  So a node that
    was [loading] when another node's run began is [loading] again once
    that run settles, whatever its own call has written in between. *)
Theorem generator_settle_sets_only_its_node (closureNodes : list AdvancedCanvas.Node)
    (nodeId : string) (res : Api.Outcome) (w : AppState * AdvancedCanvas.State) :
  (forall n : AdvancedCanvas.Node,
      In n (AdvancedCanvas.nodes
              (snd (AdvancedCanvas.runGenerator_settle closureNodes nodeId res w))) ->
      AdvancedCanvas.id n = nodeId ->
      match Api.tryGenerate res with
      | inl b =>
          AdvancedCanvas.status (AdvancedCanvas.data n) = AdvancedCanvas.complete
          /\ AdvancedCanvas.result (AdvancedCanvas.data n) = Some (pngDataURL b)
      | inr _ => AdvancedCanvas.status (AdvancedCanvas.data n) = AdvancedCanvas.idle
      end)
  /\ (forall n : AdvancedCanvas.Node,
         AdvancedCanvas.id n <> nodeId ->
         In n (AdvancedCanvas.nodes
                 (snd (AdvancedCanvas.runGenerator_settle closureNodes nodeId res w)))
         <-> In n closureNodes).
Proof.
  destruct w as [s t].
  assert (G : forall newData n,
             In n (AdvancedCanvas.updatedNodes nodeId newData closureNodes) ->
             (AdvancedCanvas.id n = nodeId ->
              exists n0, AdvancedCanvas.data n = newData (AdvancedCanvas.data n0))
             /\ (AdvancedCanvas.id n <> nodeId -> In n closureNodes)).
  { intros newData n H. unfold AdvancedCanvas.updatedNodes in H.
    apply in_map_iff in H as (n0 & Hn & Hin).
    destruct (String.eqb (AdvancedCanvas.id n0) nodeId) eqn:E.
    - subst n. cbn. apply String.eqb_eq in E. split; [|congruence].
      intros _. now exists n0.
    - subst n. apply String.eqb_neq in E. split; [contradiction | now intros _]. }
  assert (K : forall newData n,
             AdvancedCanvas.id n <> nodeId -> In n closureNodes ->
             In n (AdvancedCanvas.updatedNodes nodeId newData closureNodes)).
  { intros newData n Hid Hin. unfold AdvancedCanvas.updatedNodes.
    apply in_map_iff. exists n. split; [|exact Hin].
    apply String.eqb_neq in Hid. now rewrite Hid. }
  assert (E : exists newData,
             AdvancedCanvas.nodes
               (snd (AdvancedCanvas.runGenerator_settle closureNodes nodeId res (s, t)))
             = AdvancedCanvas.updatedNodes nodeId newData closureNodes
             /\ forall d,
                  match Api.tryGenerate res with
                  | inl b =>
                      AdvancedCanvas.status (newData d) = AdvancedCanvas.complete
                      /\ AdvancedCanvas.result (newData d) = Some (pngDataURL b)
                  | inr _ => AdvancedCanvas.status (newData d) = AdvancedCanvas.idle
                  end).
  { unfold AdvancedCanvas.runGenerator_settle, Api.tryGenerate.
    destruct res as [r|e].
    - destruct (Api.generatedBase64 r) as [b|]; [destruct (Js.truthy b)|];
        eexists; (split; [reflexivity|]); intros d; cbn; auto.
    - eexists. split; [reflexivity|]. intros d. reflexivity. }
  destruct E as (newData & -> & Hnew). split.
  - intros n Hin Hid. destruct (proj1 (G _ _ Hin) Hid) as [n0 ->]. apply Hnew.
  - intros n Hid. split.
    + intros Hin. exact (proj2 (G _ _ Hin) Hid).
    + apply K, Hid.
Qed.

Lemma generator_settle_sets_only_its_node_witness :
  In (AdvancedCanvas.mkNode "node-1" AdvancedCanvas.generator 550 200 (Some "root")
        (AdvancedCanvas.mkNodeData None "make it snow" AdvancedCanvas.loading None
           "nano-banana-1"))
     (AdvancedCanvas.nodes
        (snd (AdvancedCanvas.runGenerator_settle
                (AdvancedCanvas.nodes
                   (AdvancedCanvas.updateNodeData "node-1"
                      (AdvancedCanvas.withStatus AdvancedCanvas.loading) twoGenerators))
                "node-2" (Api.Returns (imageResponse "REVG"))
                (initialState, twoGenerators)))).
Proof.
  apply (proj2 (generator_settle_sets_only_its_node _ "node-2" _ _)).
  - cbn. discriminate.
  - vm_compute. right. left. reflexivity.
Defined.

(** Two overlapping runs: the second call started while the first node was
    [loading], and its settling puts that node back to [loading], for
    good, although the first call has completed. *)
Example overlapping_generators_leave_one_loading :
  overlappingGenerators
  = [ ("root", AdvancedCanvas.idle);
      ("node-1", AdvancedCanvas.loading);
      ("node-2", AdvancedCanvas.complete) ].
Proof. vm_compute. reflexivity. Qed.

(** * Further properties of the main component *)

(** ** Recognising auth errors *)

Lemma toLowerCase_append (a b : string) :
  Js.toLowerCase (a ++ b) = (Js.toLowerCase a ++ Js.toLowerCase b)%string.
Proof. induction a as [|c a IH]; cbn; [reflexivity | now rewrite IH]. Qed.

Lemma isAuthError_of_marker (e : Api.JsError) (m : string) :
  In m authMarkers -> Js.includes m (errString e) = true -> isAuthError e = true.
Proof.
  intros Hm Hi. unfold isAuthError.
  destruct Hm as [<-|[<-|[<-|[<-|[]]]]]; rewrite Hi; cbn [orb];
    repeat rewrite orb_true_r; reflexivity.
Qed.

(** X12. [isAuthError] recognises its four markers anywhere and in any
    letter case: in the error's string form, and, for an error that is an
    object, in its JSON form as well. *)
Theorem isAuthError_finds_markers (a m b json : string) (isObject : bool) :
  In (Js.toLowerCase m) authMarkers ->
  isAuthError (Api.mkJsError (a ++ m ++ b) isObject json) = true
  /\ isAuthError (Api.mkJsError a true (b ++ m ++ json)) = true.
Proof.
  intros Hm. split; apply (isAuthError_of_marker _ _ Hm); unfold errString;
    cbn [Api.errToString Api.errIsObject Api.errJson].
  - rewrite !toLowerCase_append, !append_assoc. apply includes_append.
  - rewrite !toLowerCase_append, <- append_assoc.
    apply includes_append.
Qed.

Lemma isAuthError_finds_markers_witness :
  isAuthError
    (Api.mkJsError ("ApiError: " ++ "Permission Denied" ++ " for this project") false
       EmptyString) = true.
Proof.
  exact (proj1 (isAuthError_finds_markers "ApiError: " "Permission Denied"
                  " for this project" EmptyString false
                  (or_intror (or_intror (or_introl eq_refl))))).
Defined.

(** ** Which model is asked, and with what *)

Lemma apiModelFor_cases (i : string) :
  (i = "nano-banana-2" /\ apiModelFor i = "gemini-3-pro-image-preview")
  \/ (i <> "nano-banana-2" /\ apiModelFor i = "gemini-2.5-flash-image").
Proof.
  unfold apiModelFor, MODELS. cbn [find modelId].
  destruct (String.eqb "nano-banana-1" i) eqn:H1.
  - apply String.eqb_eq in H1. subst i. right. split; [discriminate | reflexivity].
  - destruct (String.eqb "nano-banana-2" i) eqn:H2.
    + apply String.eqb_eq in H2. subst i. left. split; reflexivity.
    + apply String.eqb_neq in H2. right. split; [congruence | reflexivity].
Qed.

Lemma gen_begin_model (op : GenOp) (s s1 : AppState) (fl : InFlight) :
  gen_begin op s = Some (s1, fl) ->
  Api.model (request fl) = apiModelFor (selectedModel s).
Proof.
  destruct op; cbn [gen_begin];
    [unfold generateNewBackground_begin
    |unfold applyFilter_begin
    |unfold generateWithMask_begin];
    destruct (originalImage s) as [img|]; try discriminate.
  - destruct (Js.truthy img && Js.truthy (Js.trim (prompt s))); [|discriminate].
    intros H. injection H as _ <-. reflexivity.
  - destruct (Js.truthy img); [|discriminate].
    intros H. injection H as _ <-. reflexivity.
  - destruct (Js.truthy img); [|discriminate].
    intros H. injection H as _ <-. reflexivity.
Qed.

(** X13. Every request of the three generation operations names one of
    the two configured API models: the one of the selected model, and the
    standard model for any selection other than 'nano-banana-2'. *)
Theorem generation_asks_a_configured_model (op : GenOp) (s s1 : AppState)
    (fl : InFlight) :
  gen_begin op s = Some (s1, fl) ->
  In (Api.model (request fl)) (map apiModel MODELS)
  /\ (selectedModel s <> "nano-banana-2" ->
      Api.model (request fl) = "gemini-2.5-flash-image")
  /\ (selectedModel s = "nano-banana-2" ->
      Api.model (request fl) = "gemini-3-pro-image-preview").
Proof.
  intros Hb. rewrite (gen_begin_model _ _ _ _ Hb).
  destruct (apiModelFor_cases (selectedModel s)) as [[Hi ->]|[Hi ->]].
  - split; [right; left; reflexivity|]. split; [congruence | reflexivity].
  - split; [left; reflexivity|]. split; [reflexivity | congruence].
Qed.

Lemma generation_asks_a_configured_model_witness :
  Api.model
    (request
       (mkInFlight "data:image/png;base64,iVBORw0KGgo=" "Filter: Noir" "typo"
          (Api.mkRequest (apiModelFor "typo")
             (Api.ContentsParts
                [ Api.textPart (filterFullPrompt "Noir");
                  Api.inlinePart (Some "image/png") (Some "iVBORw0KGgo=") ])
             None)))
  = "gemini-2.5-flash-image".
Proof.
  refine (proj1 (proj2 (generation_asks_a_configured_model (Filter "Noir")
                          (handleFile pngFile initialState |> setSelectedModel "typo")
                          _ _ _)) _).
  - vm_compute. reflexivity.
  - vm_compute. discriminate.
Defined.

(** X14. [applyFilter] and [generateWithMask] send the original image as
    the payload and MIME type of its data URL, after a text that quotes the
    filter or mask prompt; [generateWithMask] adds the payload of the mask
    as a third part, typed [image/png]. *)
Theorem filter_and_mask_requests (mime payload maskPayload fp mp : string)
    (s : AppState) :
  Js.occurs "," mime = false -> Js.occurs ";" mime = false ->
  Js.occurs ":" mime = false -> Js.occurs "," payload = false ->
  Js.occurs "," maskPayload = false ->
  originalImage s = Some (dataURL mime payload) ->
  (exists s1 fl,
      applyFilter_begin fp s = Some (s1, fl)
      /\ Api.contents (request fl)
         = Api.ContentsParts
             [ Api.textPart (filterFullPrompt fp);
               Api.inlinePart (Some mime) (Some payload) ])
  /\ (exists s1 fl,
         generateWithMask_begin (pngDataURL maskPayload) mp s = Some (s1, fl)
         /\ Api.contents (request fl)
            = Api.ContentsParts
                [ Api.textPart (maskFullPrompt mp);
                  Api.inlinePart (Some mime) (Some payload);
                  Api.inlinePart (Some "image/png") (Some maskPayload) ])
  /\ Js.includes fp (filterFullPrompt fp) = true
  /\ Js.includes mp (maskFullPrompt mp) = true.
Proof.
  intros H1 H2 H3 H4 H5 Himg. split; [|split; [|split]].
  - unfold applyFilter_begin. rewrite Himg.
    change (Js.truthy (dataURL mime payload)) with true. cbv iota.
    rewrite (mimeOf_dataURL _ _ H2 H3), (base64Of_dataURL _ _ H1 H4).
    eexists. eexists. split; reflexivity.
  - unfold generateWithMask_begin. rewrite Himg.
    change (Js.truthy (dataURL mime payload)) with true. cbv iota.
    rewrite (mimeOf_dataURL _ _ H2 H3), (base64Of_dataURL _ _ H1 H4),
      (base64Of_png _ H5).
    eexists. eexists. split; reflexivity.
  - unfold filterFullPrompt, Js.lines. cbn [String.concat].
    do 4 apply includes_append_r. apply includes_append_l.
    do 2 apply includes_append_r. apply includes_here, prefix_append.
  - unfold maskFullPrompt, Js.lines. cbn [String.concat].
    do 4 apply includes_append_r. apply includes_append_l.
    do 2 apply includes_append_r. apply includes_here, prefix_append.
Qed.

Lemma filter_and_mask_requests_witness :
  Js.includes "Noir" (filterFullPrompt "Noir") = true.
Proof.
  exact (proj1 (proj2 (proj2
           (filter_and_mask_requests "image/png" "iVBORw0KGgo=" "TUFTSw==" "Noir"
              "remove the lamp" (handleFile pngFile initialState)
              eq_refl eq_refl eq_refl eq_refl eq_refl eq_refl)))).
Defined.

(** ** What the user's feedback does to the next request *)

Lemma prefix_refl (c : string) : String.prefix c c = true.
Proof.
  induction c as [|k c IH]; [reflexivity|]. cbn.
  destruct (ascii_dec k k) as [_|ne]; [exact IH | now elim ne].
Qed.

Lemma includes_join (c sep : string) (a : list string) :
  In c a -> Js.includes c (Js.join sep a) = true.
Proof.
  unfold Js.join. induction a as [|x a IH]; intros H; [destruct H|].
  destruct a as [|y a].
  - destruct H as [->|[]]. cbn [String.concat]. apply includes_here, prefix_refl.
  - change (String.concat sep (x :: y :: a))
      with (x ++ sep ++ String.concat sep (y :: a))%string.
    destruct H as [->|H].
    + apply includes_append_l, includes_here, prefix_refl.
    + do 2 apply includes_append_r. apply IH, H.
Qed.

Lemma corrections_reach_prompt (s : AppState) (c : string) :
  In c (corrections (learningProfile s)) ->
  Js.includes c (backgroundFullPrompt s) = true.
Proof.
  intros Hc. unfold backgroundFullPrompt, Js.lines. cbn [String.concat].
  do 12 apply includes_append_r. apply includes_append_l, includes_append_r.
  unfold adaptiveInstructions.
  destruct (corrections (learningProfile s)) as [|x l] eqn:E; [destruct Hc|].
  cbn [List.length Nat.ltb Nat.leb]. apply includes_append_r, includes_join, Hc.
Qed.

(** X15. What the user disliked is told to the model next time: every
    correction in the learning profile is part of the text of the next
    background request, and a dislike for 'lighting', 'cutout' or 'fake'
    puts its correction there. *)
Theorem dislike_reaches_next_prompt :
  (forall (s : AppState) (c : string),
      In c (corrections (learningProfile s)) ->
      Js.includes c (backgroundFullPrompt s) = true)
  /\ (forall (reason : string) (s : AppState),
         In reason ["lighting"; "cutout"; "fake"] ->
         Js.includes (correctionFor reason)
           (backgroundFullPrompt (handleDislike reason s)) = true).
Proof.
  split; [exact corrections_reach_prompt|].
  intros reason s Hr. apply corrections_reach_prompt.
  rewrite handleDislike_corrections. unfold pushOnce.
  assert (Ht : Js.truthy (correctionFor reason) = true).
  { destruct Hr as [<-|[<-|[<-|[]]]]; reflexivity. }
  rewrite Ht. cbn [andb].
  destruct (arrayIncludes (correctionFor reason) (corrections (learningProfile s)))
    eqn:Hin; cbn [negb].
  - now apply arrayIncludes_In.
  - apply in_or_app. right. now left.
Qed.

Lemma dislike_reaches_next_prompt_witness :
  Js.includes cutoutCorrection
    (backgroundFullPrompt (handleDislike "cutout" (app likedWorld))) = true.
Proof.
  exact (proj2 dislike_reaches_next_prompt "cutout" (app likedWorld)
           (or_intror (or_introl eq_refl))).
Defined.

(** ** The history over a session *)

(** X16. Nothing is ever taken out of the history or changed in it: after
    any further events, resets and new uploads included, the history is
    what it was with newer records in front. *)
Theorem history_is_only_extended (evs : list Event) (w : World) :
  exists newer, history (app (run evs w)) = newer ++ history (app w).
Proof.
  revert w. induction evs as [|ev evs IH]; intros w.
  - exists []. reflexivity.
  - change (run (ev :: evs) w) with (run evs (step ev w)).
    destruct (IH (step ev w)) as [newer Hn]. rewrite Hn.
    destruct (step_history ev w) as [->|[item [-> _]]].
    + exists newer. reflexivity.
    + exists (newer ++ [item]). now rewrite <- List.app_assoc.
Qed.

(** X17. A history entry brings a run back: after a successful generation
    and a reset, loading the newest entry restores the original image and
    the generated image of that run and puts the run's recorded prompt
    into the prompt field, in the editor view. *)
Theorem history_entry_restores_run (op : GenOp) (ai : Api.Request -> Api.Outcome)
    (now : Z) (localeTime : string) (s s1 : AppState) (fl : InFlight) (b : string) :
  gen_begin op s = Some (s1, fl) ->
  Api.tryGenerate (ai (request fl)) = inl b ->
  exists item,
    nth_error (history (handleReset (gen_run op ai now localeTime s))) 0 = Some item
    /\ originalImage (loadFromHistory item (handleReset (gen_run op ai now localeTime s)))
       = originalImage s
    /\ generatedImage (loadFromHistory item (handleReset (gen_run op ai now localeTime s)))
       = Some (pngDataURL b)
    /\ prompt (loadFromHistory item (handleReset (gen_run op ai now localeTime s)))
       = recordPrompt op s
    /\ activeView (loadFromHistory item (handleReset (gen_run op ai now localeTime s)))
       = editor.
Proof.
  intros Hb Hr.
  destruct (gen_run_success op ai now localeTime s s1 fl b Hb Hr)
    as (img & Hi & _ & Hh).
  exists (mkHistoryItem now img (pngDataURL b) (recordPrompt op s) localeTime
            (selectedModel s)).
  change (history (handleReset (gen_run op ai now localeTime s)))
    with (history (gen_run op ai now localeTime s)).
  rewrite Hh, Hi. repeat split.
Qed.

Lemma history_entry_restores_run_witness :
  exists item,
    nth_error
      (history (handleReset
                  (gen_run (Filter "Noir") (fun _ => Api.Returns (imageResponse "QUJD"))
                     1700000000000 "10:00:00" (handleFile pngFile initialState)))) 0
    = Some item
    /\ prompt
         (loadFromHistory item
            (handleReset
               (gen_run (Filter "Noir") (fun _ => Api.Returns (imageResponse "QUJD"))
                  1700000000000 "10:00:00" (handleFile pngFile initialState))))
       = "Filter: Noir".
Proof.
  destruct (history_entry_restores_run (Filter "Noir")
              (fun _ => Api.Returns (imageResponse "QUJD")) 1700000000000 "10:00:00"
              (handleFile pngFile initialState)
              (gen_entry (Filter "Noir") (handleFile pngFile initialState))
              (mkInFlight "data:image/png;base64,iVBORw0KGgo=" "Filter: Noir"
                 "nano-banana-1"
                 (Api.mkRequest "gemini-2.5-flash-image"
                    (Api.ContentsParts
                       [ Api.textPart (filterFullPrompt "Noir");
                         Api.inlinePart (Some "image/png") (Some "iVBORw0KGgo=") ])
                    None))
              "QUJD")
    as (item & H0 & _ & _ & Hp & _).
  - vm_compute. reflexivity.
  - vm_compute. reflexivity.
  - exists item. split; [exact H0 | exact Hp].
Defined.

(** X18. A result that arrives late is recorded with what its call was
    started with: whatever the state has become when the call settles
    (another upload, a reset, another model selected), the new history
    record carries the original image, the prompt and the model of the
    moment the operation began, and the clock reading of the moment it
    settled. *)
Theorem late_result_keeps_its_origin (op : GenOp) (s s1 : AppState) (fl : InFlight)
    (res : Api.Outcome) (b : string) (now : Z) (localeTime : string) (s' : AppState) :
  gen_begin op s = Some (s1, fl) ->
  Api.tryGenerate res = inl b ->
  exists img,
    originalImage s = Some img
    /\ history (gen_settle op fl res now localeTime s')
       = mkHistoryItem now img (pngDataURL b) (recordPrompt op s) localeTime
           (selectedModel s) :: history s'
    /\ generatedImage (gen_settle op fl res now localeTime s') = Some (pngDataURL b)
    /\ originalImage (gen_settle op fl res now localeTime s') = originalImage s'.
Proof.
  intros Hb Hr. rewrite (gen_settle_success _ _ _ _ _ _ _ Hr).
  apply gen_begin_some in Hb as (_ & Himg & _ & Hp & Hm).
  exists (capturedImage fl). split; [exact Himg|].
  unfold historyRecord. rewrite Hp, Hm. repeat split.
Qed.

Lemma late_result_keeps_its_origin_witness :
  map itemOriginal
    (history
       (app (run [ Upload pngFile; TypePrompt "a beach"; Start Background; Reset;
                   Upload (mkFile "image/jpeg" (Some "data:image/jpeg;base64,/9j/4A=="));
                   Tick 2000;
                   Settle 0 (Api.Returns (imageResponse "QUJD")) "10:00:02" ]
              (initialWorld 1700000000000))))
  = ["data:image/png;base64,iVBORw0KGgo="].
Proof.
  destruct (late_result_keeps_its_origin Background
              (handleFile pngFile initialState |> setPrompt "a beach")
              (gen_entry Background (handleFile pngFile initialState |> setPrompt "a beach"))
              (mkInFlight "data:image/png;base64,iVBORw0KGgo=" "a beach" "nano-banana-1"
                 (Api.mkRequest "gemini-2.5-flash-image"
                    (Api.ContentsParts
                       (backgroundParts "data:image/png;base64,iVBORw0KGgo="
                          (handleFile pngFile initialState |> setPrompt "a beach")))
                    None))
              (Api.Returns (imageResponse "QUJD")) "QUJD" 1700000002000 "10:00:02"
              (handleFile (mkFile "image/jpeg" (Some "data:image/jpeg;base64,/9j/4A=="))
                 (handleReset
                    (gen_entry Background
                       (handleFile pngFile initialState |> setPrompt "a beach")))))
    as (img & Hi & Hh & _).
  - vm_compute. reflexivity.
  - vm_compute. reflexivity.
  - vm_compute in Hi. injection Hi as <-.
    apply (f_equal (map itemOriginal)) in Hh. vm_compute in Hh. vm_compute. exact Hh.
Defined.

(** ** The key screen *)

Lemma withoutStudio_step (ev : Event) (w : World) :
  withoutStudio ev -> hasApiKey (app w) = false -> hasApiKey (app (step ev w)) = false.
Proof.
  intros He Hk. destruct ev; cbn [withoutStudio] in He;
    try (destruct aistudio; try contradiction);
    eval_handlers; branch; try exact Hk; reflexivity.
Qed.

(** X19. The key can only be connected through [window.aistudio]: in a
    browser without it, whatever else happens, [hasApiKey] stays false and
    the application stays on the key screen. *)
Theorem no_studio_no_key (evs : list Event) (t0 : Z) :
  Forall withoutStudio evs ->
  hasApiKey (app (run evs (initialWorld t0))) = false.
Proof.
  intros H.
  assert (H0 : hasApiKey (app (initialWorld t0)) = false) by reflexivity.
  revert H0. generalize (initialWorld t0).
  induction H as [|ev evs Hev _ IH]; intros w Hw; [exact Hw|].
  change (run (ev :: evs) w) with (run evs (step ev w)).
  apply IH, withoutStudio_step; assumption.
Qed.

Lemma no_studio_no_key_witness :
  hasApiKey
    (app (run [ Mounted None; Connect false; Upload pngFile; TypePrompt "a beach";
                Start Background;
                Settle 0 (Api.Returns (imageResponse "QUJD")) "10:00:01" ]
           (initialWorld 1700000000000))) = false.
Proof.
  apply no_studio_no_key. repeat constructor.
Defined.

(** ** Busy flags *)

Lemma busyFlagsBacked_step (ev : Event) (w : World) :
  busyFlagsBacked w -> busyFlagsBacked (step ev w).
Proof.
  intros (Hl & He & Hs). destruct w as [s c fs]. cbn [app inflight] in *.
  destruct ev; cbn [step app clock inflight];
    try (split; [|split]; cbn [app inflight]; assumption).
  - (* Mounted *)
    unfold check. destruct aistudio; split; [|split| |split]; assumption.
  - (* Connect *)
    unfold handleConnect. destruct aistudio; split; [|split| |split]; assumption.
  - (* Upload *)
    unfold handleFile, handleFile_onload.
    destruct (negb (Js.startsWith "image/" (fileType file)));
      [split; [|split]; assumption|].
    destruct (fileResult file) as [r|]; [|split; [|split]; assumption].
    cbn [Js.truthy_opt]. destruct (Js.truthy r); split; [|split| |split]; assumption.
  - (* SceneRefUpload *)
    destruct (handleSceneRefUpload_begin file s) as [[s1 req]|] eqn:Hb;
      [|split; [|split]; assumption].
    revert Hb. unfold handleSceneRefUpload_begin, analyzeSceneRef_begin.
    destruct (negb (Js.startsWith "image/" (fileType file))); [discriminate|].
    destruct (fileResult file) as [r|]; [|discriminate].
    destruct (Js.truthy r); [|discriminate].
    intros H. injection H as <- _.
    split; [|split]; cbn [app inflight]; rewrite existsb_snoc; intros H.
    + now rewrite (Hl H).
    + now rewrite (He H).
    + apply orb_true_r.
  - (* Dislike *)
    split; [|split]; cbn [app inflight];
      unfold handleDislike;
      destruct (String.eqb reason "lighting"); [| destruct (String.eqb reason "cutout");
        [| destruct (String.eqb reason "fake")] | | destruct (String.eqb reason "cutout");
        [| destruct (String.eqb reason "fake")] | | destruct (String.eqb reason "cutout");
        [| destruct (String.eqb reason "fake")]];
      assumption.
  - (* LoadFromHistory *)
    destruct (nth_error (history s) n); split; [|split| |split]; assumption.
  - (* Start *)
    destruct (gen_begin op s) as [[s1 fl]|] eqn:Hb; [|split; [|split]; assumption].
    apply gen_begin_some in Hb as (-> & _).
    split; [|split]; cbn [app inflight]; rewrite existsb_snoc; intros H.
    + apply orb_true_r.
    + destruct op; now rewrite (He H).
    + destruct op; now rewrite (Hs H).
  - (* StartEnhance *)
    destruct (enhancePrompt_begin s) as [[s1 req]|] eqn:Hb;
      [|split; [|split]; assumption].
    revert Hb. unfold enhancePrompt_begin.
    destruct (negb (Js.truthy (Js.trim (prompt s)))); [discriminate|].
    intros H. injection H as <- _.
    split; [|split]; cbn [app inflight]; rewrite existsb_snoc; intros H.
    + now rewrite (Hl H).
    + apply orb_true_r.
    + now rewrite (Hs H).
  - (* Settle *)
    destruct (nth_error fs k) as [f|] eqn:Hk; [|split; [|split]; assumption].
    unfold busyFlagsBacked. cbn [app inflight].
    destruct f as [op fl| |]; cbn [settle].
    + split; [|split].
      * rewrite gen_settle_loading. discriminate.
      * rewrite (existsb_removeNth isEnhance k fs _ Hk eq_refl).
        intros H. apply He. revert H.
        destruct op; eval_handlers; branch; auto.
      * rewrite (existsb_removeNth isSceneRef k fs _ Hk eq_refl).
        intros H. apply Hs. revert H.
        destruct op; eval_handlers; branch; auto.
    + split; [|split].
      * rewrite (existsb_removeNth isGeneration k fs _ Hk eq_refl).
        intros H. apply Hl. revert H. eval_handlers; branch; auto.
      * unfold enhancePrompt_settle. cbn. discriminate.
      * rewrite (existsb_removeNth isSceneRef k fs _ Hk eq_refl).
        intros H. apply Hs. revert H. eval_handlers; branch; auto.
    + split; [|split].
      * rewrite (existsb_removeNth isGeneration k fs _ Hk eq_refl).
        intros H. apply Hl. revert H. eval_handlers; branch; auto.
      * rewrite (existsb_removeNth isEnhance k fs _ Hk eq_refl).
        intros H. apply He. revert H. eval_handlers; branch; auto.
      * unfold analyzeSceneRef_settle. cbn. discriminate.
Qed.

(** X20. No busy indicator outlives its calls: along every run, [loading]
    is true only while a generation call is in flight, [enhancing] only
    while a prompt enhancement is, and [analyzingSceneRef] only while a
    scene analysis is. *)
Theorem busy_flags_need_a_call_in_flight (evs : list Event) (t0 : Z) :
  (loading (app (run evs (initialWorld t0))) = true ->
   existsb isGeneration (inflight (run evs (initialWorld t0))) = true)
  /\ (enhancing (app (run evs (initialWorld t0))) = true ->
      existsb isEnhance (inflight (run evs (initialWorld t0))) = true)
  /\ (analyzingSceneRef (app (run evs (initialWorld t0))) = true ->
      existsb isSceneRef (inflight (run evs (initialWorld t0))) = true).
Proof.
  apply (run_preserves busyFlagsBacked busyFlagsBacked_step).
  repeat split; discriminate.
Qed.

(** ** The scene reference *)

(** X21. A reference scenario joins the background request: once an image
    file has been accepted as scene reference, every background request
    carries its payload and MIME type as a third part and ends its text
    with the note about the second image; after a reset the request is
    back to two parts.  A file that is not an image is ignored without a
    message. *)
Theorem scene_reference_joins_request (mime payload : string) (s : AppState) :
  Js.startsWith "image/" mime = true ->
  Js.occurs "," mime = false -> Js.occurs ";" mime = false ->
  Js.occurs ":" mime = false -> Js.occurs "," payload = false ->
  (exists s1 req,
      handleSceneRefUpload_begin (mkFile mime (Some (dataURL mime payload))) s
      = Some (s1, req)
      /\ (forall img,
             backgroundParts img s1
             = [ Api.textPart (backgroundFullPrompt s1 ++ sceneReferenceNote);
                 Api.inlinePart (mimeOf img) (base64Of img);
                 Api.inlinePart (Some mime) (Some payload) ])
      /\ (forall img,
             backgroundParts img (handleReset s1)
             = [ Api.textPart (backgroundFullPrompt (handleReset s1));
                 Api.inlinePart (mimeOf img) (base64Of img) ]))
  /\ (forall ai file,
         Js.startsWith "image/" (fileType file) = false ->
         handleSceneRefUpload ai file s = s).
Proof.
  intros Ht H1 H2 H3 H4. split.
  - unfold handleSceneRefUpload_begin. cbn [fileType fileResult]. rewrite Ht.
    cbn [negb]. change (Js.truthy (dataURL mime payload)) with true. cbv iota.
    eexists. eexists. split; [reflexivity|]. split.
    + intros img. unfold backgroundParts, analyzeSceneRef_begin.
      cbn [fst sceneRefImage setAnalyzingSceneRef setSceneRefImage].
      change (Js.truthy (dataURL mime payload)) with true. cbv iota.
      rewrite (mimeOf_dataURL _ _ H2 H3), (base64Of_dataURL _ _ H1 H4).
      reflexivity.
    + intros img. reflexivity.
  - intros ai file Hf. unfold handleSceneRefUpload, handleSceneRefUpload_begin.
    rewrite Hf. reflexivity.
Qed.

Lemma scene_reference_joins_request_witness :
  handleSceneRefUpload (fun _ => Api.Returns textOnlyResponse) pdfFile initialState
  = initialState.
Proof.
  exact (proj2 (scene_reference_joins_request "image/jpeg" "/9j/4A==" initialState
                  eq_refl eq_refl eq_refl eq_refl eq_refl)
           (fun _ => Api.Returns textOnlyResponse) pdfFile eq_refl).
Defined.

(** ** The prompt inspector *)

(** X22. What an analysis leaves in the prompt inspector.  [loading] is
    cleared in every case.  When the call returns, the result is the
    response's text, or an empty JSON object when the text is missing or
    empty, and the main state is untouched.  When the call throws an auth
    error, there is no result and the main state is the earlier one with
    [hasApiKey] set to false.  When it throws any other error, the result
    is the fixed error JSON and the main state is untouched.  A result that
    is set is never the empty string. *)
Theorem inspector_result_after_analysis (image : string) (res : Api.Outcome)
    (s : AppState) (t : PromptInspector.State) :
  let after :=
    PromptInspector.analyzeImage_settle res
      (fst (PromptInspector.analyzeImage_begin image (s, t))) in
  PromptInspector.loading (snd after) = false
  /\ PromptInspector.copied (snd after) = PromptInspector.copied t
  /\ match res with
     | Api.Returns r =>
         fst after = s
         /\ PromptInspector.jsonResult (snd after)
            = Some (if Js.truthy_opt (Api.responseText r)
                    then match Api.responseText r with Some x => x | None => "{}" end
                    else "{}")
     | Api.Throws e =>
         if isAuthError e
         then fst after = (s |> setHasApiKey false)
              /\ hasApiKey (fst after) = false
              /\ PromptInspector.jsonResult (snd after) = None
         else fst after = s
              /\ PromptInspector.jsonResult (snd after)
                 = Some PromptInspector.failedJson
     end
  /\ (forall j, PromptInspector.jsonResult (snd after) = Some j -> Js.truthy j = true).
Proof.
  cbn zeta. unfold PromptInspector.analyzeImage_begin, PromptInspector.analyzeImage_settle.
  cbn [fst snd]. destruct res as [r|e].
  - cbn. split; [reflexivity|]. split; [reflexivity|]. split.
    + split; [reflexivity|].
      destruct (Api.responseText r) as [x|]; [destruct (Js.truthy x) eqn:Hx|];
        cbn; rewrite ?Hx; reflexivity.
    + intros j H. injection H as <-.
      destruct (Api.responseText r) as [x|]; [destruct (Js.truthy x) eqn:Hx|];
        [exact Hx | reflexivity | reflexivity].
  - destruct (isAuthError e) eqn:Ha; cbn.
    + split; [reflexivity|]. split; [reflexivity|]. split; [|discriminate].
      repeat split.
    + split; [reflexivity|]. split; [reflexivity|]. split; [split; reflexivity|].
      intros j H. injection H as <-. reflexivity.
Qed.
